(** * terra-draw: the select-mode editing behaviours

    A shallow embedding of the behaviours that edit a selected feature:

    - [DragCoordinate] : src/modes/select/behaviors/drag-coordinate.behavior.ts
    - [ScaleFeature]   : src/modes/select/behaviors/scale-feature.behavior.ts
    - [DragFeatureClamp]    : the DragFeatureBehavior of part_001
      (the delta is clamped, the anchor is set by the caller)
    - [DragFeatureShadowed] : the first DragFeatureBehavior of part_002
      (a clamping pass followed by a range check)
    - [DragFeature]         : the second DragFeatureBehavior of part_002
      (range check and limitPrecision)
    - [MapboxAdapter]       : the TerraDrawMapboxGLAdapter of part_000
      (what it calls on the map, kept as a log of calls)

    A JavaScript number is modelled as an exact rational: the rounding of
    floating-point arithmetic is left out.  The behaviours subtract,
    compare and, in one place, divide; the division is where a result can
    stop being a finite number, and it is modelled as partial ([jsDiv]). *)

From Stdlib Require Import QArith Qround Qabs Lqa.
From Stdlib Require Import Ascii DecimalString.
From stdpp Require Import gmap strings list fin_maps.

Local Open Scope Q_scope.

(** ** Numbers *)

(** [a < b] on numbers. *)
Definition Qltb (a b : Q) : bool := negb (Qle_bool b a).

(** [a / b]: [None] when the divisor is zero, where JavaScript yields
    [Infinity], [-Infinity] or [NaN] instead of a finite number. *)
Definition jsDiv (a b : Q) : option Q :=
  if Qeq_bool b 0 then None else Some (a / b).

(** Modelled from the spec: limitPrecision of
    geometry/limit-decimal-precision, which is imported by the behaviours
    but is not among the sources.  A value is rounded to [decimalLimit]
    decimal places, to the nearest, a half going up. *)
Definition limitPrecision (num : Q) (decimalLimit : nat) : Q :=
  let decimals := Z.pow 10 (Z.of_nat decimalLimit) in
  Qmake (Qfloor (num * inject_Z decimals + (1 # 2))) (Z.to_pos decimals).

(** [q] is a value rounded to [decimalLimit] decimal places: rounding it
    again gives the same number. *)
Definition hasPrecision (decimalLimit : nat) (q : Q) : Prop :=
  limitPrecision q decimalLimit == q.

(** ** GeoJSON geometries *)

(** A position is [[longitude, latitude]]. *)
Abbreviation Position := (Q * Q)%type (only parsing).

Inductive Geometry : Type :=
| Point (coordinates : Position)
| LineString (coordinates : list Position)
| Polygon (coordinates : list (list Position)).

Definition isPolygon (g : Geometry) : bool :=
  match g with Polygon _ => true | _ => false end.

(** The ring closure invariant of a polygon ring: the first and the last
    coordinate are the same. *)
Definition closedRing (ring : list Position) : Prop :=
  head ring = last ring.

(** ** The store *)

Record ChangeRecord : Type := mkChange {
  created : list string;
  updated : list string;
  unchanged : list string;
  deletedIds : list string
}.

(** Modelled from the spec: the Geometry Store, which the behaviours reach
    through [this.store] and which is not among the sources.  It owns the
    geometry of every feature and keeps the Change Records it has emitted. *)
Record GeoJSONStore : Type := mkStore {
  features : gmap string Geometry;
  emitted : list ChangeRecord
}.

Inductive Error : Type :=
| NotFoundError   (* the store was asked about an id it does not hold *)
| TypeError.      (* a property of [undefined] was read *)

(** Modelled from the spec: getGeometryCopy(id) gives a copy of the stored
    geometry and fails when the id is absent. *)
Definition getGeometryCopy (id : string) (s : GeoJSONStore) : option Geometry :=
  features s !! id.

Definition knownIds (us : list (string * Geometry)) (s : GeoJSONStore) : bool :=
  forallb (fun u => bool_decide (is_Some (features s !! u.1))) us.

(** Modelled from the spec: updateGeometry(list) replaces the geometry of
    every listed record and emits one Change Record that marks the listed
    ids as updated; when an id is not present nothing is applied. *)
Definition updateGeometry (us : list (string * Geometry)) (s : GeoJSONStore)
  : option GeoJSONStore :=
  if knownIds us s then
    Some {| features := foldl (fun m u => <[u.1 := u.2]> m) (features s) us;
            emitted := emitted s ++ [mkChange [] (us.*1) [] []] |}
  else None.

(** ** Pointer events, configuration, outcomes *)

Record TerraDrawMouseEvent : Type := mkEvent {
  lng : Q;
  lat : Q;
  containerX : Q;
  containerY : Q;
  setDraggability : bool   (* whether the optional callback is present *)
}.

Record BehaviorConfig : Type := mkConfig {
  pointerDistance : Q;
  coordinatePrecision : nat
}.

(** What the behaviours share: the store, and whether the host map still
    pans on a drag (what [event.setDraggability] switches). *)
Record World : Type := mkWorld {
  store : GeoJSONStore;
  mapDraggable : bool
}.

Definition callSetDraggability (event : TerraDrawMouseEvent) (w : World) : World :=
  if setDraggability event then {| store := store w; mapDraggable := false |} else w.

(** The outcome of a method call on a behaviour whose state has type [S]:
    it returns a value or throws, in a final state.  [Escaped]: the call
    goes on with a value this model has no room for, an array with holes
    or a number that is not finite. *)
Inductive Outcome (S A : Type) : Type :=
| Returned (a : A) (s : S)
| Threw (e : Error) (s : S)
| Escaped.

Arguments Returned {S A} a s.
Arguments Threw {S A} e s.
Arguments Escaped {S A}.

(** ** Arrays *)

(** The coordinate array a behaviour works on: the coordinates of a
    LineString, [coordinates[0]] of a Polygon.  [None] is [undefined]: a
    Polygon without any ring (and a Point, which no caller passes). *)
Definition ringOf (g : Geometry) : option (list Position) :=
  match g with
  | Point _ => None
  | LineString cs => Some cs
  | Polygon rings => head rings
  end.

(** The geometry after its coordinate array was changed in place. *)
Definition withRing (g : Geometry) (cs : list Position) : Geometry :=
  match g with
  | Point c => Point c
  | LineString _ => LineString cs
  | Polygon rings => Polygon (cs :: tail rings)
  end.

(** [a[i] = v] on a JavaScript array, for an integral [i].  Inside the array
    the element is replaced; at [i = a.length] the array grows by one; a
    negative [i] names a property, not an element, and the elements stay as
    they are; past the length the array would be left with holes, which a
    list of positions cannot hold: [None]. *)
Definition arraySet {A : Type} (a : list A) (i : Z) (v : A) : option (list A) :=
  if (i <? 0)%Z then Some a
  else if (i <? Z.of_nat (length a))%Z then Some (<[Z.to_nat i := v]> a)
  else if (i =? Z.of_nat (length a))%Z then Some (a ++ [v])
  else None.

(** How a [for] loop over the coordinates ends. *)
Inductive LoopExit : Type :=
| Done (cs : list Position)   (* ran to its end, with these coordinates *)
| ReturnFalse                 (* [return false] from inside the loop *)
| ReadUndefined.              (* an element of [undefined] was read *)

(** The range check of the two part_002 variants. *)
Definition outOfRange (updatedLng updatedLat : Q) : bool :=
  Qltb 180 updatedLng || Qltb updatedLng (-180)
  || Qltb 90 updatedLat || Qltb updatedLat (-90).

(** "Set final coordinate identical to first": [None] when there is no
    first coordinate to read. *)
Definition closeRing (updatedCoords : list Position) : option (list Position) :=
  match updatedCoords !! 0%nat with
  | None => None
  | Some first => Some (<[(length updatedCoords - 1)%nat := (first.1, first.2)]> updatedCoords)
  end.

(** [x || []] for what a handle manager's getUpdated returns. *)
Definition orEmpty {A : Type} (x : option (list A)) : list A := default [] x.

(** [upToCoord] of the Feature-Drag classes: the closing coordinate of a
    Polygon is left out. *)
Definition upTo (geometry : Geometry) (updatedCoords : list Position) : Z :=
  if isPolygon geometry
  then (Z.of_nat (length updatedCoords) - 1)%Z
  else Z.of_nat (length updatedCoords).

(** The literal index, 0 or 1, into a position or into [delta]. *)
Inductive DeltaIdx : Type := Idx0 | Idx1.

Definition at_ (p : Position) (i : DeltaIdx) : Q :=
  match i with Idx0 => p.1 | Idx1 => p.2 end.

Definition setAt (p : Position) (i : DeltaIdx) (v : Q) : Position :=
  match i with Idx0 => (v, p.2) | Idx1 => (p.1, v) end.

(** validateDeltaRange, declared inside [drag] in part_001 and in the first
    class of part_002, in the same words.  It writes the [delta] of the
    enclosing call: the result is that [delta] afterwards. *)
Definition validateDeltaRange (deltaIdx : DeltaIdx) (position : Position)
    (min max : Q) (delta : Position) : Position :=
  let updatedCoordinate := at_ position deltaIdx - at_ delta deltaIdx in
  let delta :=
    if Qltb updatedCoordinate min
    then setAt delta deltaIdx (min - at_ position deltaIdx) else delta in
  let delta :=
    if Qltb max updatedCoordinate
    then setAt delta deltaIdx (max - at_ position deltaIdx) else delta in
  delta.

(** "make delta to not update a coordinate outside the map", the loop over
    validateDeltaRange of the same two classes: [n] turns from index [i];
    [None] when an element of [undefined] is read. *)
Fixpoint clampLoop (n i : nat) (updatedCoords : list Position)
    (delta : Position) : option Position :=
  match n with
  | O => Some delta
  | S n' =>
      match updatedCoords !! i with
      | None => None
      | Some coordinate =>
          clampLoop n' (S i) updatedCoords
            (validateDeltaRange Idx1 coordinate (-85) 85 delta)
      end
  end.

(** ** Coordinate-Drag *)

Module DragCoordinate.
Section Behavior.
Variable config : BehaviorConfig.
(** pixelDistance.measure(event, coord) of pixel-distance.behavior: the
    distance in pixels between the event and the projected coordinate. *)
Variable measure : TerraDrawMouseEvent -> Position -> Q.

Record Closest : Type := mkClosest {
  dist : option Q;                   (* [None] is [Infinity] *)
  index : Z;
  isFirstOrLastPolygonCoord : bool
}.

Definition belowDist (distance : Q) (d : option Q) : bool :=
  match d with None => true | Some d' => Qltb distance d' end.

(** One turn of the loop of isCoordinateNearEvent, at index [i]. *)
Definition visit (event : TerraDrawMouseEvent) (polygon : bool) (len : nat)
    (i : nat) (coord : Position) (closestCoordinate : Closest) : Closest :=
  let distance := measure event coord in
  if Qltb distance (pointerDistance config)
     && belowDist distance (dist closestCoordinate)
  then
    let isFirstOrLast :=
      polygon && ((Z.of_nat i =? Z.of_nat len - 1)%Z || (Z.of_nat i =? 0)%Z) in
    {| dist := Some distance;
       index := if isFirstOrLast then 0%Z else Z.of_nat i;
       isFirstOrLastPolygonCoord := isFirstOrLast |}
  else closestCoordinate.

(** The loop from index [i] on, [rest] being the coordinates from there. *)
Fixpoint scan (event : TerraDrawMouseEvent) (polygon : bool) (len : nat)
    (i : nat) (rest : list Position) (closestCoordinate : Closest) : Closest :=
  match rest with
  | [] => closestCoordinate
  | coord :: rest' =>
      scan event polygon len (S i) rest'
        (visit event polygon len i coord closestCoordinate)
  end.

Definition isCoordinateNearEvent (event : TerraDrawMouseEvent)
    (selectedId : string) (w : World) : Outcome World Z :=
  match getGeometryCopy selectedId (store w) with
  | None => Threw NotFoundError w
  | Some (Point _) => Returned (-1)%Z w
  | Some geometry =>
      match ringOf geometry with
      | None => Threw TypeError w
      | Some geomCoordinates =>
          let closestCoordinate :=
            scan event (isPolygon geometry) (length geomCoordinates) 0
              geomCoordinates (mkClosest None (-1)%Z false) in
          Returned (index closestCoordinate) w
      end
  end.

(** "We want to update the actual Polygon/LineString itself - for Polygons
    we want the first and last coordinates to match": the array after the
    writes, [None] when a write leaves holes. *)
Definition writeCoordinate (polygon : bool) (geomCoordinates : list Position)
    (index : Z) (updatedCoordinate : Position) : option (list Position) :=
  let len := Z.of_nat (length geomCoordinates) in
  let isFirstOrLastPolygonCoord :=
    polygon && ((index =? len - 1)%Z || (index =? 0)%Z) in
  if isFirstOrLastPolygonCoord then
    let lastCoordIndex := (len - 1)%Z in
    a ← arraySet geomCoordinates 0 updatedCoordinate;
    arraySet a lastCoordIndex updatedCoordinate
  else arraySet geomCoordinates index updatedCoordinate.

Definition drag (event : TerraDrawMouseEvent) (selectedId : string)
    (index : Z) (w : World) : Outcome World bool :=
  match getGeometryCopy selectedId (store w) with
  | None => Threw NotFoundError w
  | Some (Point _) => Returned false w
  | Some geometry =>
      let w := callSetDraggability event w in
      match ringOf geometry with
      | None => Threw TypeError w
      | Some geomCoordinates =>
          let updatedCoordinate := (lng event, lat event) in
          match writeCoordinate (isPolygon geometry) geomCoordinates index
                  updatedCoordinate with
          | None => Escaped
          | Some coords =>
              match updateGeometry [(selectedId, withRing geometry coords)] (store w) with
              | None => Threw NotFoundError w
              | Some s => Returned true {| store := s; mapDraggable := mapDraggable w |}
              end
          end
      end
  end.
End Behavior.
End DragCoordinate.

(** ** Feature-Drag, part_001: the delta is clamped *)

Module DragFeatureClamp.
Section Behavior.
(** selectionPoints.getUpdated and midPoints.getUpdated, of the two handle
    managers: the updates of the handle records for the new coordinates,
    or [undefined]. *)
Variable selectionPointsGetUpdated : list Position -> option (list (string * Geometry)).
Variable midPointsGetUpdated : list Position -> option (list (string * Geometry)).

(** [dragPosition] is written by the caller, through the [position]
    setter; [drag] only reads it. *)
Record State : Type := mkState {
  world : World;
  dragPosition : option Position
}.

(** The loop that moves the coordinates. *)
Fixpoint shiftLoop (delta : Position) (n i : nat)
    (updatedCoords : list Position) : LoopExit :=
  match n with
  | O => Done updatedCoords
  | S n' =>
      match updatedCoords !! i with
      | None => ReadUndefined
      | Some coordinate =>
          shiftLoop delta n' (S i)
            (<[i := (coordinate.1 - delta.1, coordinate.2 - delta.2)]> updatedCoords)
      end
  end.

Definition commit (selectedId : string) (geometry : Geometry)
    (updatedCoords : list Position) (st : State) : Outcome State (option bool) :=
  let updatedSelectionPoints := orEmpty (selectionPointsGetUpdated updatedCoords) in
  let updatedMidPoints := orEmpty (midPointsGetUpdated updatedCoords) in
  match updateGeometry
          ((selectedId, withRing geometry updatedCoords)
             :: updatedSelectionPoints ++ updatedMidPoints)
          (store (world st)) with
  | None => Threw NotFoundError st
  | Some s =>
      Returned None
        {| world := {| store := s; mapDraggable := mapDraggable (world st) |};
           dragPosition := dragPosition st |}
  end.

(** [drag(event, selectedId)]; the value returned is [false]
    ([Some false]) or [undefined] ([None]). *)
Definition drag (event : TerraDrawMouseEvent) (selectedId : string)
    (st : State) : Outcome State (option bool) :=
  let st := {| world := callSetDraggability event (world st);
               dragPosition := dragPosition st |} in
  match getGeometryCopy selectedId (store (world st)) with
  | None => Threw NotFoundError st
  | Some (Point _) =>
      let mouseCoord := (lng event, lat event) in
      match updateGeometry [(selectedId, Point mouseCoord)] (store (world st)) with
      | None => Threw NotFoundError st
      | Some s =>
          Returned None
            {| world := {| store := s; mapDraggable := mapDraggable (world st) |};
               dragPosition := dragPosition st |}
      end
  | Some geometry =>
      let mouseCoord := (lng event, lat event) in
      match ringOf geometry with
      | None => Threw TypeError st
      | Some updatedCoords =>
          let upToCoord := upTo geometry updatedCoords in
          match dragPosition st with
          | None => Returned (Some false) st
          | Some dragPosition =>
              let delta :=
                (dragPosition.1 - mouseCoord.1, dragPosition.2 - mouseCoord.2) in
              match clampLoop (Z.to_nat upToCoord) 0 updatedCoords delta with
              | None => Threw TypeError st
              | Some delta =>
                  match shiftLoop delta (Z.to_nat upToCoord) 0 updatedCoords with
                  | ReturnFalse => Returned (Some false) st
                  | ReadUndefined => Threw TypeError st
                  | Done updatedCoords =>
                      if isPolygon geometry then
                        match closeRing updatedCoords with
                        | None => Threw TypeError st
                        | Some updatedCoords => commit selectedId geometry updatedCoords st
                        end
                      else commit selectedId geometry updatedCoords st
                  end
              end
          end
      end
  end.
End Behavior.
End DragFeatureClamp.

(** ** Feature-Drag, part_002 *)

(** The private fields of both DragFeatureBehavior classes of part_002. *)
Record DragState : Type := mkDragState {
  world : World;
  draggedFeatureId : option string;   (* [None] is [null] *)
  dragPosition : option Position      (* [None] is [undefined] *)
}.

Definition startDragging (event : TerraDrawMouseEvent) (id : string)
    (st : DragState) : DragState :=
  {| world := world st;
     draggedFeatureId := Some id;
     dragPosition := Some (lng event, lat event) |}.

Definition stopDragging (st : DragState) : DragState :=
  {| world := world st; draggedFeatureId := None; dragPosition := None |}.

Definition isDragging (st : DragState) : bool :=
  match draggedFeatureId st with Some _ => true | None => false end.

(** The id that [drag] goes on with: none when [!this.draggedFeatureId]
    holds, for [null] and for the empty string. *)
Definition draggedFeature (st : DragState) : option string :=
  match draggedFeatureId st with
  | None => None
  | Some id => if String.eqb id "" then None else Some id
  end.

(** The update that ends a successful tick: the store after updateGeometry
    and [this.dragPosition = [event.lng, event.lat]]. *)
Definition committed (event : TerraDrawMouseEvent) (s : GeoJSONStore)
    (st : DragState) : DragState :=
  {| world := {| store := s; mapDraggable := mapDraggable (world st) |};
     draggedFeatureId := draggedFeatureId st;
     dragPosition := Some (lng event, lat event) |}.

Section DragFeatureCommon.
Variable selectionPointsGetUpdated : list Position -> option (list (string * Geometry)).
Variable midPointsGetUpdated : list Position -> option (list (string * Geometry)).

(** From "Set final coordinate identical to first" to the end of the
    LineString/Polygon branch, which both classes share word for word. *)
Definition finishDrag (event : TerraDrawMouseEvent) (id : string)
    (geometry : Geometry) (updatedCoords : list Position)
    (st : DragState) : Outcome DragState (option bool) :=
  match (if isPolygon geometry then closeRing updatedCoords else Some updatedCoords) with
  | None => Threw TypeError st
  | Some updatedCoords =>
      let updatedSelectionPoints := orEmpty (selectionPointsGetUpdated updatedCoords) in
      let updatedMidPoints := orEmpty (midPointsGetUpdated updatedCoords) in
      match updateGeometry
              ((id, withRing geometry updatedCoords)
                 :: updatedSelectionPoints ++ updatedMidPoints)
              (store (world st)) with
      | None => Threw NotFoundError st
      | Some s => Returned None (committed event s st)
      end
  end.

(** The Point branch, also shared. *)
Definition dragPoint (event : TerraDrawMouseEvent) (id : string)
    (st : DragState) : Outcome DragState (option bool) :=
  let mouseCoord := (lng event, lat event) in
  match updateGeometry [(id, Point mouseCoord)] (store (world st)) with
  | None => Threw NotFoundError st
  | Some s => Returned None (committed event s st)
  end.
End DragFeatureCommon.

(** *** The first class of part_002: a clamping pass, then a range check *)

Module DragFeatureShadowed.
Section Behavior.
Variable selectionPointsGetUpdated : list Position -> option (list (string * Geometry)).
Variable midPointsGetUpdated : list Position -> option (list (string * Geometry)).

(** The body of the second loop, for [coordinate]: [None] when the range
    check fails, else the coordinate it stores.  Its first argument is
    the [delta] of [drag], which is in scope there; the body declares a
    [delta] of its own. *)
Definition shifted (delta : Position) (dragPosition mouseCoord coordinate : Position)
  : option Position :=
  let delta := (dragPosition.1 - mouseCoord.1, dragPosition.2 - mouseCoord.2) in
  let updatedLng := coordinate.1 - delta.1 in
  let updatedLat := coordinate.2 - delta.2 in
  if outOfRange updatedLng updatedLat then None
  else Some (updatedLng, coordinate.2 - delta.2).

Fixpoint shiftLoop (delta : Position) (dragPosition mouseCoord : Position)
    (n i : nat) (updatedCoords : list Position) : LoopExit :=
  match n with
  | O => Done updatedCoords
  | S n' =>
      match updatedCoords !! i with
      | None => ReadUndefined
      | Some coordinate =>
          match shifted delta dragPosition mouseCoord coordinate with
          | None => ReturnFalse
          | Some c =>
              shiftLoop delta dragPosition mouseCoord n' (S i)
                (<[i := c]> updatedCoords)
          end
      end
  end.

(** The LineString/Polygon branch from the computation of [delta] on;
    [clamp] says whether the clamping loop is there. *)
Definition dragRing (clamp : bool) (event : TerraDrawMouseEvent) (id : string)
    (geometry : Geometry) (updatedCoords : list Position)
    (dragPosition : Position) (st : DragState)
    : Outcome DragState (option bool) :=
  let mouseCoord := (lng event, lat event) in
  let upToCoord := upTo geometry updatedCoords in
  let delta := (dragPosition.1 - mouseCoord.1, dragPosition.2 - mouseCoord.2) in
  match (if clamp then clampLoop (Z.to_nat upToCoord) 0 updatedCoords delta
         else Some delta) with
  | None => Threw TypeError st
  | Some delta =>
      match shiftLoop delta dragPosition mouseCoord (Z.to_nat upToCoord) 0
              updatedCoords with
      | ReturnFalse => Returned (Some false) st
      | ReadUndefined => Threw TypeError st
      | Done updatedCoords =>
          finishDrag selectionPointsGetUpdated midPointsGetUpdated
            event id geometry updatedCoords st
      end
  end.

Definition dragWith (clamp : bool) (event : TerraDrawMouseEvent)
    (st : DragState) : Outcome DragState (option bool) :=
  match draggedFeature st with
  | None => Returned None st
  | Some id =>
      match getGeometryCopy id (store (world st)) with
      | None => Threw NotFoundError st
      | Some (Point _) => dragPoint event id st
      | Some geometry =>
          match ringOf geometry with
          | None => Threw TypeError st
          | Some updatedCoords =>
              match dragPosition st with
              | None => Returned (Some false) st
              | Some dragPosition =>
                  dragRing clamp event id geometry updatedCoords dragPosition st
              end
          end
      end
  end.

(** [drag(event)] as it is written. *)
Definition drag : TerraDrawMouseEvent -> DragState -> Outcome DragState (option bool) :=
  dragWith true.

(** [drag(event)] with the loop "make delta to not update a coordinate
    outside the map" taken out. *)
Definition dragWithoutClamp
  : TerraDrawMouseEvent -> DragState -> Outcome DragState (option bool) :=
  dragWith false.
End Behavior.
End DragFeatureShadowed.

(** *** The second class of part_002: range check and limitPrecision *)

Module DragFeature.
Section Behavior.
Variable config : BehaviorConfig.
Variable selectionPointsGetUpdated : list Position -> option (list (string * Geometry)).
Variable midPointsGetUpdated : list Position -> option (list (string * Geometry)).

(** What one turn of the loop computes for [coordinate]: [None] when the
    range check fails, else the coordinate it stores. *)
Definition shifted (dragPosition mouseCoord coordinate : Position) : option Position :=
  let delta := (dragPosition.1 - mouseCoord.1, dragPosition.2 - mouseCoord.2) in
  let updatedLng := coordinate.1 - delta.1 in
  let updatedLat := coordinate.2 - delta.2 in
  if outOfRange updatedLng updatedLat then None
  else Some (limitPrecision updatedLng (coordinatePrecision config),
             limitPrecision (coordinate.2 - delta.2) (coordinatePrecision config)).

Fixpoint shiftLoop (dragPosition mouseCoord : Position) (n i : nat)
    (updatedCoords : list Position) : LoopExit :=
  match n with
  | O => Done updatedCoords
  | S n' =>
      match updatedCoords !! i with
      | None => ReadUndefined
      | Some coordinate =>
          match shifted dragPosition mouseCoord coordinate with
          | None => ReturnFalse
          | Some c => shiftLoop dragPosition mouseCoord n' (S i) (<[i := c]> updatedCoords)
          end
      end
  end.

Definition dragRing (event : TerraDrawMouseEvent) (id : string)
    (geometry : Geometry) (updatedCoords : list Position)
    (dragPosition : Position) (st : DragState)
    : Outcome DragState (option bool) :=
  let mouseCoord := (lng event, lat event) in
  let upToCoord := upTo geometry updatedCoords in
  match shiftLoop dragPosition mouseCoord (Z.to_nat upToCoord) 0 updatedCoords with
  | ReturnFalse => Returned (Some false) st
  | ReadUndefined => Threw TypeError st
  | Done updatedCoords =>
      finishDrag selectionPointsGetUpdated midPointsGetUpdated
        event id geometry updatedCoords st
  end.

(** [drag(event)]; the value returned is [false] ([Some false]) or
    [undefined] ([None]). *)
Definition drag (event : TerraDrawMouseEvent) (st : DragState)
    : Outcome DragState (option bool) :=
  match draggedFeature st with
  | None => Returned None st
  | Some id =>
      match getGeometryCopy id (store (world st)) with
      | None => Threw NotFoundError st
      | Some (Point _) => dragPoint event id st
      | Some geometry =>
          match ringOf geometry with
          | None => Threw TypeError st
          | Some updatedCoords =>
              match dragPosition st with
              | None => Returned (Some false) st
              | Some dragPosition =>
                  dragRing event id geometry updatedCoords dragPosition st
              end
          end
      end
  end.
End Behavior.
End DragFeature.

(** ** Feature-Scale *)

Module ScaleFeature.
Section Behavior.
Variable config : BehaviorConfig.
Variable selectionPointsGetUpdated : list Position -> option (list (string * Geometry)).
Variable midPointsGetUpdated : list Position -> option (list (string * Geometry)).
(** centroid and haversineDistanceKilometers of geometry/, imported by
    the behaviour: the centroid of a geometry, the great-circle distance
    between two positions. *)
Variable centroid : Geometry -> Position.
Variable haversineDistanceKilometers : Position -> Position -> Q.
(** The map that transformScale applies to a coordinate, for an origin
    and a factor. *)
Variable scaleAbout : Position -> Q -> Position -> Position.

Record State : Type := mkState {
  world : World;
  lastDistance : option Q       (* [None] is [undefined] *)
}.

Definition reset (st : State) : State :=
  {| world := world st; lastDistance := None |}.

(** [!this.lastDistance]: [undefined] and zero are falsy. *)
Definition noLastDistance (st : State) : bool :=
  match lastDistance st with
  | None => true
  | Some d => Qeq_bool d 0
  end.

(** [1 - (this.lastDistance - distance) / distance] *)
Definition scaleFactor (lastDistance distance : Q) : option Q :=
  q ← jsDiv (lastDistance - distance) distance; Some (1 - q).

(** Modelled from the spec: transformScale of geometry/transform/scale,
    which is not among the sources, "applies a uniform affine scale
    transform of that factor to every coordinate about the centroid",
    in place. *)
Definition transformScale (geometry : Geometry) (factor : Q) : Geometry :=
  let origin := centroid geometry in
  match geometry with
  | Point c => Point c
  | LineString cs => LineString (map (scaleAbout origin factor) cs)
  | Polygon rings => Polygon (map (map (scaleAbout origin factor)) rings)
  end.

(** "Ensure that coordinate precision is maintained" *)
Definition limitCoordinate (coordinate : Position) : Position :=
  (limitPrecision coordinate.1 (coordinatePrecision config),
   limitPrecision coordinate.2 (coordinatePrecision config)).

Definition scale (event : TerraDrawMouseEvent) (selectedId : string)
    (st : State) : Outcome State unit :=
  match getGeometryCopy selectedId (store (world st)) with
  | None => Threw NotFoundError st
  | Some (Point _) => Returned tt st
  | Some geometry =>
      let st := {| world := callSetDraggability event (world st);
                   lastDistance := lastDistance st |} in
      let mouseCoord := (lng event, lat event) in
      let distance := haversineDistanceKilometers (centroid geometry) mouseCoord in
      if noLastDistance st then
        Returned tt {| world := world st; lastDistance := Some distance |}
      else
        match scaleFactor (default 0 (lastDistance st)) distance with
        | None => Escaped
        | Some scale =>
            let geometry := transformScale geometry scale in
            match ringOf geometry with
            | None => Threw TypeError st
            | Some updatedCoords =>
                let updatedCoords := map limitCoordinate updatedCoords in
                let updatedMidPoints := orEmpty (midPointsGetUpdated updatedCoords) in
                let updatedSelectionPoints :=
                  orEmpty (selectionPointsGetUpdated updatedCoords) in
                match updateGeometry
                        ((selectedId, withRing geometry updatedCoords)
                           :: updatedSelectionPoints ++ updatedMidPoints)
                        (store (world st)) with
                | None => Threw NotFoundError st
                | Some s =>
                    Returned tt
                      {| world := {| store := s; mapDraggable := mapDraggable (world st) |};
                         lastDistance := Some distance |}
                end
            end
        end
  end.
End Behavior.
End ScaleFeature.

(** ** Observations used in the statements *)

(** A position inside the geographic range that the part_002 classes check. *)
Definition inRange (p : Position) : Prop :=
  -180 <= p.1 /\ p.1 <= 180 /\ -90 <= p.2 /\ p.2 <= 90.

(** Both values of a position are rounded to [decimalLimit] places. *)
Definition positionHasPrecision (decimalLimit : nat) (p : Position) : Prop :=
  hasPrecision decimalLimit p.1 /\ hasPrecision decimalLimit p.2.

(** The coordinate array of the feature [id] as the store holds it. *)
Definition storedRing (id : string) (s : GeoJSONStore) : option (list Position) :=
  g ← features s !! id; ringOf g.

(** The handle records are records of their own: no update that a handle
    manager hands out is addressed to the feature [id] itself. *)
Definition handlesApart
    (selectionPointsGetUpdated midPointsGetUpdated :
       list Position -> option (list (string * Geometry)))
    (id : string) : Prop :=
  forall cs u,
    u ∈ orEmpty (selectionPointsGetUpdated cs) ++ orEmpty (midPointsGetUpdated cs) ->
    u.1 <> id.

(** The handle updates are addressed to records that the store holds. *)
Definition handlesKnown
    (selectionPointsGetUpdated midPointsGetUpdated :
       list Position -> option (list (string * Geometry)))
    (s : GeoJSONStore) : Prop :=
  forall cs,
    knownIds (orEmpty (selectionPointsGetUpdated cs) ++ orEmpty (midPointsGetUpdated cs)) s
    = true.

(** The index that isCoordinateNearEvent reports for the coordinate at
    [m]: 0 for the first and for the last coordinate of a Polygon ring. *)
Definition reportedIndex (geometry : Geometry) (cs : list Position) (m : nat) : Z :=
  if isPolygon geometry
     && ((Z.of_nat m =? Z.of_nat (length cs) - 1)%Z || (Z.of_nat m =? 0)%Z)
  then 0%Z else Z.of_nat m.

(** [index] is the first or the last index of the array [cs]. *)
Definition firstOrLast (cs : list Position) (index : Z) : Prop :=
  index = 0%Z \/ index = (Z.of_nat (length cs) - 1)%Z.

(** What the loop of isCoordinateNearEvent has found after the coordinates
    in [prefix] of the array [cs]: nothing when none of them is below the
    tolerance, else the first of those at the least distance. *)
Definition scanned (config : BehaviorConfig)
    (measure : TerraDrawMouseEvent -> Position -> Q) (event : TerraDrawMouseEvent)
    (geometry : Geometry) (cs : list Position)
    (prefix : list Position) (closest : DragCoordinate.Closest) : Prop :=
  (DragCoordinate.dist closest = None /\
   DragCoordinate.index closest = (-1)%Z /\
   forall j c, prefix !! j = Some c -> ~ measure event c < pointerDistance config)
  \/
  (exists m c,
     prefix !! m = Some c /\
     DragCoordinate.dist closest = Some (measure event c) /\
     measure event c < pointerDistance config /\
     (forall j c', prefix !! j = Some c' -> measure event c <= measure event c') /\
     (forall j c', (j < m)%nat -> prefix !! j = Some c' ->
        measure event c < measure event c') /\
     DragCoordinate.index closest = reportedIndex geometry cs m).

(** ** Sample data *)

Definition square : list Position := [(0, 0); (0, 10); (10, 10); (10, 0); (0, 0)].

Definition storeOf (g : Geometry) : GeoJSONStore := mkStore {[ "f" := g ]} [].

Definition worldOf (g : Geometry) : World := mkWorld (storeOf g) true.

Definition pointerAt (x y : Q) : TerraDrawMouseEvent := mkEvent x y 0 0 true.

(** Handle managers that have no handles: getUpdated gives [undefined]. *)
Definition noHandles : list Position -> option (list (string * Geometry)) :=
  fun _ => None.

Definition sampleConfig : BehaviorConfig := mkConfig 40 6.

(** Stand-ins for the projection and the geodesic helpers, where a
    statement is tried on the sample data: degrees are taken for pixels
    and for kilometres, the distance is the city-block one, the centroid
    is the first coordinate. *)
Definition blockDistance (a b : Position) : Q :=
  Qabs (a.1 - b.1) + Qabs (a.2 - b.2).

Definition sampleMeasure (event : TerraDrawMouseEvent) (coord : Position) : Q :=
  blockDistance (lng event, lat event) coord.

Definition firstCoordinate (g : Geometry) : Position :=
  match g with
  | Point c => c
  | _ => default (0, 0) (ringOf g ≫= head)
  end.

Definition affineScale (origin : Position) (factor : Q) (p : Position) : Position :=
  (origin.1 + factor * (p.1 - origin.1), origin.2 + factor * (p.2 - origin.2)).

(** ** The shape the three coordinate loops share *)

(** [for (let i = ...; i < ...; i++) { const coordinate = updatedCoords[i];
    ...; updatedCoords[i] = ... }] with a body that either returns false
    ([step] gives [None]) or stores a coordinate.  Each class's loop is
    an instance (lemmas [*_shiftLoop_eq]). *)
Fixpoint mapUpTo (step : Position -> option Position) (n i : nat)
    (cs : list Position) : LoopExit :=
  match n with
  | O => Done cs
  | S n' =>
      match cs !! i with
      | None => ReadUndefined
      | Some coordinate =>
          match step coordinate with
          | None => ReturnFalse
          | Some c => mapUpTo step n' (S i) (<[i := c]> cs)
          end
      end
  end.

(** A drag of the sample feature in progress, for the classes of part_002
    and for the class of part_001. *)
Definition dragging (g : Geometry) (anchor : Position) : DragState :=
  mkDragState (worldOf g) (Some "f") (Some anchor).

Definition draggingClamp (g : Geometry) (anchor : Position) : DragFeatureClamp.State :=
  DragFeatureClamp.mkState (worldOf g) (Some anchor).

(** A scale gesture on the sample feature. *)
Definition scaling (g : Geometry) (lastDistance : option Q) : ScaleFeature.State :=
  ScaleFeature.mkState (worldOf g) lastDistance.

(** ** The rest of the Feature-Drag classes *)

(** A JavaScript value, as far as the [position] setter of part_001 tells
    values apart. *)
#[warnings="-register-all"]
Inductive JsValue : Type :=
| JsUndefined
| JsNull
| JsBoolean (b : bool)
| JsNumber (n : Q)
| JsString (s : string)
| JsArray (items : list JsValue)
| JsObject.

Definition isArray (v : JsValue) : bool :=
  match v with JsArray _ => true | _ => false end.

Definition isNumber (v : JsValue) : bool :=
  match v with JsNumber _ => true | _ => false end.

(** [v.length] and [v[i]] for an array; [undefined] elsewhere. *)
Definition jsLength (v : JsValue) : option nat :=
  match v with JsArray items => Some (length items) | _ => None end.

Definition jsIndex (v : JsValue) (i : nat) : JsValue :=
  match v with JsArray items => default JsUndefined (items !! i) | _ => JsUndefined end.

Definition numberOf (v : JsValue) : Q :=
  match v with JsNumber n => n | _ => 0 end.

Module DragFeatureClampPosition.

(** [get position()]: a copy of [dragPosition], or [undefined]. *)
Definition getPosition (st : DragFeatureClamp.State) : JsValue :=
  match DragFeatureClamp.dragPosition st with
  | Some p => JsArray [JsNumber p.1; JsNumber p.2]
  | None => JsUndefined
  end.

(** How [set position(newPosition)] ends: it returns, or it throws
    [Error("Position must be [number, number] array")]. *)
Inductive SetOutcome : Type :=
| PositionSet (st : DragFeatureClamp.State)
| PositionError (st : DragFeatureClamp.State).

Definition setPosition (newPosition : JsValue) (st : DragFeatureClamp.State)
  : SetOutcome :=
  match newPosition with
  | JsUndefined =>
      PositionSet {| DragFeatureClamp.world := DragFeatureClamp.world st;
                     DragFeatureClamp.dragPosition := None |}
  | _ =>
      if negb (isArray newPosition)
         || negb (bool_decide (jsLength newPosition = Some 2%nat))
         || negb (isNumber (jsIndex newPosition 0))
         || negb (isNumber (jsIndex newPosition 1))
      then PositionError st
      else
        PositionSet
          {| DragFeatureClamp.world := DragFeatureClamp.world st;
             DragFeatureClamp.dragPosition :=
               Some (numberOf (jsIndex newPosition 0), numberOf (jsIndex newPosition 1)) |}
  end.
End DragFeatureClampPosition.

(** [canDrag(event, selectedId)] of both classes of part_002.  [find] is
    featuresAtMouseEvent.find(event, true), reduced to the id of the
    clicked feature, if there is one. *)
Definition canDrag (find : TerraDrawMouseEvent -> bool -> option string)
    (event : TerraDrawMouseEvent) (selectedId : string) : bool :=
  match find event true with
  | None => false
  | Some clickedId => if String.eqb clickedId selectedId then true else false
  end.

(** ** The Mapbox GL adapter (part_000) *)

(** [String.prototype.toLowerCase], on the ASCII letters. *)
Definition lowerAscii (c : ascii) : ascii :=
  let n := N_of_ascii c in
  if ((65 <=? n) && (n <=? 90))%N then ascii_of_N (n + 32) else c.

Fixpoint toLowerCase (s : string) : string :=
  match s with
  | EmptyString => EmptyString
  | String c s' => String (lowerAscii c) (toLowerCase s')
  end.

(** [Object.keys] of an array: its indices, as decimal strings. *)
Definition objectKeys {A : Type} (a : list A) : list string :=
  map (fun i => NilZero.string_of_uint (Nat.to_uint i)) (seq 0 (length a)).

Module MapboxAdapter.

Inductive LayerType : Type := Fill | Line | Circle.

(** A feature object of the store, as far as [render] reads and writes it. *)
Record Feature : Type := mkFeature {
  geometry : Geometry;
  properties : gmap string JsValue
}.

(** Feature objects are handed around by reference: the arrays of
    [changes] and the data given to the map hold references into a heap of
    features, and [includes] compares references. *)
Definition Heap : Type := nat -> Feature.

Definition heapSet (h : Heap) (r : nat) (f : Feature) : Heap :=
  fun r' => if Nat.eqb r' r then f else h r'.

(** What the adapter calls, in order: methods of the map object, and the
    onClear callback of the current mode.  The [paint] of a layer is a
    constant of its type and is left out. *)
Inductive Call : Type :=
| AddSource (id : string) (features : list nat)
| AddLayer (id source : string) (type : LayerType)
| MoveLayer (id : string) (beneath : option string)
| RemoveLayer (id : string)
| RemoveSource (id : string)
| SetData (id : string) (features : list nat)
| OnClear.

Record Adapter : Type := mkAdapter {
  drawOutline : bool;
  drawFill : bool;
  rendered : bool;
  currentModeCallbacks : bool;   (* whether the base adapter holds callbacks *)
  calls : list Call
}.

(** The constructor: [config.drawOutline ?? true], [config.drawFill ?? true]. *)
Definition create (configDrawOutline configDrawFill : option bool) : Adapter :=
  mkAdapter (default true configDrawOutline) (default true configDrawFill) false false [].

Definition call (c : Call) (a : Adapter) : Adapter :=
  mkAdapter (drawOutline a) (drawFill a) (rendered a) (currentModeCallbacks a)
    (calls a ++ [c]).

Definition setRendered (b : bool) (a : Adapter) : Adapter :=
  mkAdapter (drawOutline a) (drawFill a) b (currentModeCallbacks a) (calls a).

Definition clearLayers (a : Adapter) : Adapter :=
  if rendered a then
    let a :=
      foldl (fun a geometryKey =>
               let id := "td-" +:+ toLowerCase geometryKey in
               let a := call (RemoveLayer id) a in
               let a :=
                 if String.eqb geometryKey "polygonId" && drawOutline a
                 then call (RemoveLayer (id +:+ "-outline")) a else a in
               call (RemoveSource id) a)
            a (objectKeys ["point"; "linestring"; "polygon"]) in
    setRendered false a
  else a.

(** [if (beneath)]: a string that is there and is not empty. *)
Definition given (beneath : option string) : bool :=
  match beneath with
  | Some s => negb (String.eqb s "")
  | None => false
  end.

Definition _addGeoJSONSource (id : string) (features : list nat) (a : Adapter) : Adapter :=
  call (AddSource id features) a.

Definition _addFillLayer (id : string) (a : Adapter) : Adapter :=
  call (AddLayer id id Fill) a.

Definition _addFillOutlineLayer (id : string) (beneath : option string)
    (a : Adapter) : Adapter :=
  let a := call (AddLayer (id +:+ "-outline") id Line) a in
  if given beneath then call (MoveLayer id beneath) a else a.

Definition _addLineLayer (id : string) (beneath : option string) (a : Adapter) : Adapter :=
  let a := call (AddLayer id id Line) a in
  if given beneath then call (MoveLayer id beneath) a else a.

Definition _addPointLayer (id : string) (beneath : option string) (a : Adapter) : Adapter :=
  let a := call (AddLayer id id Circle) a in
  if given beneath then call (MoveLayer id beneath) a else a.

Definition _addLayer (id featureType : string) (beneath : option string)
    (a : Adapter) : Adapter :=
  let a := if String.eqb featureType "Point" then _addPointLayer id beneath a else a in
  let a := if String.eqb featureType "LineString" then _addLineLayer id beneath a else a in
  if String.eqb featureType "Polygon" then
    let a := if drawFill a then _addFillLayer id a else a in
    if drawOutline a then _addFillOutlineLayer id beneath a else a
  else a.

Definition _addGeoJSONLayer (featureType : string) (features : list nat)
    (a : Adapter) : string * Adapter :=
  let id := "td-" +:+ toLowerCase featureType in
  let a := _addGeoJSONSource id features a in
  let a := _addLayer id featureType None a in
  (id, a).

Definition _setGeoJSONLayerData (featureType : string) (features : list nat)
    (a : Adapter) : string * Adapter :=
  let id := "td-" +:+ toLowerCase featureType in
  (id, call (SetData id features) a).

(** What a styling function returns. *)
Record Styles : Type := mkStyles {
  pointColor : JsValue;
  pointOutlineColor : JsValue;
  pointOutlineWidth : JsValue;
  pointWidth : JsValue;
  lineStringColor : JsValue;
  lineStringWidth : JsValue;
  polygonFillColor : JsValue;
  polygonFillOpacity : JsValue;
  polygonOutlineColor : JsValue;
  polygonOutlineWidth : JsValue
}.

(** [styling]: an object from mode names to styling functions, with its
    keys in the order of [Object.keys]. *)
Abbreviation Styling := (list (string * (Feature -> Styles))) (only parsing).

Record Changes : Type := mkChanges {
  created : list nat;
  updated : list nat;
  unchanged : list nat;
  deletedIds : list string
}.

Record Buckets : Type := mkBuckets {
  points : list nat;
  linestrings : list nat;
  polygons : list nat
}.

(** The state of the loop of [render]: the heap, and the two local
    objects [changed] and [unchanged]. *)
Record Pass : Type := mkPass {
  heap : Heap;
  changed : Buckets;
  kept : Buckets
}.

(** [properties.mode !== mode], negated. *)
Definition modeIs (feature : Feature) (mode : string) : bool :=
  match properties feature !! "mode" with
  | Some (JsString s) => String.eqb s mode
  | _ => false
  end.

(** The assignments to [properties] in the branch of the geometry type. *)
Definition withStyles (styles : Styles) (feature : Feature) : Feature :=
  let properties := properties feature in
  match geometry feature with
  | Point _ =>
      mkFeature (geometry feature)
        (<["pointWidth" := pointWidth styles]>
           (<["pointOutlineWidth" := pointOutlineWidth styles]>
              (<["pointOutlineColor" := pointOutlineColor styles]>
                 (<["pointColor" := pointColor styles]> properties))))
  | LineString _ =>
      mkFeature (geometry feature)
        (<["lineStringWidth" := lineStringWidth styles]>
           (<["lineStringColor" := lineStringColor styles]> properties))
  | Polygon _ =>
      mkFeature (geometry feature)
        (<["polygonOutlineWidth" := polygonOutlineWidth styles]>
           (<["polygonOutlineColor" := polygonOutlineColor styles]>
              (<["polygonFillOpacity" := polygonFillOpacity styles]>
                 (<["polygonFillColor" := polygonFillColor styles]> properties))))
  end.

Definition includes (a : list nat) (r : nat) : bool := existsb (Nat.eqb r) a.

(** [bucket.push(feature)] into the bucket of the geometry type. *)
Definition push (g : Geometry) (r : nat) (b : Buckets) : Buckets :=
  match g with
  | Point _ => mkBuckets (points b ++ [r]) (linestrings b) (polygons b)
  | LineString _ => mkBuckets (points b) (linestrings b ++ [r]) (polygons b)
  | Polygon _ => mkBuckets (points b) (linestrings b) (polygons b ++ [r])
  end.

(** The callback of [Object.keys(styling).forEach] for the feature [r]. *)
Definition visitMode (changes : Changes) (r : nat) (p : Pass)
    (entry : string * (Feature -> Styles)) : Pass :=
  let feature := heap p r in
  if negb (modeIs feature entry.1) then p
  else
    let styles := entry.2 feature in
    let h := heapSet (heap p) r (withStyles styles feature) in
    if includes (unchanged changes) r
    then mkPass h (changed p) (push (geometry feature) r (kept p))
    else mkPass h (push (geometry feature) r (changed p)) (kept p).

(** The [for] loop of [render] over created, updated and unchanged. *)
Definition classify (changes : Changes) (styling : Styling) (h : Heap) : Pass :=
  foldl (fun p r => foldl (visitMode changes r) p styling)
        (mkPass h (mkBuckets [] [] []) (mkBuckets [] [] []))
        (created changes ++ updated changes ++ unchanged changes).

Definition render (changes : Changes) (styling : Styling) (a : Adapter) (h : Heap)
  : Adapter * Heap :=
  let p := classify changes styling h in
  let points' := points (changed p) in
  let linestrings' := linestrings (changed p) in
  let polygons' := polygons (changed p) in
  if negb (rendered a) then
    let '(pointId, a) := _addGeoJSONLayer "Point" points' a in
    let '(_, a) := _addGeoJSONLayer "LineString" linestrings' a in
    let '(_, a) := _addGeoJSONLayer "Polygon" polygons' a in
    let a := call (MoveLayer pointId None) a in
    (setRendered true a, heap p)
  else
    let numDeletedIds := length (deletedIds changes) in
    let isStylingUpdate :=
      (numDeletedIds =? 0)%nat && (length (created changes) =? 0)%nat
      && (length (updated changes) =? 0)%nat && (0 <? length (unchanged changes))%nat in
    let forceUpdate := (0 <? numDeletedIds)%nat || isStylingUpdate in
    let a :=
      if forceUpdate || (0 <? length points')%nat
      then (_setGeoJSONLayerData "Point" (points' ++ points (kept p)) a).2 else a in
    let a :=
      if forceUpdate || (0 <? length linestrings')%nat
      then (_setGeoJSONLayerData "LineString" (linestrings' ++ linestrings (kept p)) a).2
      else a in
    let a :=
      if forceUpdate || (0 <? length polygons')%nat
      then (_setGeoJSONLayerData "Polygon" (polygons' ++ polygons (kept p)) a).2 else a in
    (a, heap p).

(** [clear()]. *)
Definition clear (a : Adapter) : Adapter :=
  if currentModeCallbacks a then clearLayers (call OnClear a) else a.

End MapboxAdapter.


(** ** What [render] is observed to do *)

Module MapboxRender.
Import MapboxAdapter.

(** The three geometry types, their names as [render] writes them, and
    the bucket of each. *)
Inductive Kind : Type := KPoint | KLineString | KPolygon.

Definition kindOf (g : Geometry) : Kind :=
  match g with
  | Point _ => KPoint
  | LineString _ => KLineString
  | Polygon _ => KPolygon
  end.

Definition kindEqb (k k' : Kind) : bool :=
  match k, k' with
  | KPoint, KPoint | KLineString, KLineString | KPolygon, KPolygon => true
  | _, _ => false
  end.

Definition typeName (k : Kind) : string :=
  match k with
  | KPoint => "Point"
  | KLineString => "LineString"
  | KPolygon => "Polygon"
  end.

Definition bucket (k : Kind) (b : Buckets) : list nat :=
  match k with
  | KPoint => points b
  | KLineString => linestrings b
  | KPolygon => polygons b
  end.

(** [properties.mode], when it is a string. *)
Definition modeOf (feature : Feature) : option string :=
  match properties feature !! "mode" with
  | Some (JsString s) => Some s
  | _ => None
  end.

(** [styling[mode]]. *)
Fixpoint styleFor (styling : Styling) (mode : string) : option (Feature -> Styles) :=
  match styling with
  | [] => None
  | (k, fn) :: rest => if String.eqb mode k then Some fn else styleFor rest mode
  end.

(** The styling function of the mode of a feature, if its mode has one. *)
Definition styledBy (styling : Styling) (feature : Feature) : option (Feature -> Styles) :=
  mode ← modeOf feature; styleFor styling mode.

(** A feature after its styling function, if it has one, has been applied. *)
Definition restyled (styling : Styling) (feature : Feature) : Feature :=
  match styledBy styling feature with
  | Some fn => withStyles (fn feature) feature
  | None => feature
  end.

(** The feature [r] is of the type [k], its mode has a styling function,
    and it is listed in [changes.unchanged] or not, as [keep] says. *)
Definition drawnIn (k : Kind) (keep : bool) (changes : Changes) (styling : Styling)
    (h : Heap) (r : nat) : bool :=
  kindEqb k (kindOf (geometry (h r)))
  && (match styledBy styling (h r) with Some _ => true | None => false end)
  && Bool.eqb (includes (unchanged changes) r) keep.

(** The features of [changes] picked by [drawnIn], in the order of
    created, updated, unchanged. *)
Definition drawn (k : Kind) (keep : bool) (changes : Changes) (styling : Styling)
    (h : Heap) : list nat :=
  List.filter (drawnIn k keep changes styling h)
    (created changes ++ updated changes ++ unchanged changes).

(** The source and the layers of the type [k]. *)
Definition layerId (k : Kind) : string := "td-" +:+ toLowerCase (typeName k).

(** The calls of a first [render] that is given these features. *)
Definition layersAdded (a : Adapter) (points linestrings polygons : list nat) : list Call :=
  [AddSource "td-point" points; AddLayer "td-point" "td-point" Circle;
   AddSource "td-linestring" linestrings; AddLayer "td-linestring" "td-linestring" Line;
   AddSource "td-polygon" polygons]
  ++ (if drawFill a then [AddLayer "td-polygon" "td-polygon" Fill] else [])
  ++ (if drawOutline a then [AddLayer "td-polygon-outline" "td-polygon" Line] else [])
  ++ [MoveLayer "td-point" None].

(** The calls of [clearLayers] on an adapter that has rendered. *)
Definition layersRemoved : list Call :=
  [RemoveLayer "td-0"; RemoveSource "td-0"; RemoveLayer "td-1"; RemoveSource "td-1";
   RemoveLayer "td-2"; RemoveSource "td-2"].

(** Whether a later [render] sends data whatever has changed. *)
Definition forced (changes : Changes) : bool :=
  negb (bool_decide (deletedIds changes = []))
  || (bool_decide (deletedIds changes = []) && bool_decide (created changes = [])
      && bool_decide (updated changes = []) && negb (bool_decide (unchanged changes = []))).

(** The call of a later [render] for the type [k], if it makes one. *)
Definition dataSent (k : Kind) (changes : Changes) (styling : Styling) (h : Heap)
  : list Call :=
  if forced changes || negb (bool_decide (drawn k false changes styling h = []))
  then [SetData (layerId k)
          (drawn k false changes styling h ++ drawn k true changes styling h)]
  else [].

End MapboxRender.

(** ** Sample features and styling *)

Module MapboxSample.
Import MapboxAdapter.

Definition sampleStyles : Styles :=
  mkStyles (JsString "#3f97e0") (JsString "#ffffff") (JsNumber 2) (JsNumber 6)
           (JsString "#3f97e0") (JsNumber 4)
           (JsString "#3f97e0") (JsNumber (3 # 10)) (JsString "#3f97e0") (JsNumber 4).

Definition sampleStyling : Styling :=
  [("point", fun _ => sampleStyles); ("polygon", fun _ => sampleStyles)].

(** A Point drawn in point mode at 0, the square drawn in polygon mode
    at 1, and elsewhere a line of a mode that has no styling function. *)
Definition sampleHeap : Heap :=
  fun r =>
    match r with
    | 0%nat => mkFeature (Point (0, 0)) {[ "mode" := JsString "point" ]}
    | 1%nat => mkFeature (Polygon [square]) {[ "mode" := JsString "polygon" ]}
    | _ => mkFeature (LineString [(0, 0); (1, 1)]) {[ "mode" := JsString "static" ]}
    end.

Definition sampleChanges : Changes := mkChanges [0%nat] [2%nat] [1%nat] [].

End MapboxSample.

(** * Facts *)

(** ** Numbers *)

Lemma Qltb_lt (a b : Q) : Qltb a b = true <-> a < b.
Proof.
  unfold Qltb. rewrite negb_true_iff. split.
  - intros H. apply Qnot_le_lt. intros Hle. apply Qle_bool_iff in Hle. congruence.
  - intros H. destruct (Qle_bool b a) eqn:E; [|reflexivity].
    apply Qle_bool_iff in E. exfalso. apply (Qlt_not_le _ _ H E).
Qed.

Lemma Qltb_ge (a b : Q) : Qltb a b = false <-> b <= a.
Proof. unfold Qltb. rewrite negb_false_iff. apply Qle_bool_iff. Qed.

Lemma outOfRange_false (x y : Q) : outOfRange x y = false <-> inRange (x, y).
Proof.
  unfold outOfRange, inRange. cbn [fst snd].
  rewrite !orb_false_iff, !Qltb_ge. tauto.
Qed.

Lemma outOfRange_true (x y : Q) : outOfRange x y = true <-> ~ inRange (x, y).
Proof.
  rewrite <- outOfRange_false. destruct (outOfRange x y); split; congruence.
Qed.

Lemma Qfloor_half (z : Z) : Qfloor (inject_Z z + (1 # 2)) = z.
Proof.
  assert (Hlo : (z <= Qfloor (inject_Z z + (1 # 2)))%Z).
  { rewrite <- (Qfloor_Z z) at 1. apply Qfloor_resp_le.
    generalize (inject_Z z). intros x. lra. }
  assert (Hhi : (Qfloor (inject_Z z + (1 # 2)) < z + 1)%Z).
  { apply Z.lt_nge. intros Hge.
    pose proof (Qfloor_le (inject_Z z + (1 # 2))) as Hf.
    assert (inject_Z (z + 1) <= inject_Z (Qfloor (inject_Z z + (1 # 2)))) as Hi.
    { rewrite <- Zle_Qle. exact Hge. }
    rewrite inject_Z_plus in Hi.
    revert Hf Hi. generalize (inject_Z (Qfloor (inject_Z z + (1 # 2)))) (inject_Z z).
    intros x y Hf Hi. change (inject_Z 1) with 1 in Hi. lra. }
  lia.
Qed.

Lemma pow10_pos (p : nat) : (0 < 10 ^ Z.of_nat p)%Z.
Proof. apply Z.pow_pos_nonneg; lia. Qed.

Lemma Qmake_pow10 (z : Z) (p : nat) :
  Qmake z (Z.to_pos (10 ^ Z.of_nat p)) * inject_Z (10 ^ Z.of_nat p) == inject_Z z.
Proof.
  pose proof (pow10_pos p) as Hp.
  unfold Qeq, Qmult, inject_Z. cbn [Qnum Qden].
  rewrite Pos.mul_1_r, Z2Pos.id by exact Hp. ring.
Qed.

(** Rounding a rounded value changes nothing. *)
Lemma limitPrecision_idem (q : Q) (p : nat) :
  limitPrecision (limitPrecision q p) p = limitPrecision q p.
Proof.
  unfold limitPrecision at 1. cbv zeta.
  set (z := Qfloor (q * inject_Z (10 ^ Z.of_nat p) + (1 # 2))).
  assert (E : limitPrecision q p = Qmake z (Z.to_pos (10 ^ Z.of_nat p))) by reflexivity.
  rewrite E. f_equal.
  rewrite (Qfloor_comp _ (inject_Z z + (1 # 2))).
  - apply Qfloor_half.
  - rewrite Qmake_pow10. reflexivity.
Qed.

Lemma limitPrecision_hasPrecision (q : Q) (p : nat) :
  hasPrecision p (limitPrecision q p).
Proof. unfold hasPrecision. rewrite limitPrecision_idem. reflexivity. Qed.

(** A rounded value is a whole number of units of [10^-decimalLimit], and
    every such number is a rounded value. *)
Lemma hasPrecision_decimal (p : nat) (q : Q) :
  hasPrecision p q <-> exists z : Z, q == inject_Z z / inject_Z (10 ^ Z.of_nat p).
Proof.
  pose proof (pow10_pos p) as Hp.
  assert (Hmake : forall z : Z,
            Qmake z (Z.to_pos (10 ^ Z.of_nat p)) == inject_Z z / inject_Z (10 ^ Z.of_nat p)).
  { intros z. rewrite Qmake_Qdiv. rewrite Z2Pos.id by exact Hp. reflexivity. }
  unfold hasPrecision. split.
  - intros H. eexists. rewrite <- H at 1. unfold limitPrecision. cbv zeta. apply Hmake.
  - intros [z Hz]. unfold limitPrecision. cbv zeta.
    rewrite (Qfloor_comp _ (inject_Z z + (1 # 2))).
    + rewrite Qfloor_half, Hmake. symmetry. exact Hz.
    + rewrite Hz. field. intros E.
      assert (E' : (10 ^ Z.of_nat p)%Z = 0%Z)
        by (apply (proj1 (inject_Z_injective _ 0%Z)); exact E).
      lia.
Qed.

(** ** The store *)

Lemma foldl_insert_other (us : list (string * Geometry)) (m : gmap string Geometry)
    (id : string) :
  (forall u, u ∈ us -> u.1 <> id) ->
  foldl (fun m u => <[u.1 := u.2]> m) m us !! id = m !! id.
Proof.
  revert m. induction us as [|u us IH]; intros m Hne; [reflexivity|].
  cbn [foldl]. rewrite IH.
  - apply lookup_insert_ne. apply Hne. left.
  - intros v Hv. apply Hne. right. exact Hv.
Qed.

(** After an update that starts with the feature and goes on with handle
    updates addressed elsewhere, the store holds the feature's new geometry. *)
Lemma updateGeometry_head (id : string) (g : Geometry) (us : list (string * Geometry))
    (s s' : GeoJSONStore) :
  updateGeometry ((id, g) :: us) s = Some s' ->
  (forall u, u ∈ us -> u.1 <> id) ->
  features s' !! id = Some g /\
  emitted s' = emitted s ++ [mkChange [] (id :: us.*1) [] []].
Proof.
  unfold updateGeometry. destruct (knownIds _ s); [|discriminate].
  intros [= <-] Hne. cbn [features emitted foldl fst snd]. split; [|reflexivity].
  rewrite foldl_insert_other by exact Hne. apply lookup_insert_eq.
Qed.

(** A feature that can be read can be updated on its own. *)
Lemma updateGeometry_single (id : string) (g0 g : Geometry) (s : GeoJSONStore) :
  getGeometryCopy id s = Some g0 ->
  updateGeometry [(id, g)] s =
    Some {| features := <[id := g]> (features s);
            emitted := emitted s ++ [mkChange [] [id] [] []] |}.
Proof.
  unfold getGeometryCopy, updateGeometry, knownIds. intros H.
  cbn [forallb fst snd]. rewrite H.
  rewrite bool_decide_eq_true_2 by eauto. reflexivity.
Qed.

(** ** The coordinate loops *)

Section MapUpTo.
Variable step : Position -> option Position.

(** One coordinate that the body refuses makes the loop return false. *)
Lemma mapUpTo_reject (n i : nat) (cs : list Position) (j : nat) (c : Position) :
  (i + n <= length cs)%nat ->
  (i <= j < i + n)%nat -> cs !! j = Some c -> step c = None ->
  mapUpTo step n i cs = ReturnFalse.
Proof.
  revert i cs. induction n as [|n IH]; intros i cs Hlen Hj Hc Hstep; [lia|].
  cbn [mapUpTo]. destruct (cs !! i) as [c0|] eqn:Hc0.
  - destruct (step c0) as [c0'|] eqn:Hs0; [|reflexivity].
    assert (j <> i) by (intros ->; congruence).
    apply IH.
    + rewrite length_insert. lia.
    + lia.
    + rewrite list_lookup_insert_ne by congruence. exact Hc.
    + exact Hstep.
  - apply lookup_ge_None in Hc0. lia.
Qed.

(** What a loop that ran to its end has done: the coordinates it went
    over hold what the body computed from the old ones, the others are
    as they were. *)
Lemma mapUpTo_done (n i : nat) (cs cs' : list Position) :
  mapUpTo step n i cs = Done cs' ->
  length cs' = length cs /\
  (forall j, (i <= j < i + n)%nat ->
     exists c c', cs !! j = Some c /\ step c = Some c' /\ cs' !! j = Some c') /\
  (forall j, (j < i \/ i + n <= j)%nat -> cs' !! j = cs !! j).
Proof.
  revert i cs. induction n as [|n IH]; intros i cs H.
  - injection H as <-. split; [reflexivity|]. split; [lia|reflexivity].
  - cbn [mapUpTo] in H. destruct (cs !! i) as [c0|] eqn:Hc0; [|discriminate].
    destruct (step c0) as [c0'|] eqn:Hs0; [|discriminate].
    apply IH in H as (Hlen & Hin & Hout). rewrite length_insert in Hlen.
    split; [exact Hlen|]. split.
    + intros j Hj. destruct (decide (j = i)) as [->|Hne].
      * exists c0, c0'. split; [exact Hc0|]. split; [exact Hs0|].
        rewrite Hout by lia. apply list_lookup_insert_eq.
        apply lookup_lt_Some in Hc0. exact Hc0.
      * destruct (Hin j) as (c & c' & H1 & H2 & H3); [lia|].
        rewrite list_lookup_insert_ne in H1 by congruence. eauto.
    + intros j Hj. rewrite Hout by lia.
      apply list_lookup_insert_ne. lia.
Qed.

(** The loop runs to its end when the body accepts every coordinate. *)
Lemma mapUpTo_accept (n i : nat) (cs : list Position) :
  (i + n <= length cs)%nat ->
  (forall j c, (i <= j < i + n)%nat -> cs !! j = Some c -> is_Some (step c)) ->
  exists cs', mapUpTo step n i cs = Done cs'.
Proof.
  revert i cs. induction n as [|n IH]; intros i cs Hlen Hok; [eexists; reflexivity|].
  cbn [mapUpTo]. destruct (cs !! i) as [c0|] eqn:Hc0.
  - destruct (Hok i c0) as [c0' Hs0]; [lia|exact Hc0|]. rewrite Hs0.
    apply IH.
    + rewrite length_insert. lia.
    + intros j c Hj Hc. rewrite list_lookup_insert_ne in Hc by lia.
      apply (Hok j); [lia|exact Hc].
  - apply lookup_ge_None in Hc0. lia.
Qed.

(** A body without [return false] leaves the loop no way to return false. *)
Lemma mapUpTo_no_return (n i : nat) (cs : list Position) :
  (forall c, is_Some (step c)) -> mapUpTo step n i cs <> ReturnFalse.
Proof.
  intros Htotal. revert i cs. induction n as [|n IH]; intros i cs; [discriminate|].
  cbn [mapUpTo]. destruct (cs !! i) as [c|]; [|discriminate].
  destruct (Htotal c) as [c' ->]. apply IH.
Qed.
End MapUpTo.

Lemma DragFeature_shiftLoop_eq (config : BehaviorConfig)
    (dragPosition mouseCoord : Position) (n i : nat) (cs : list Position) :
  DragFeature.shiftLoop config dragPosition mouseCoord n i cs =
  mapUpTo (DragFeature.shifted config dragPosition mouseCoord) n i cs.
Proof.
  revert i cs. induction n as [|n IH]; intros i cs; [reflexivity|].
  cbn [DragFeature.shiftLoop mapUpTo]. destruct (cs !! i); [|reflexivity].
  destruct (DragFeature.shifted _ _ _ _); [apply IH|reflexivity].
Qed.

Lemma DragFeatureShadowed_shiftLoop_eq
    (delta dragPosition mouseCoord : Position) (n i : nat) (cs : list Position) :
  DragFeatureShadowed.shiftLoop delta dragPosition mouseCoord n i cs =
  mapUpTo (DragFeatureShadowed.shifted delta dragPosition mouseCoord) n i cs.
Proof.
  revert i cs. induction n as [|n IH]; intros i cs; [reflexivity|].
  cbn [DragFeatureShadowed.shiftLoop mapUpTo]. destruct (cs !! i) as [c|]; [|reflexivity].
  destruct (DragFeatureShadowed.shifted _ _ _ _); [apply IH|reflexivity].
Qed.

(** The [delta] of [drag] does not reach the body of the second loop: the
    body's own [delta] hides it. *)
Lemma DragFeatureShadowed_shifted_delta (delta delta' : Position) :
  DragFeatureShadowed.shifted delta = DragFeatureShadowed.shifted delta'.
Proof. reflexivity. Qed.

Lemma DragFeatureClamp_shiftLoop_eq (delta : Position) (n i : nat) (cs : list Position) :
  DragFeatureClamp.shiftLoop delta n i cs =
  mapUpTo (fun coordinate => Some (coordinate.1 - delta.1, coordinate.2 - delta.2)) n i cs.
Proof.
  revert i cs. induction n as [|n IH]; intros i cs; [reflexivity|].
  cbn [DragFeatureClamp.shiftLoop mapUpTo]. destruct (cs !! i); [apply IH|reflexivity].
Qed.

(** The clamping pass reads coordinates below [upToCoord] only. *)
Lemma clampLoop_defined (n i : nat) (cs : list Position)
    (delta : Position) :
  (i + n <= length cs)%nat ->
  is_Some (clampLoop n i cs delta).
Proof.
  revert i delta. induction n as [|n IH]; intros i delta Hlen; [eexists; reflexivity|].
  cbn [clampLoop]. destruct (cs !! i) as [c|] eqn:Hc.
  - apply IH. lia.
  - apply lookup_ge_None in Hc. lia.
Qed.

Lemma upTo_le (geometry : Geometry) (cs : list Position) :
  (0 + Z.to_nat (upTo geometry cs) <= length cs)%nat.
Proof. unfold upTo. destruct (isPolygon geometry); lia. Qed.

(** ** Ring closure *)

Lemma closeRing_closed (cs cs' : list Position) :
  closeRing cs = Some cs' -> closedRing cs' /\ length cs' = length cs.
Proof.
  unfold closeRing, closedRing. destruct (cs !! 0%nat) as [[x y]|] eqn:H0; [|discriminate].
  intros [= <-]. cbn [fst snd]. rewrite length_insert. split; [|reflexivity].
  pose proof (lookup_lt_Some _ _ _ H0) as Hlen.
  rewrite head_lookup, last_lookup, length_insert.
  replace (Init.Nat.pred (length cs)) with (length cs - 1)%nat by lia.
  rewrite list_lookup_insert_eq by lia.
  destruct (decide (length cs - 1 = 0)%nat) as [E|E].
  - rewrite E. apply list_lookup_insert_eq. lia.
  - rewrite list_lookup_insert_ne by lia. exact H0.
Qed.

Lemma ringOf_withRing (g : Geometry) (cs0 cs : list Position) :
  ringOf g = Some cs0 -> ringOf (withRing g cs) = Some cs.
Proof. destruct g as [c|l|rings]; [discriminate|reflexivity|reflexivity]. Qed.

(** ** Feature-Drag, part_002 *)

Lemma draggedFeature_Some (st : DragState) (id : string) :
  draggedFeatureId st = Some id -> id <> "" -> draggedFeature st = Some id.
Proof.
  unfold draggedFeature. intros -> Hne.
  apply String.eqb_neq in Hne. rewrite Hne. reflexivity.
Qed.

Section DragFeatureFacts.
Variable config : BehaviorConfig.
Variable selectionPointsGetUpdated : list Position -> option (list (string * Geometry)).
Variable midPointsGetUpdated : list Position -> option (list (string * Geometry)).

Local Abbreviation finish := (finishDrag selectionPointsGetUpdated midPointsGetUpdated).
Local Abbreviation dragB := (DragFeature.drag config selectionPointsGetUpdated midPointsGetUpdated).
Local Abbreviation dragRingB :=
  (DragFeature.dragRing config selectionPointsGetUpdated midPointsGetUpdated).
Local Abbreviation dragWithA :=
  (DragFeatureShadowed.dragWith selectionPointsGetUpdated midPointsGetUpdated).
Local Abbreviation dragRingA :=
  (DragFeatureShadowed.dragRing selectionPointsGetUpdated midPointsGetUpdated).

(** While a LineString or a Polygon is dragged, [drag] is its
    LineString/Polygon branch. *)
Lemma DragFeature_drag_ring event st id geometry cs a :
  draggedFeatureId st = Some id -> id <> "" ->
  getGeometryCopy id (store (world st)) = Some geometry ->
  ringOf geometry = Some cs ->
  dragPosition st = Some a ->
  dragB event st = dragRingB event id geometry cs a st.
Proof.
  intros Hid Hne Hg Hr Ha. unfold DragFeature.drag.
  rewrite (draggedFeature_Some st id Hid Hne).
  rewrite Hg. destruct geometry; [discriminate| |]; rewrite Hr, Ha; reflexivity.
Qed.

Lemma DragFeatureShadowed_drag_ring clamp event st id geometry cs a :
  draggedFeatureId st = Some id -> id <> "" ->
  getGeometryCopy id (store (world st)) = Some geometry ->
  ringOf geometry = Some cs ->
  dragPosition st = Some a ->
  dragWithA clamp event st = dragRingA clamp event id geometry cs a st.
Proof.
  intros Hid Hne Hg Hr Ha. unfold DragFeatureShadowed.dragWith.
  rewrite (draggedFeature_Some st id Hid Hne).
  rewrite Hg. destruct geometry; [discriminate| |]; rewrite Hr, Ha; reflexivity.
Qed.

(** The clamping pass changes neither the outcome nor the final state of
    the LineString/Polygon branch. *)
Lemma DragFeatureShadowed_dragRing_clamp event id geometry cs a st :
  dragRingA true event id geometry cs a st = dragRingA false event id geometry cs a st.
Proof.
  unfold DragFeatureShadowed.dragRing. cbv zeta. cbn [fst snd].
  destruct (clampLoop_defined
              (Z.to_nat (upTo geometry cs)) 0 cs
              (a.1 - lng event, a.2 - lat event) (upTo_le geometry cs))
    as [delta' ->].
  rewrite !DragFeatureShadowed_shiftLoop_eq.
  rewrite (DragFeatureShadowed_shifted_delta delta' (a.1 - lng event, a.2 - lat event)).
  reflexivity.
Qed.

(** What the end of a tick leaves behind when it returns. *)
Lemma finishDrag_returned event id geometry cs0 cs st r st' :
  ringOf geometry = Some cs0 ->
  handlesApart selectionPointsGetUpdated midPointsGetUpdated id ->
  finish event id geometry cs st = Returned r st' ->
  exists cs',
    (if isPolygon geometry then closeRing cs = Some cs' else cs' = cs) /\
    r = None /\
    dragPosition st' = Some (lng event, lat event) /\
    draggedFeatureId st' = draggedFeatureId st /\
    features (store (world st')) !! id = Some (withRing geometry cs') /\
    storedRing id (store (world st')) = Some cs' /\
    emitted (store (world st')) <> emitted (store (world st)).
Proof.
  intros Hr Hapart. unfold finishDrag.
  destruct (if isPolygon geometry then closeRing cs else Some cs) as [cs'|] eqn:Hclose;
    [|discriminate].
  destruct (updateGeometry _ _) as [s|] eqn:Hup; [|discriminate].
  intros [= <- <-]. exists cs'.
  apply updateGeometry_head in Hup as [Hf He]; [|apply Hapart].
  split.
  { destruct (isPolygon geometry); [exact Hclose|congruence]. }
  split; [reflexivity|]. split; [reflexivity|]. split; [reflexivity|].
  cbn [committed world store]. split; [exact Hf|]. split.
  - unfold storedRing. rewrite Hf. cbn. apply (ringOf_withRing _ cs0). exact Hr.
  - rewrite He. intros E. apply (f_equal length) in E.
    rewrite length_app in E. cbn in E. lia.
Qed.
End DragFeatureFacts.

Section FeatureDragClaims.
Variable config : BehaviorConfig.
Variable selectionPointsGetUpdated : list Position -> option (list (string * Geometry)).
Variable midPointsGetUpdated : list Position -> option (list (string * Geometry)).

(** C1, as amended.  In both DragFeatureBehavior classes of part_002, a
    [drag] tick on a LineString or Polygon in which one shifted coordinate
    (any coordinate below [upToCoord], that is any but the closing one of
    a Polygon) falls outside longitude [-180, 180] or latitude [-90, 90]
    returns [false] in the state it started from: no coordinate and no
    handle is written to the store, no Change Record is emitted and the
    anchor stays where it was. *)
Theorem feature_drag_rejects_out_of_range
    (event : TerraDrawMouseEvent) (st : DragState) (id : string)
    (geometry : Geometry) (cs : list Position) (a : Position)
    (i : nat) (c : Position) :
  draggedFeatureId st = Some id -> id <> "" ->
  getGeometryCopy id (store (world st)) = Some geometry ->
  ringOf geometry = Some cs ->
  dragPosition st = Some a ->
  (Z.of_nat i < upTo geometry cs)%Z ->
  cs !! i = Some c ->
  ~ inRange (c.1 - (a.1 - lng event), c.2 - (a.2 - lat event)) ->
  DragFeature.drag config selectionPointsGetUpdated midPointsGetUpdated event st
    = Returned (Some false) st /\
  DragFeatureShadowed.drag selectionPointsGetUpdated midPointsGetUpdated event st
    = Returned (Some false) st.
Proof.
  intros Hid Hne Hg Hr Ha Hi Hc Hout. apply outOfRange_true in Hout.
  pose proof (upTo_le geometry cs) as Hle.
  split.
  - rewrite (DragFeature_drag_ring _ _ _ _ _ id geometry cs a) by assumption.
    unfold DragFeature.dragRing. cbv zeta. rewrite DragFeature_shiftLoop_eq.
    rewrite (mapUpTo_reject _ _ 0 cs i c); [reflexivity|exact Hle|lia|exact Hc|].
    unfold DragFeature.shifted. cbv zeta. cbn [fst snd]. rewrite Hout. reflexivity.
  - unfold DragFeatureShadowed.drag.
    rewrite (DragFeatureShadowed_drag_ring _ _ _ _ _ id geometry cs a) by assumption.
    rewrite DragFeatureShadowed_dragRing_clamp.
    unfold DragFeatureShadowed.dragRing. cbv zeta.
    rewrite DragFeatureShadowed_shiftLoop_eq.
    rewrite (mapUpTo_reject _ _ 0 cs i c); [reflexivity|exact Hle|lia|exact Hc|].
    unfold DragFeatureShadowed.shifted. cbv zeta. cbn [fst snd]. rewrite Hout. reflexivity.
Qed.

(** C6, as amended.  In both DragFeatureBehavior classes of part_002, a
    [drag] tick on a LineString or Polygon that gets as far as its end (it
    returns [undefined], after updateGeometry has emitted a Change Record)
    leaves the anchor at the pointer position of that tick, so that the
    [delta] of the next tick is taken from there. *)
Theorem feature_drag_advances_anchor
    (event : TerraDrawMouseEvent) (st st' : DragState) (id : string)
    (geometry : Geometry) (cs : list Position) :
  draggedFeatureId st = Some id -> id <> "" ->
  getGeometryCopy id (store (world st)) = Some geometry ->
  ringOf geometry = Some cs ->
  handlesApart selectionPointsGetUpdated midPointsGetUpdated id ->
  (DragFeature.drag config selectionPointsGetUpdated midPointsGetUpdated event st
     = Returned None st' \/
   DragFeatureShadowed.drag selectionPointsGetUpdated midPointsGetUpdated event st
     = Returned None st') ->
  dragPosition st' = Some (lng event, lat event) /\
  emitted (store (world st')) <> emitted (store (world st)).
Proof.
  intros Hid Hne Hg Hr Hapart Hrun.
  destruct (dragPosition st) as [a|] eqn:Ha.
  - destruct Hrun as [Hrun|Hrun].
    + rewrite (DragFeature_drag_ring _ _ _ _ _ id geometry cs a) in Hrun by assumption.
      unfold DragFeature.dragRing in Hrun. cbv zeta in Hrun.
      destruct (DragFeature.shiftLoop _ _ _ _ _ _) as [cs1| |]; try discriminate.
      apply (finishDrag_returned _ _ _ _ _ cs) in Hrun
        as (cs' & _ & _ & Hpos & _ & _ & _ & Hem); auto.
    + unfold DragFeatureShadowed.drag in Hrun.
      rewrite (DragFeatureShadowed_drag_ring _ _ _ _ _ id geometry cs a) in Hrun
        by assumption.
      unfold DragFeatureShadowed.dragRing in Hrun. cbv zeta in Hrun.
      destruct (clampLoop _ _ _ _); [|discriminate].
      destruct (DragFeatureShadowed.shiftLoop _ _ _ _ _ _) as [cs1| |]; try discriminate.
      apply (finishDrag_returned _ _ _ _ _ cs) in Hrun
        as (cs' & _ & _ & Hpos & _ & _ & _ & Hem); auto.
  - exfalso. destruct Hrun as [Hrun|Hrun]; revert Hrun.
    + unfold DragFeature.drag. rewrite (draggedFeature_Some st id Hid Hne), Hg.
      destruct geometry; [discriminate| |]; rewrite Hr, Ha; discriminate.
    + unfold DragFeatureShadowed.drag, DragFeatureShadowed.dragWith.
      rewrite (draggedFeature_Some st id Hid Hne), Hg.
      destruct geometry; [discriminate| |]; rewrite Hr, Ha; discriminate.
Qed.

(** C9.  In the first DragFeatureBehavior class of part_002 the clamping
    pass has no effect: for every anchor, event and store, [drag] returns
    the same value in the same final state, so commits the same
    coordinates and accepts or rejects alike, as [drag] with the loop over
    validateDeltaRange removed.  The body of the update loop declares its
    own [delta] from the anchor and the pointer, and the clamped [delta]
    of [drag] is never read. *)
Theorem clamping_pass_has_no_effect (event : TerraDrawMouseEvent) (st : DragState) :
  DragFeatureShadowed.drag selectionPointsGetUpdated midPointsGetUpdated event st =
  DragFeatureShadowed.dragWithoutClamp selectionPointsGetUpdated midPointsGetUpdated
    event st.
Proof.
  unfold DragFeatureShadowed.drag, DragFeatureShadowed.dragWithoutClamp,
    DragFeatureShadowed.dragWith.
  destruct (draggedFeature st) as [id|]; [|reflexivity].
  destruct (getGeometryCopy id (store (world st))) as [geometry|]; [|reflexivity].
  destruct geometry as [c|l|rings]; [reflexivity| |].
  - destruct (ringOf (LineString l)); [|reflexivity].
    destruct (dragPosition st); [|reflexivity].
    apply DragFeatureShadowed_dragRing_clamp.
  - destruct (ringOf (Polygon rings)); [|reflexivity].
    destruct (dragPosition st); [|reflexivity].
    apply DragFeatureShadowed_dragRing_clamp.
Qed.
End FeatureDragClaims.

Lemma noHandles_apart (id : string) : handlesApart noHandles noHandles id.
Proof. intros cs u H. cbn in H. apply elem_of_nil in H. destruct H. Qed.

(** The square dragged from (0, 0) to (0, 85): its second coordinate would
    come to lie at latitude 95, and both classes of part_002 return false
    without a change. *)
Lemma feature_drag_rejects_out_of_range_witness :
  DragFeature.drag sampleConfig noHandles noHandles (pointerAt 0 85)
    (dragging (Polygon [square]) (0, 0))
    = Returned (Some false) (dragging (Polygon [square]) (0, 0)) /\
  DragFeatureShadowed.drag noHandles noHandles (pointerAt 0 85)
    (dragging (Polygon [square]) (0, 0))
    = Returned (Some false) (dragging (Polygon [square]) (0, 0)).
Proof.
  apply (feature_drag_rejects_out_of_range sampleConfig noHandles noHandles
           (pointerAt 0 85) (dragging (Polygon [square]) (0, 0)) "f"
           (Polygon [square]) square (0, 0) 1%nat (0, 10)).
  - reflexivity.
  - discriminate.
  - reflexivity.
  - reflexivity.
  - reflexivity.
  - vm_compute. reflexivity.
  - reflexivity.
  - apply outOfRange_true. reflexivity.
Defined.

(** C1 as stated does not hold of the class of part_001: a line at
    latitude 80 dragged 15 degrees north (to latitude 95) is not turned
    down; the delta is rewritten by validateDeltaRange, applied, and the
    result is committed with a Change Record. *)
Lemma clamp_drag_commits_out_of_range :
  ~ inRange (0 - (0 - lng (pointerAt 0 15)), 80 - (0 - lat (pointerAt 0 15))) /\
  exists st',
    DragFeatureClamp.drag noHandles noHandles (pointerAt 0 15) "f"
      (draggingClamp (LineString [(0, 80)]) (0, 0)) = Returned None st' /\
    storedRing "f" (store (DragFeatureClamp.world st')) = Some [(0, 75)] /\
    length (emitted (store (DragFeatureClamp.world st'))) = 1%nat.
Proof.
  split.
  - apply outOfRange_true. reflexivity.
  - eexists. split; [vm_compute; reflexivity|]. split; vm_compute; reflexivity.
Qed.

(** The square dragged from (0, 0) to (1, 1). *)
Lemma feature_drag_advances_anchor_witness :
  exists st',
    DragFeature.drag sampleConfig noHandles noHandles (pointerAt 1 1)
      (dragging (Polygon [square]) (0, 0)) = Returned None st' /\
    dragPosition st' = Some (1, 1).
Proof.
  eexists. split; [vm_compute; reflexivity|].
  eapply (feature_drag_advances_anchor sampleConfig noHandles noHandles
            (pointerAt 1 1) (dragging (Polygon [square]) (0, 0)) _ "f"
            (Polygon [square]) square).
  - reflexivity.
  - discriminate.
  - reflexivity.
  - reflexivity.
  - apply noHandles_apart.
  - left. vm_compute. reflexivity.
Defined.

(** C6 as stated does not hold of the class of part_001: the shift is
    committed and [dragPosition] is still the old anchor, not the pointer
    position. *)
Lemma clamp_drag_keeps_anchor :
  exists st',
    DragFeatureClamp.drag noHandles noHandles (pointerAt 1 1) "f"
      (draggingClamp (LineString [(0, 0); (2, 3)]) (0, 0)) = Returned None st' /\
    storedRing "f" (store (DragFeatureClamp.world st')) = Some [(1, 1); (3, 4)] /\
    DragFeatureClamp.dragPosition st' = Some (0, 0) /\
    DragFeatureClamp.dragPosition st' <> Some (lng (pointerAt 1 1), lat (pointerAt 1 1)).
Proof.
  eexists. split; [vm_compute; reflexivity|].
  split; [vm_compute; reflexivity|]. split; [reflexivity|].
  cbn. discriminate.
Qed.

(** C10: the run that the claim excludes.  In the class of part_001, a
    line at latitude -10 with the anchor at latitude -60 and the pointer at
    latitude 60: the wanted latitude 110 is above 85, validateDeltaRange
    sets the delta to [85 - (-10) = 95], and the latitude that is committed
    is [-10 - 95 = -105], below -85. *)
Theorem clamp_drag_commits_latitude_out_of_bounds :
  exists st',
    DragFeatureClamp.drag noHandles noHandles (pointerAt 0 60) "f"
      (draggingClamp (LineString [(0, -10)]) (0, -60)) = Returned None st' /\
    storedRing "f" (store (DragFeatureClamp.world st')) = Some [(0, -105)] /\
    ~ (-85 <= -105).
Proof.
  eexists. split; [vm_compute; reflexivity|].
  split; [vm_compute; reflexivity|].
  intros H. vm_compute in H. apply H. reflexivity.
Qed.

(** ** Coordinate-Drag *)

Section CoordinateDragFacts.
Variable config : BehaviorConfig.
Variable measure : TerraDrawMouseEvent -> Position -> Q.
Variable event : TerraDrawMouseEvent.
Variable geometry : Geometry.
Variable cs : list Position.

Local Abbreviation d := (measure event).
Local Abbreviation tol := (pointerDistance config).
Local Abbreviation scanned := (scanned config measure event geometry cs).

Lemma visit_scanned (prefix : list Position) (coord : Position)
    (closest : DragCoordinate.Closest) :
  scanned prefix closest ->
  scanned (prefix ++ [coord])
    (DragCoordinate.visit config measure event (isPolygon geometry) (length cs)
       (length prefix) coord closest).
Proof.
  intros Hinv. unfold DragCoordinate.visit. cbv zeta.
  destruct (Qltb (d coord) tol) eqn:Htol; cbn [andb].
  - apply Qltb_lt in Htol.
    destruct (DragCoordinate.belowDist (d coord) (DragCoordinate.dist closest)) eqn:Hbelow.
    + (* the coordinate becomes the closest one *)
      right. exists (length prefix), coord. cbn [DragCoordinate.dist DragCoordinate.index].
      split; [apply list_lookup_middle; reflexivity|].
      split; [reflexivity|]. split; [exact Htol|].
      assert (Hbefore : forall j c', prefix !! j = Some c' -> d coord < d c').
      { intros j c' Hj. destruct Hinv as [(Hd & _ & Hnone)|(m & c & Hm & Hd & Hc & Hmin & _)].
        - specialize (Hnone j c' Hj). apply Qnot_lt_le in Hnone. lra.
        - rewrite Hd in Hbelow. cbn in Hbelow. apply Qltb_lt in Hbelow.
          specialize (Hmin j c' Hj). lra. }
      split; [|split].
      * intros j c' Hj. apply lookup_app_Some in Hj as [Hj|[Hlen Hj]].
        -- apply Qlt_le_weak. apply (Hbefore j c' Hj).
        -- destruct (j - length prefix)%nat; [|discriminate].
           injection Hj as <-. apply Qle_refl.
      * intros j c' Hlt Hj. rewrite lookup_app_l in Hj by exact Hlt.
        apply (Hbefore j c' Hj).
      * unfold reportedIndex. reflexivity.
    + (* within the tolerance, but not closer than what was found *)
      destruct Hinv as [(Hd & _ & _)|(m & c & Hm & Hd & Hc & Hmin & Hfirst & Hidx)].
      { rewrite Hd in Hbelow. discriminate. }
      rewrite Hd in Hbelow. cbn in Hbelow. apply Qltb_ge in Hbelow.
      right. exists m, c. split; [apply lookup_app_l_Some; exact Hm|].
      split; [exact Hd|]. split; [exact Hc|]. split; [|split; [|exact Hidx]].
      * intros j c' Hj. apply lookup_app_Some in Hj as [Hj|[Hlen Hj]].
        -- apply (Hmin j c' Hj).
        -- destruct (j - length prefix)%nat; [|discriminate].
           injection Hj as <-. exact Hbelow.
      * intros j c' Hlt Hj. apply lookup_lt_Some in Hm.
        rewrite lookup_app_l in Hj by lia. apply (Hfirst j c' Hlt Hj).
  - (* outside the tolerance *)
    apply Qltb_ge in Htol.
    destruct Hinv as [(Hd & Hi & Hnone)|(m & c & Hm & Hd & Hc & Hmin & Hfirst & Hidx)].
    + left. split; [exact Hd|]. split; [exact Hi|].
      intros j c' Hj. apply lookup_app_Some in Hj as [Hj|[Hlen Hj]].
      * apply (Hnone j c' Hj).
      * destruct (j - length prefix)%nat; [|discriminate].
        injection Hj as <-. apply Qle_not_lt. exact Htol.
    + right. exists m, c. split; [apply lookup_app_l_Some; exact Hm|].
      split; [exact Hd|]. split; [exact Hc|]. split; [|split; [|exact Hidx]].
      * intros j c' Hj. apply lookup_app_Some in Hj as [Hj|[Hlen Hj]].
        -- apply (Hmin j c' Hj).
        -- destruct (j - length prefix)%nat; [|discriminate].
           injection Hj as <-. lra.
      * intros j c' Hlt Hj. apply lookup_lt_Some in Hm.
        rewrite lookup_app_l in Hj by lia. apply (Hfirst j c' Hlt Hj).
Qed.

Lemma scan_scanned (rest prefix : list Position) (closest : DragCoordinate.Closest) :
  scanned prefix closest ->
  scanned (prefix ++ rest)
    (DragCoordinate.scan config measure event (isPolygon geometry) (length cs)
       (length prefix) rest closest).
Proof.
  revert prefix closest. induction rest as [|coord rest IH]; intros prefix closest Hinv.
  - rewrite app_nil_r. exact Hinv.
  - cbn [DragCoordinate.scan].
    replace (prefix ++ coord :: rest) with ((prefix ++ [coord]) ++ rest)
      by (rewrite <- app_assoc; reflexivity).
    replace (S (length prefix)) with (length (prefix ++ [coord]))
      by (rewrite length_app; cbn; lia).
    apply IH. apply visit_scanned. exact Hinv.
Qed.
End CoordinateDragFacts.

(** C3.  For a selected LineString or Polygon, isCoordinateNearEvent
    returns -1 when no coordinate is at a pixel distance strictly below the
    tolerance; otherwise it returns the reported index of the coordinate
    [m] that is below the tolerance, at the least distance of all
    coordinates, and the first in scan order at that distance (every
    earlier coordinate is strictly farther), the reported index being 0
    when [m] is the first or last index of a Polygon ring.  For a Point it
    returns -1.  For the ring [[0,0],[0,10],[10,10],[10,0],[0,0]] with the
    pointer within the tolerance of [0,0] and no coordinate nearer, it
    returns 0. *)
Theorem isCoordinateNearEvent_reports_closest
    (config : BehaviorConfig) (measure : TerraDrawMouseEvent -> Position -> Q)
    (event : TerraDrawMouseEvent) (selectedId : string) (w : World)
    (geometry : Geometry) :
  getGeometryCopy selectedId (store w) = Some geometry ->
  (forall c, geometry = Point c ->
     DragCoordinate.isCoordinateNearEvent config measure event selectedId w
       = Returned (-1)%Z w) /\
  (forall cs, ringOf geometry = Some cs ->
     exists r,
       DragCoordinate.isCoordinateNearEvent config measure event selectedId w
         = Returned r w /\
       ((r = (-1)%Z /\
         forall j c, cs !! j = Some c -> ~ measure event c < pointerDistance config)
        \/
        (exists m c,
           cs !! m = Some c /\
           measure event c < pointerDistance config /\
           (forall j c', cs !! j = Some c' -> measure event c <= measure event c') /\
           (forall j c', (j < m)%nat -> cs !! j = Some c' ->
              measure event c < measure event c') /\
           r = reportedIndex geometry cs m))) /\
  (geometry = Polygon [square] ->
   measure event (0, 0) < pointerDistance config ->
   (forall c, c ∈ square -> measure event (0, 0) <= measure event c) ->
   DragCoordinate.isCoordinateNearEvent config measure event selectedId w
     = Returned 0%Z w).
Proof.
  intros Hg.
  assert (Hring : forall cs, ringOf geometry = Some cs ->
     exists r,
       DragCoordinate.isCoordinateNearEvent config measure event selectedId w
         = Returned r w /\
       ((r = (-1)%Z /\
         forall j c, cs !! j = Some c -> ~ measure event c < pointerDistance config)
        \/
        (exists m c,
           cs !! m = Some c /\
           measure event c < pointerDistance config /\
           (forall j c', cs !! j = Some c' -> measure event c <= measure event c') /\
           (forall j c', (j < m)%nat -> cs !! j = Some c' ->
              measure event c < measure event c') /\
           r = reportedIndex geometry cs m))).
  { intros cs Hr. unfold DragCoordinate.isCoordinateNearEvent. rewrite Hg.
    assert (Hscan : scanned config measure event geometry cs ([] ++ cs)
              (DragCoordinate.scan config measure event (isPolygon geometry)
                 (length cs) (length (@nil Position)) cs
                 (DragCoordinate.mkClosest None (-1)%Z false))).
    { apply scan_scanned. left. cbn. split; [reflexivity|]. split; [reflexivity|].
      intros j c Hj. rewrite lookup_nil in Hj. discriminate. }
    cbn [app length] in Hscan.
    destruct geometry as [p|l|rings]; [discriminate| |]; rewrite Hr;
      (eexists; split; [reflexivity|]);
      (destruct Hscan as [(_ & Hi & Hnone)|(m & c & Hm & _ & Hc & Hmin & Hfirst & Hi)];
       [left; split; [exact Hi|exact Hnone]
       |right; exists m, c; repeat split; assumption]). }
  split; [|split].
  - intros c ->. unfold DragCoordinate.isCoordinateNearEvent. rewrite Hg. reflexivity.
  - exact Hring.
  - intros -> Htol Hmin.
    destruct (Hring square eq_refl) as (r & -> & [(_ & Hnone)|(m & c & Hm & _ & _ & Hfirst & ->)]).
    + exfalso. apply (Hnone 0%nat (0, 0)); [reflexivity|exact Htol].
    + destruct m as [|m]; [reflexivity|].
      exfalso. specialize (Hfirst 0%nat (0, 0) ltac:(lia) eq_refl).
      assert (Hin : c ∈ square) by (apply list_elem_of_lookup; eauto).
      specialize (Hmin c Hin). apply (Qlt_not_le _ _ Hfirst Hmin).
Qed.

(** The square with the pointer at (1, 1), city-block pixels and a
    tolerance of 40: every coordinate is within the tolerance, [0,0] is the
    nearest, at index 0 and again at index 4. *)
Lemma isCoordinateNearEvent_reports_closest_witness :
  DragCoordinate.isCoordinateNearEvent sampleConfig sampleMeasure (pointerAt 1 1)
    "f" (worldOf (Polygon [square])) = Returned 0%Z (worldOf (Polygon [square])).
Proof.
  refine (proj2 (proj2 (isCoordinateNearEvent_reports_closest sampleConfig
            sampleMeasure (pointerAt 1 1) "f" (worldOf (Polygon [square]))
            (Polygon [square]) _)) _ _ _).
  - reflexivity.
  - reflexivity.
  - vm_compute. reflexivity.
  - intros c Hc. unfold square in Hc.
    repeat (apply elem_of_cons in Hc as [->|Hc]; [vm_compute; discriminate|]).
    apply elem_of_nil in Hc. destruct Hc.
Defined.

Lemma store_callSetDraggability (event : TerraDrawMouseEvent) (w : World) :
  store (callSetDraggability event w) = store w.
Proof. unfold callSetDraggability. destruct (setDraggability event); reflexivity. Qed.

(** [drag] on a LineString or Polygon whose write leaves no holes. *)
Lemma DragCoordinate_drag_written (event : TerraDrawMouseEvent) (selectedId : string)
    (index : Z) (w : World) (geometry : Geometry) (cs cs' : list Position) :
  getGeometryCopy selectedId (store w) = Some geometry ->
  ringOf geometry = Some cs ->
  DragCoordinate.writeCoordinate (isPolygon geometry) cs index (lng event, lat event)
    = Some cs' ->
  DragCoordinate.drag event selectedId index w =
    Returned true
      {| store := {| features := <[selectedId := withRing geometry cs']> (features (store w));
                     emitted := emitted (store w) ++ [mkChange [] [selectedId] [] []] |};
         mapDraggable := mapDraggable (callSetDraggability event w) |}.
Proof.
  intros Hg Hr Hw. unfold DragCoordinate.drag. rewrite Hg.
  destruct geometry as [p|l|rings]; [discriminate| |];
    cbv zeta; rewrite Hr, Hw, store_callSetDraggability;
    rewrite (updateGeometry_single _ _ _ _ Hg); reflexivity.
Qed.

Lemma arraySet_inside {A : Type} (a : list A) (i : Z) (v : A) :
  (0 <= i < Z.of_nat (length a))%Z -> arraySet a i v = Some (<[Z.to_nat i := v]> a).
Proof.
  intros Hi. unfold arraySet.
  destruct (Z.ltb_spec i 0); [lia|].
  destruct (Z.ltb_spec i (Z.of_nat (length a))); [reflexivity|lia].
Qed.

Lemma arraySet_negative {A : Type} (a : list A) (i : Z) (v : A) :
  (i < 0)%Z -> arraySet a i v = Some a.
Proof. intros Hi. unfold arraySet. destruct (Z.ltb_spec i 0); [reflexivity|lia]. Qed.

(** The write of [drag] for an index inside the array. *)
Lemma writeCoordinate_inside (polygon : bool) (cs : list Position) (index : Z)
    (v : Position) :
  (0 <= index < Z.of_nat (length cs))%Z ->
  DragCoordinate.writeCoordinate polygon cs index v =
    Some (if polygon && ((index =? Z.of_nat (length cs) - 1)%Z || (index =? 0)%Z)
          then <[(length cs - 1)%nat := v]> (<[0%nat := v]> cs)
          else <[Z.to_nat index := v]> cs).
Proof.
  intros Hi. unfold DragCoordinate.writeCoordinate. cbv zeta.
  destruct (polygon && _) eqn:E.
  - rewrite (arraySet_inside cs 0) by lia. cbn [mbind option_bind].
    rewrite arraySet_inside by (rewrite length_insert; lia).
    do 2 f_equal. lia.
  - apply arraySet_inside. exact Hi.
Qed.

Lemma closedRing_set_both (cs : list Position) (v : Position) :
  (0 < length cs)%nat ->
  head (<[(length cs - 1)%nat := v]> (<[0%nat := v]> cs)) = Some v /\
  last (<[(length cs - 1)%nat := v]> (<[0%nat := v]> cs)) = Some v.
Proof.
  intros Hlen. rewrite head_lookup, last_lookup, !length_insert.
  replace (Init.Nat.pred (length cs)) with (length cs - 1)%nat by lia.
  split.
  - destruct (decide (length cs - 1 = 0)%nat) as [E|E].
    + rewrite E. apply list_lookup_insert_eq. rewrite length_insert. lia.
    + rewrite list_lookup_insert_ne by lia. apply list_lookup_insert_eq. lia.
  - apply list_lookup_insert_eq. rewrite length_insert. lia.
Qed.

(** For an index below the length, negative ones included, the write of
    [drag] leaves no holes and keeps a closed Polygon ring closed. *)
Lemma writeCoordinate_closed (cs : list Position) (index : Z) (v : Position) :
  (index < Z.of_nat (length cs))%Z ->
  closedRing cs ->
  exists cs', DragCoordinate.writeCoordinate true cs index v = Some cs' /\ closedRing cs'.
Proof.
  intros Hi Hclosed.
  destruct (Z.ltb_spec index 0) as [Hneg|Hpos].
  - (* a negative index *)
    unfold DragCoordinate.writeCoordinate. cbv zeta. cbn [andb].
    destruct ((index =? _)%Z || (index =? 0)%Z) eqn:E.
    + assert (Hlen : length cs = 0%nat).
      { apply orb_true_iff in E as [E|E]; [apply Z.eqb_eq in E|apply Z.eqb_eq in E]; lia. }
      destruct cs; [|discriminate]. cbn. eexists. split; reflexivity.
    + rewrite arraySet_negative by exact Hneg. eauto.
  - rewrite writeCoordinate_inside by lia. eexists. split; [reflexivity|].
    cbn [andb]. unfold closedRing.
    destruct ((index =? _)%Z || (index =? 0)%Z) eqn:E.
    + destruct (closedRing_set_both cs v) as [-> ->]; [lia|reflexivity].
    + apply orb_false_iff in E as [E1 E2].
      apply Z.eqb_neq in E1. apply Z.eqb_neq in E2.
      rewrite head_lookup, last_lookup, length_insert.
      rewrite !list_lookup_insert_ne by lia.
      rewrite <- head_lookup, <- last_lookup. exact Hclosed.
Qed.

(** C4, as amended.  Coordinate-Drag [drag(event, selectedId, index)]
    returns false at once, with nothing changed, for a Point.  For a
    LineString or Polygon and an index of its coordinate array,
    [0 <= index < length], it returns true after committing the feature
    alone, with one Change Record; in the committed array the coordinate at
    [index] is [[event.lng, event.lat]]; when [index] is the first or last
    index of a Polygon ring both the first and the last coordinate are that
    value; every other coordinate is unchanged, and so is the length. *)
Theorem coordinate_drag_relocates
    (event : TerraDrawMouseEvent) (selectedId : string) (index : Z) (w : World)
    (geometry : Geometry) :
  getGeometryCopy selectedId (store w) = Some geometry ->
  (forall c, geometry = Point c ->
     DragCoordinate.drag event selectedId index w = Returned false w) /\
  (forall cs, ringOf geometry = Some cs ->
     (0 <= index < Z.of_nat (length cs))%Z ->
     exists cs',
       DragCoordinate.drag event selectedId index w =
         Returned true
           {| store :=
                {| features := <[selectedId := withRing geometry cs']> (features (store w));
                   emitted := emitted (store w) ++ [mkChange [] [selectedId] [] []] |};
              mapDraggable := mapDraggable (callSetDraggability event w) |} /\
       length cs' = length cs /\
       cs' !! Z.to_nat index = Some (lng event, lat event) /\
       (isPolygon geometry = true -> firstOrLast cs index ->
          head cs' = Some (lng event, lat event) /\
          last cs' = Some (lng event, lat event)) /\
       (forall j : nat,
          Z.of_nat j <> index ->
          ~ (isPolygon geometry = true /\ firstOrLast cs index /\
             firstOrLast cs (Z.of_nat j)) ->
          cs' !! j = cs !! j)).
Proof.
  intros Hg. split.
  - intros c ->. unfold DragCoordinate.drag. rewrite Hg. reflexivity.
  - intros cs Hr Hi.
    pose proof (writeCoordinate_inside (isPolygon geometry) cs index
                  (lng event, lat event) Hi) as Hw.
    eexists. split; [apply (DragCoordinate_drag_written _ _ _ _ _ cs); eassumption|].
    destruct (isPolygon geometry && _) eqn:E.
    + (* the first or the last coordinate of a Polygon ring *)
      apply andb_true_iff in E as [Hpoly E].
      assert (Hfl : firstOrLast cs index).
      { unfold firstOrLast. apply orb_true_iff in E as [E|E]; apply Z.eqb_eq in E; lia. }
      destruct (closedRing_set_both cs (lng event, lat event)) as [Hhead Hlast]; [lia|].
      split; [rewrite !length_insert; reflexivity|]. split; [|split].
      * destruct Hfl as [->| ->].
        -- rewrite <- head_lookup. exact Hhead.
        -- rewrite last_lookup, !length_insert in Hlast.
           rewrite <- Hlast. f_equal. lia.
      * intros _ _. split; assumption.
      * intros j Hj Hnot.
        assert (Hj' : Z.of_nat j <> 0%Z /\ Z.of_nat j <> (Z.of_nat (length cs) - 1)%Z).
        { unfold firstOrLast in Hnot. split; intros Ej; apply Hnot; auto. }
        rewrite !list_lookup_insert_ne by lia. reflexivity.
    + (* any other coordinate, and every coordinate of a LineString *)
      split; [rewrite length_insert; reflexivity|]. split; [|split].
      * apply list_lookup_insert_eq. lia.
      * intros Hpoly Hfl. exfalso. rewrite Hpoly in E. cbn [andb] in E.
        apply orb_false_iff in E as [E1 E2].
        apply Z.eqb_neq in E1. apply Z.eqb_neq in E2.
        destruct Hfl; congruence.
      * intros j Hj _. apply list_lookup_insert_ne. lia.
Qed.

(** The drag-coordinate scenario: index 0 of the square, pointer at (5, 5). *)
Lemma coordinate_drag_relocates_witness :
  exists cs',
    DragCoordinate.drag (pointerAt 5 5) "f" 0 (worldOf (Polygon [square])) =
      Returned true
        {| store :=
             {| features := <["f" := Polygon [cs']]> (features (storeOf (Polygon [square])));
                emitted := [mkChange [] ["f"] [] []] |};
           mapDraggable := false |} /\
    cs' = [(5, 5); (0, 10); (10, 10); (10, 0); (5, 5)].
Proof.
  destruct (proj2 (coordinate_drag_relocates (pointerAt 5 5) "f" 0
                     (worldOf (Polygon [square])) (Polygon [square]) eq_refl)
              square eq_refl)
    as (cs' & Hrun & Hlen & H0 & Hboth & Hrest).
  { cbn. lia. }
  exists cs'. split; [exact Hrun|].
  destruct (Hboth eq_refl) as [_ Hlast]; [left; reflexivity|].
  rewrite last_lookup, Hlen in Hlast. cbn in Hlast, H0.
  pose proof (Hrest 1%nat) as H1. pose proof (Hrest 2%nat) as H2.
  pose proof (Hrest 3%nat) as H3.
  unfold firstOrLast in H1, H2, H3. cbn in H1, H2, H3.
  do 6 (destruct cs' as [|? cs']; try discriminate Hlen).
  cbn in *. injection H0 as ->. injection Hlast as ->.
  injection (H1 ltac:(lia) ltac:(lia)) as ->.
  injection (H2 ltac:(lia) ltac:(lia)) as ->.
  injection (H3 ltac:(lia) ltac:(lia)) as ->.
  reflexivity.
Defined.

(** C4 as stated does not hold at index -1, the index that
    isCoordinateNearEvent returns when no coordinate is near (here with
    the pointer at (100, 100)): [drag] does not look at the index before it
    writes, [geomCoordinates[-1] = ...] sets no element of the array, and
    the call returns true with a Change Record emitted and the square
    committed as it was, the position (5, 5) of the event nowhere in it. *)
Lemma coordinate_drag_at_minus_one_relocates_nothing :
  DragCoordinate.isCoordinateNearEvent sampleConfig sampleMeasure (pointerAt 100 100)
    "f" (worldOf (Polygon [square])) = Returned (-1)%Z (worldOf (Polygon [square])) /\
  exists w',
    DragCoordinate.drag (pointerAt 5 5) "f" (-1) (worldOf (Polygon [square]))
      = Returned true w' /\
    storedRing "f" (store w') = Some square /\
    ~ In (5, 5) square /\
    emitted (store w') = [mkChange [] ["f"] [] []].
Proof.
  split; [vm_compute; reflexivity|].
  eexists. split; [vm_compute; reflexivity|].
  split; [vm_compute; reflexivity|]. split; [|vm_compute; reflexivity].
  unfold square. cbn [In]. intros H.
  repeat (destruct H as [H|H]; [discriminate H|]). exact H.
Qed.

(** ** Closure and precision under the behaviours *)

Lemma closedRing_map (f : Position -> Position) (ring : list Position) :
  closedRing ring -> closedRing (map f ring).
Proof.
  unfold closedRing. intros H.
  assert (Hh : head (map f ring) = f <$> head ring) by (destruct ring; reflexivity).
  assert (Hl : last (map f ring) = f <$> last ring).
  { clear H Hh. induction ring as [|x ring IH]; [reflexivity|].
    destruct ring as [|y ring]; [reflexivity|exact IH]. }
  rewrite Hh, Hl, H. reflexivity.
Qed.

Lemma storedRing_withRing (id : string) (s : GeoJSONStore) (g : Geometry)
    (cs0 cs : list Position) :
  ringOf g = Some cs0 ->
  features s !! id = Some (withRing g cs) ->
  storedRing id s = Some cs.
Proof.
  intros Hr Hf. unfold storedRing. rewrite Hf. cbn.
  apply (ringOf_withRing _ cs0). exact Hr.
Qed.

Section ClampFacts.
Variable selectionPointsGetUpdated : list Position -> option (list (string * Geometry)).
Variable midPointsGetUpdated : list Position -> option (list (string * Geometry)).

Lemma DragFeatureClamp_commit_returned (id : string) (geometry : Geometry)
    (cs0 cs : list Position) (st st' : DragFeatureClamp.State) (r : option bool) :
  ringOf geometry = Some cs0 ->
  handlesApart selectionPointsGetUpdated midPointsGetUpdated id ->
  DragFeatureClamp.commit selectionPointsGetUpdated midPointsGetUpdated
    id geometry cs st = Returned r st' ->
  r = None /\
  storedRing id (store (DragFeatureClamp.world st')) = Some cs /\
  DragFeatureClamp.dragPosition st' = DragFeatureClamp.dragPosition st.
Proof.
  intros Hr Hapart. unfold DragFeatureClamp.commit. cbv zeta.
  destruct (updateGeometry _ _) as [s|] eqn:Hup; [|discriminate].
  intros [= <- <-]. apply updateGeometry_head in Hup as [Hf _]; [|apply Hapart].
  split; [reflexivity|]. split; [|reflexivity].
  apply (storedRing_withRing _ _ geometry cs0); assumption.
Qed.

(** A tick of the class of part_001 on a Polygon that returns [undefined]
    has committed a closed ring. *)
Lemma DragFeatureClamp_drag_closed (event : TerraDrawMouseEvent) (id : string)
    (rings : list (list Position)) (st st' : DragFeatureClamp.State) :
  getGeometryCopy id (store (DragFeatureClamp.world st)) = Some (Polygon rings) ->
  handlesApart selectionPointsGetUpdated midPointsGetUpdated id ->
  DragFeatureClamp.drag selectionPointsGetUpdated midPointsGetUpdated event id st
    = Returned None st' ->
  exists ring', storedRing id (store (DragFeatureClamp.world st')) = Some ring' /\
                closedRing ring'.
Proof.
  intros Hg Hapart. unfold DragFeatureClamp.drag. cbv zeta.
  cbn [DragFeatureClamp.world DragFeatureClamp.dragPosition].
  rewrite store_callSetDraggability, Hg.
  destruct (ringOf (Polygon rings)) as [cs|] eqn:Hr; [|discriminate].
  destruct (DragFeatureClamp.dragPosition st) as [a|]; [|discriminate].
  destruct (clampLoop _ _ _ _) as [delta|]; [|discriminate].
  destruct (DragFeatureClamp.shiftLoop _ _ _ _) as [cs1| |]; try discriminate.
  cbn [isPolygon]. destruct (closeRing cs1) as [cs2|] eqn:Hclose; [|discriminate].
  intros Hrun. apply (DragFeatureClamp_commit_returned _ _ cs) in Hrun
    as (_ & Hs & _); [|exact Hr|exact Hapart].
  exists cs2. split; [exact Hs|]. apply (closeRing_closed cs1). exact Hclose.
Qed.
End ClampFacts.

Section ScaleFacts.
Variable config : BehaviorConfig.
Variable selectionPointsGetUpdated : list Position -> option (list (string * Geometry)).
Variable midPointsGetUpdated : list Position -> option (list (string * Geometry)).
Variable centroid : Geometry -> Position.
Variable haversineDistanceKilometers : Position -> Position -> Q.
Variable scaleAbout : Position -> Q -> Position -> Position.

Local Abbreviation scale :=
  (ScaleFeature.scale config selectionPointsGetUpdated midPointsGetUpdated
     centroid haversineDistanceKilometers scaleAbout).

Lemma ringOf_transformScale (geometry : Geometry) (factor : Q) (cs : list Position) :
  ringOf geometry = Some cs ->
  ringOf (ScaleFeature.transformScale centroid scaleAbout geometry factor) =
    Some (map (scaleAbout (centroid geometry) factor) cs).
Proof.
  destruct geometry as [p|l|rings]; [discriminate| |].
  - intros [= <-]. reflexivity.
  - destruct rings as [|ring rings]; [discriminate|]. intros [= <-]. reflexivity.
Qed.

(** A call of [scale] on a LineString or Polygon that returns has either
    only taken the distance as the baseline, or committed the coordinates
    scaled by a finite factor and then rounded. *)
Lemma scale_returned (event : TerraDrawMouseEvent) (id : string)
    (st st' : ScaleFeature.State) (geometry : Geometry) (cs : list Position) :
  getGeometryCopy id (store (ScaleFeature.world st)) = Some geometry ->
  ringOf geometry = Some cs ->
  handlesApart selectionPointsGetUpdated midPointsGetUpdated id ->
  scale event id st = Returned tt st' ->
  let distance :=
    haversineDistanceKilometers (centroid geometry) (lng event, lat event) in
  ScaleFeature.lastDistance st' = Some distance /\
  ((ScaleFeature.noLastDistance st = true /\
    store (ScaleFeature.world st') = store (ScaleFeature.world st))
   \/
   (ScaleFeature.noLastDistance st = false /\
    exists factor,
      ScaleFeature.scaleFactor (default 0 (ScaleFeature.lastDistance st)) distance
        = Some factor /\
      storedRing id (store (ScaleFeature.world st')) =
        Some (map (ScaleFeature.limitCoordinate config)
                (map (scaleAbout (centroid geometry) factor) cs)))).
Proof.
  intros Hg Hr Hapart. unfold ScaleFeature.scale. rewrite Hg.
  destruct geometry as [p|l|rings] eqn:Egeo; [discriminate| |]; rewrite <- Egeo in *;
    cbv zeta; cbn [ScaleFeature.world ScaleFeature.lastDistance];
    (unfold ScaleFeature.noLastDistance at 1;
     cbn [ScaleFeature.lastDistance];
     fold (ScaleFeature.noLastDistance st);
     destruct (ScaleFeature.noLastDistance st) eqn:Hno;
     [ intros [= <-]; cbn; split; [reflexivity|]; left; split; [reflexivity|];
       apply store_callSetDraggability
     | destruct (ScaleFeature.scaleFactor _ _) as [factor|] eqn:Hf; [|discriminate];
       rewrite (ringOf_transformScale geometry factor cs Hr);
       rewrite store_callSetDraggability;
       destruct (updateGeometry _ _) as [s|] eqn:Hup; [|discriminate];
       intros [= <-]; cbn; split; [reflexivity|]; right; split; [reflexivity|];
       exists factor; split; [reflexivity|];
       apply updateGeometry_head in Hup as [Hfe _]; [|apply Hapart];
       apply (storedRing_withRing _ _ _ (map (scaleAbout (centroid geometry) factor) cs) _
                (ringOf_transformScale geometry factor cs Hr) Hfe) ]).
Qed.
End ScaleFacts.

Section FeatureDragReturned.
Variable config : BehaviorConfig.
Variable selectionPointsGetUpdated : list Position -> option (list (string * Geometry)).
Variable midPointsGetUpdated : list Position -> option (list (string * Geometry)).

(** A tick of the second class of part_002 on a LineString or Polygon that
    returns [undefined] has run its loop to the end and then committed. *)
Lemma DragFeature_drag_returned (event : TerraDrawMouseEvent) (st st' : DragState)
    (id : string) (geometry : Geometry) (cs : list Position) :
  draggedFeatureId st = Some id -> id <> "" ->
  getGeometryCopy id (store (world st)) = Some geometry ->
  ringOf geometry = Some cs ->
  DragFeature.drag config selectionPointsGetUpdated midPointsGetUpdated event st
    = Returned None st' ->
  exists a cs1,
    dragPosition st = Some a /\
    mapUpTo (DragFeature.shifted config a (lng event, lat event))
      (Z.to_nat (upTo geometry cs)) 0 cs = Done cs1 /\
    finishDrag selectionPointsGetUpdated midPointsGetUpdated event id geometry cs1 st
      = Returned None st'.
Proof.
  intros Hid Hne Hg Hr Hrun.
  destruct (dragPosition st) as [a|] eqn:Ha.
  - rewrite (DragFeature_drag_ring _ _ _ _ _ id geometry cs a) in Hrun by assumption.
    unfold DragFeature.dragRing in Hrun. cbv zeta in Hrun.
    rewrite DragFeature_shiftLoop_eq in Hrun.
    destruct (mapUpTo _ _ _ _) as [cs1| |] eqn:Hloop; try discriminate.
    exists a, cs1. auto.
  - exfalso. revert Hrun. unfold DragFeature.drag.
    rewrite (draggedFeature_Some st id Hid Hne), Hg.
    destruct geometry; [discriminate| |]; rewrite Hr, Ha; discriminate.
Qed.

Lemma DragFeatureShadowed_drag_returned (event : TerraDrawMouseEvent)
    (st st' : DragState) (id : string) (geometry : Geometry) (cs : list Position) :
  draggedFeatureId st = Some id -> id <> "" ->
  getGeometryCopy id (store (world st)) = Some geometry ->
  ringOf geometry = Some cs ->
  DragFeatureShadowed.drag selectionPointsGetUpdated midPointsGetUpdated event st
    = Returned None st' ->
  exists cs1,
    finishDrag selectionPointsGetUpdated midPointsGetUpdated event id geometry cs1 st
      = Returned None st'.
Proof.
  intros Hid Hne Hg Hr Hrun. unfold DragFeatureShadowed.drag in Hrun.
  destruct (dragPosition st) as [a|] eqn:Ha.
  - rewrite (DragFeatureShadowed_drag_ring _ _ _ _ _ id geometry cs a) in Hrun
      by assumption.
    unfold DragFeatureShadowed.dragRing in Hrun. cbv zeta in Hrun.
    destruct (clampLoop _ _ _ _); [|discriminate].
    destruct (DragFeatureShadowed.shiftLoop _ _ _ _ _ _) as [cs1| |]; try discriminate.
    exists cs1. exact Hrun.
  - exfalso. revert Hrun. unfold DragFeatureShadowed.dragWith.
    rewrite (draggedFeature_Some st id Hid Hne), Hg.
    destruct geometry; [discriminate| |]; rewrite Hr, Ha; discriminate.
Qed.

(** After a tick of either class of part_002 on a Polygon has returned
    [undefined], the ring in the store is closed. *)
Lemma feature_drag_closed (event : TerraDrawMouseEvent) (st st' : DragState)
    (id : string) (rings : list (list Position)) :
  draggedFeatureId st = Some id -> id <> "" ->
  getGeometryCopy id (store (world st)) = Some (Polygon rings) ->
  handlesApart selectionPointsGetUpdated midPointsGetUpdated id ->
  (DragFeature.drag config selectionPointsGetUpdated midPointsGetUpdated event st
     = Returned None st' \/
   DragFeatureShadowed.drag selectionPointsGetUpdated midPointsGetUpdated event st
     = Returned None st') ->
  exists ring', storedRing id (store (world st')) = Some ring' /\ closedRing ring'.
Proof.
  intros Hid Hne Hg Hapart Hrun.
  destruct (ringOf (Polygon rings)) as [cs|] eqn:Hr.
  - assert (Hfin : exists cs1,
              finishDrag selectionPointsGetUpdated midPointsGetUpdated event id
                (Polygon rings) cs1 st = Returned None st').
    { destruct Hrun as [Hrun|Hrun].
      - destruct (DragFeature_drag_returned _ _ _ id (Polygon rings) cs
                    Hid Hne Hg Hr Hrun) as (a & cs1 & _ & _ & Hfin).
        exists cs1. exact Hfin.
      - apply (DragFeatureShadowed_drag_returned _ _ _ id (Polygon rings) cs
                 Hid Hne Hg Hr Hrun). }
    destruct Hfin as [cs1 Hfin].
    apply (finishDrag_returned _ _ _ _ _ cs) in Hfin
      as (cs' & Hclose & _ & _ & _ & _ & Hs & _); [|exact Hr|exact Hapart].
    exists cs'. split; [exact Hs|]. cbn [isPolygon] in Hclose.
    apply (closeRing_closed cs1). exact Hclose.
  - exfalso. destruct Hrun as [Hrun|Hrun]; revert Hrun.
    + unfold DragFeature.drag. rewrite (draggedFeature_Some st id Hid Hne), Hg, Hr.
      discriminate.
    + unfold DragFeatureShadowed.drag, DragFeatureShadowed.dragWith.
      rewrite (draggedFeature_Some st id Hid Hne), Hg, Hr. discriminate.
Qed.

Lemma shifted_hasPrecision (a m c c' : Position) :
  DragFeature.shifted config a m c = Some c' ->
  positionHasPrecision (coordinatePrecision config) c'.
Proof.
  unfold DragFeature.shifted. cbv zeta. destruct (outOfRange _ _); [discriminate|].
  intros [= <-]. split; apply limitPrecision_hasPrecision.
Qed.

(** After a tick of the second class of part_002 has returned [undefined],
    every coordinate of the array in the store is rounded; a Polygon ring
    of a single coordinate is left out, the loop does not reach it. *)
Lemma feature_drag_rounded (event : TerraDrawMouseEvent) (st st' : DragState)
    (id : string) (geometry : Geometry) (cs : list Position) :
  draggedFeatureId st = Some id -> id <> "" ->
  getGeometryCopy id (store (world st)) = Some geometry ->
  ringOf geometry = Some cs ->
  handlesApart selectionPointsGetUpdated midPointsGetUpdated id ->
  (isPolygon geometry = true -> (2 <= length cs)%nat) ->
  DragFeature.drag config selectionPointsGetUpdated midPointsGetUpdated event st
    = Returned None st' ->
  exists cs', storedRing id (store (world st')) = Some cs' /\
              Forall (positionHasPrecision (coordinatePrecision config)) cs'.
Proof.
  intros Hid Hne Hg Hr Hapart Hlen2 Hrun.
  destruct (DragFeature_drag_returned _ _ _ id geometry cs Hid Hne Hg Hr Hrun)
    as (a & cs1 & _ & Hloop & Hfin).
  apply mapUpTo_done in Hloop as (Hlen & Hin & _).
  apply (finishDrag_returned _ _ _ _ _ cs) in Hfin
    as (cs' & Hclose & _ & _ & _ & _ & Hs & _); [|exact Hr|exact Hapart].
  exists cs'. split; [exact Hs|].
  assert (Hbelow : forall j c', (Z.of_nat j < upTo geometry cs)%Z ->
            cs1 !! j = Some c' -> positionHasPrecision (coordinatePrecision config) c').
  { intros j c' Hj Hc'. destruct (Hin j) as (c & c'' & _ & Hsh & Hc''); [lia|].
    rewrite Hc'' in Hc'. injection Hc' as <-. apply (shifted_hasPrecision _ _ _ _ Hsh). }
  apply Forall_lookup. intros j c' Hc'. unfold upTo in Hbelow.
  destruct (isPolygon geometry) eqn:Hpoly.
  - specialize (Hlen2 eq_refl). unfold closeRing in Hclose.
    destruct (cs1 !! 0%nat) as [[x y]|] eqn:H0; [|discriminate].
    injection Hclose as <-. cbn [fst snd] in Hc'.
    destruct (decide (j = length cs1 - 1)%nat) as [->|Hne'].
    + rewrite list_lookup_insert_eq in Hc' by lia. injection Hc' as <-.
      apply (Hbelow 0%nat); [lia|exact H0].
    + rewrite list_lookup_insert_ne in Hc' by congruence.
      apply lookup_lt_Some in Hc' as Hlt.
      apply (Hbelow j); [lia|exact Hc'].
  - subst cs'. apply lookup_lt_Some in Hc' as Hlt. apply (Hbelow j); [lia|exact Hc'].
Qed.
End FeatureDragReturned.

Section BehaviourClaims.
Variable config : BehaviorConfig.
Variable selectionPointsGetUpdated : list Position -> option (list (string * Geometry)).
Variable midPointsGetUpdated : list Position -> option (list (string * Geometry)).
Variable centroid : Geometry -> Position.
Variable haversineDistanceKilometers : Position -> Position -> Q.
Variable scaleAbout : Position -> Q -> Position -> Position.

Local Abbreviation scale :=
  (ScaleFeature.scale config selectionPointsGetUpdated midPointsGetUpdated
     centroid haversineDistanceKilometers scaleAbout).

(** Where the ring of a Polygon is closed after a mutation:
    - Coordinate-Drag [drag] with an index below the length of the ring
      returns true and leaves a ring that was closed closed;
    - Feature-Drag [drag], in all three classes, closes the ring itself:
      after a tick that returned [undefined] the stored ring is closed,
      whatever it was before;
    - Feature-Scale [scale] that returns leaves a ring that was closed
      closed, the transform being applied to every coordinate alike. *)
Theorem polygon_ring_closed_after_mutation
    (id : string) (rings : list (list Position)) :
  (forall event index w ring,
     getGeometryCopy id (store w) = Some (Polygon rings) ->
     head rings = Some ring -> closedRing ring ->
     (index < Z.of_nat (length ring))%Z ->
     exists w' ring',
       DragCoordinate.drag event id index w = Returned true w' /\
       storedRing id (store w') = Some ring' /\ closedRing ring') /\
  (forall event st st',
     draggedFeatureId st = Some id -> id <> "" ->
     getGeometryCopy id (store (world st)) = Some (Polygon rings) ->
     handlesApart selectionPointsGetUpdated midPointsGetUpdated id ->
     (DragFeature.drag config selectionPointsGetUpdated midPointsGetUpdated event st
        = Returned None st' \/
      DragFeatureShadowed.drag selectionPointsGetUpdated midPointsGetUpdated event st
        = Returned None st') ->
     exists ring', storedRing id (store (world st')) = Some ring' /\ closedRing ring') /\
  (forall event st st',
     getGeometryCopy id (store (DragFeatureClamp.world st)) = Some (Polygon rings) ->
     handlesApart selectionPointsGetUpdated midPointsGetUpdated id ->
     DragFeatureClamp.drag selectionPointsGetUpdated midPointsGetUpdated event id st
       = Returned None st' ->
     exists ring', storedRing id (store (DragFeatureClamp.world st')) = Some ring' /\
                   closedRing ring') /\
  (forall event st st' ring,
     getGeometryCopy id (store (ScaleFeature.world st)) = Some (Polygon rings) ->
     head rings = Some ring -> closedRing ring ->
     handlesApart selectionPointsGetUpdated midPointsGetUpdated id ->
     scale event id st = Returned tt st' ->
     exists ring', storedRing id (store (ScaleFeature.world st')) = Some ring' /\
                   closedRing ring').
Proof.
  split; [|split; [|split]].
  - intros event index w ring Hg Hh Hclosed Hi.
    destruct (writeCoordinate_closed ring index (lng event, lat event) Hi Hclosed)
      as (ring' & Hw & Hclosed').
    eexists. exists ring'.
    split; [apply (DragCoordinate_drag_written _ _ _ _ (Polygon rings) ring ring' Hg Hh Hw)|].
    split; [|exact Hclosed']. cbn [store].
    apply (storedRing_withRing _ _ (Polygon rings) ring); [exact Hh|].
    cbn [features]. apply lookup_insert_eq.
  - intros event st st'. apply feature_drag_closed.
  - intros event st st'. apply DragFeatureClamp_drag_closed.
  - intros event st st' ring Hg Hh Hclosed Hapart Hrun.
    destruct (scale_returned config _ _ centroid haversineDistanceKilometers scaleAbout
                event id st st' (Polygon rings) ring Hg Hh Hapart Hrun)
      as (_ & [(_ & Hsame)|(_ & factor & _ & Hs)]).
    + exists ring. rewrite Hsame. split; [|exact Hclosed].
      unfold storedRing. unfold getGeometryCopy in Hg. rewrite Hg. exact Hh.
    + eexists. split; [exact Hs|]. apply closedRing_map, closedRing_map. exact Hclosed.
Qed.

(** C2, as amended.  The coordinates that a behaviour computes are rounded
    to the configured precision before they are committed: after a tick of
    the second Feature-Drag class of part_002 on a LineString or Polygon
    (a Polygon ring of at least two coordinates) and after a scaling tick
    of Feature-Scale, every coordinate of the array read back from the
    store is a value of limitPrecision; with precision 6 the value
    12.1234567 is stored as 12.123457. *)
Theorem computed_coordinates_are_rounded
    (id : string) (geometry : Geometry) (cs : list Position) :
  ringOf geometry = Some cs ->
  handlesApart selectionPointsGetUpdated midPointsGetUpdated id ->
  (forall event st st',
     draggedFeatureId st = Some id -> id <> "" ->
     getGeometryCopy id (store (world st)) = Some geometry ->
     (isPolygon geometry = true -> (2 <= length cs)%nat) ->
     DragFeature.drag config selectionPointsGetUpdated midPointsGetUpdated event st
       = Returned None st' ->
     exists cs', storedRing id (store (world st')) = Some cs' /\
                 Forall (positionHasPrecision (coordinatePrecision config)) cs') /\
  (forall event st st',
     getGeometryCopy id (store (ScaleFeature.world st)) = Some geometry ->
     ScaleFeature.noLastDistance st = false ->
     scale event id st = Returned tt st' ->
     exists cs', storedRing id (store (ScaleFeature.world st')) = Some cs' /\
                 Forall (positionHasPrecision (coordinatePrecision config)) cs') /\
  limitPrecision (121234567 # 10000000) 6 = (12123457 # 1000000).
Proof.
  intros Hr Hapart. split; [|split].
  - intros event st st' Hid Hne Hg Hlen Hrun.
    apply (feature_drag_rounded config selectionPointsGetUpdated midPointsGetUpdated
             event st st' id geometry cs); assumption.
  - intros event st st' Hg Hlast Hrun.
    destruct (scale_returned config _ _ centroid haversineDistanceKilometers scaleAbout
                event id st st' geometry cs Hg Hr Hapart Hrun)
      as (_ & [(Hno & _)|(_ & factor & _ & Hs)]); [congruence|].
    eexists. split; [exact Hs|].
    apply Forall_forall. intros c Hc.
    apply list_elem_of_In, in_map_iff in Hc as (c0 & <- & _).
    split; apply limitPrecision_hasPrecision.
  - reflexivity.
Qed.
End BehaviourClaims.

(** Index 0 of the square moved to (5, 5) by Coordinate-Drag, and the
    square moved by (1, 1) by Feature-Drag. *)
Lemma polygon_ring_closed_after_mutation_witness :
  (exists w' ring',
     DragCoordinate.drag (pointerAt 5 5) "f" 0 (worldOf (Polygon [square]))
       = Returned true w' /\
     storedRing "f" (store w') = Some ring' /\ closedRing ring') /\
  (exists st' ring',
     DragFeature.drag sampleConfig noHandles noHandles (pointerAt 1 1)
       (dragging (Polygon [square]) (0, 0)) = Returned None st' /\
     storedRing "f" (store (world st')) = Some ring' /\ closedRing ring').
Proof.
  pose proof (polygon_ring_closed_after_mutation sampleConfig noHandles noHandles
                firstCoordinate blockDistance affineScale "f" [square])
    as (Hcoordinate & Hfeature & _ & _).
  split.
  - apply (Hcoordinate (pointerAt 5 5) 0%Z (worldOf (Polygon [square])) square).
    + reflexivity.
    + reflexivity.
    + reflexivity.
    + cbn. lia.
  - assert (Hrun : exists st',
              DragFeature.drag sampleConfig noHandles noHandles (pointerAt 1 1)
                (dragging (Polygon [square]) (0, 0)) = Returned None st')
      by (eexists; vm_compute; reflexivity).
    destruct Hrun as [st' Hrun].
    destruct (Hfeature (pointerAt 1 1) (dragging (Polygon [square]) (0, 0)) st')
      as (ring' & Hs & Hclosed).
    + reflexivity.
    + discriminate.
    + reflexivity.
    + apply noHandles_apart.
    + left. exact Hrun.
    + exists st', ring'. auto.
Defined.


(** The precision scenario: a line through (12, 0) and (13, 1) moved east
    by 0.1234567 at precision 6.  The computed longitude 12.1234567 is
    read back as 12.123457. *)
Lemma computed_coordinates_are_rounded_witness :
  exists st' cs',
    DragFeature.drag sampleConfig noHandles noHandles
      (pointerAt (1234567 # 10000000) 0) (dragging (LineString [(12, 0); (13, 1)]) (0, 0))
      = Returned None st' /\
    storedRing "f" (store (world st')) = Some cs' /\
    Forall (positionHasPrecision 6) cs' /\
    cs' = [(12123457 # 1000000, 0 # 1000000); (13123457 # 1000000, 1000000 # 1000000)].
Proof.
  assert (Hrun : exists st',
            DragFeature.drag sampleConfig noHandles noHandles
              (pointerAt (1234567 # 10000000) 0)
              (dragging (LineString [(12, 0); (13, 1)]) (0, 0))
            = Returned None st' /\
            storedRing "f" (store (world st')) =
              Some [(12123457 # 1000000, 0 # 1000000);
                    (13123457 # 1000000, 1000000 # 1000000)])
    by (eexists; split; vm_compute; reflexivity).
  destruct Hrun as (st' & Hrun & Hstored).
  destruct (proj1 (computed_coordinates_are_rounded sampleConfig noHandles noHandles
                     firstCoordinate blockDistance affineScale "f"
                     (LineString [(12, 0); (13, 1)]) [(12, 0); (13, 1)]
                     eq_refl (noHandles_apart "f"))
              (pointerAt (1234567 # 10000000) 0)
              (dragging (LineString [(12, 0); (13, 1)]) (0, 0)) st')
    as (cs' & Hs & Hrounded).
  - reflexivity.
  - discriminate.
  - reflexivity.
  - discriminate.
  - exact Hrun.
  - exists st', cs'. split; [exact Hrun|]. split; [exact Hs|]. split; [exact Hrounded|].
    rewrite Hs in Hstored. injection Hstored as ->. reflexivity.
Defined.

(** C2 as stated does not hold of Coordinate-Drag, which commits the
    position of the event as it comes: with the pointer at longitude
    12.1234567, that value is stored, and it is not a value rounded to 6
    places. *)
Lemma coordinate_drag_commits_unrounded :
  coordinatePrecision sampleConfig = 6%nat /\
  exists w',
    DragCoordinate.drag (pointerAt (121234567 # 10000000) 0) "f" 1
      (worldOf (LineString [(0, 0); (1, 1)])) = Returned true w' /\
    storedRing "f" (store w') = Some [(0, 0); (121234567 # 10000000, 0)] /\
    ~ hasPrecision 6 (121234567 # 10000000).
Proof.
  split; [reflexivity|]. eexists. split; [vm_compute; reflexivity|].
  split; [vm_compute; reflexivity|]. unfold hasPrecision. vm_compute. discriminate.
Qed.

Section ScaleClaims.
Variable config : BehaviorConfig.
Variable selectionPointsGetUpdated : list Position -> option (list (string * Geometry)).
Variable midPointsGetUpdated : list Position -> option (list (string * Geometry)).
Variable centroid : Geometry -> Position.
Variable haversineDistanceKilometers : Position -> Position -> Q.
Variable scaleAbout : Position -> Q -> Position -> Position.

Local Abbreviation scale :=
  (ScaleFeature.scale config selectionPointsGetUpdated midPointsGetUpdated
     centroid haversineDistanceKilometers scaleAbout).

(** C7.  [scale] on a Point returns with nothing changed.  [scale] on a
    LineString or Polygon while [lastDistance] is unset (or zero, which
    [!this.lastDistance] takes for unset) stores the distance from the
    centroid to the pointer as [lastDistance] and returns with the store
    as it was. *)
Theorem scale_first_tick_sets_baseline
    (event : TerraDrawMouseEvent) (id : string) (st : ScaleFeature.State)
    (geometry : Geometry) :
  getGeometryCopy id (store (ScaleFeature.world st)) = Some geometry ->
  (forall c, geometry = Point c -> scale event id st = Returned tt st) /\
  ((forall c, geometry <> Point c) ->
   ScaleFeature.lastDistance st = None \/ ScaleFeature.noLastDistance st = true ->
   exists st',
     scale event id st = Returned tt st' /\
     store (ScaleFeature.world st') = store (ScaleFeature.world st) /\
     ScaleFeature.lastDistance st' =
       Some (haversineDistanceKilometers (centroid geometry) (lng event, lat event))).
Proof.
  intros Hg. split.
  - intros c ->. unfold ScaleFeature.scale. rewrite Hg. reflexivity.
  - intros Hnp Hlast.
    assert (Hno : ScaleFeature.noLastDistance st = true).
    { destruct Hlast as [Hlast|Hlast]; [|exact Hlast].
      unfold ScaleFeature.noLastDistance. rewrite Hlast. reflexivity. }
    unfold ScaleFeature.scale. rewrite Hg.
    destruct geometry as [p|l|rings]; [destruct (Hnp p eq_refl)| |];
      cbv zeta; unfold ScaleFeature.noLastDistance at 1;
      cbn [ScaleFeature.lastDistance ScaleFeature.world];
      fold (ScaleFeature.noLastDistance st); rewrite Hno;
      (eexists; split; [reflexivity|]; cbn; split; [|reflexivity];
       apply store_callSetDraggability).
Qed.

(** C8, as amended.  On a tick of [scale] where the distance from the
    centroid to the pointer is not zero, the factor
    [1 - (lastDistance - distance) / distance] is a finite number, for any
    [lastDistance]; and [scale] stays within finite numbers on every tick
    where that distance is not zero or where [lastDistance] is unset or
    zero (the baseline rule: no factor is computed then). *)
Theorem scale_factor_finite_for_nonzero_distance
    (event : TerraDrawMouseEvent) (id : string) (st : ScaleFeature.State)
    (geometry : Geometry) :
  getGeometryCopy id (store (ScaleFeature.world st)) = Some geometry ->
  (~ haversineDistanceKilometers (centroid geometry) (lng event, lat event) == 0 ->
   forall lastDistance,
     ScaleFeature.scaleFactor lastDistance
       (haversineDistanceKilometers (centroid geometry) (lng event, lat event))
     = Some (1 - (lastDistance
                  - haversineDistanceKilometers (centroid geometry) (lng event, lat event))
                 / haversineDistanceKilometers (centroid geometry) (lng event, lat event)))
  /\
  (ScaleFeature.noLastDistance st = true \/
   ~ haversineDistanceKilometers (centroid geometry) (lng event, lat event) == 0 ->
   scale event id st <> Escaped).
Proof.
  intros Hg.
  assert (Hfactor :
    ~ haversineDistanceKilometers (centroid geometry) (lng event, lat event) == 0 ->
    forall lastDistance,
     ScaleFeature.scaleFactor lastDistance
       (haversineDistanceKilometers (centroid geometry) (lng event, lat event))
     = Some (1 - (lastDistance
                  - haversineDistanceKilometers (centroid geometry) (lng event, lat event))
                 / haversineDistanceKilometers (centroid geometry) (lng event, lat event))).
  { intros Hd lastDistance. unfold ScaleFeature.scaleFactor, jsDiv.
    destruct (Qeq_bool _ 0) eqn:E; [|reflexivity].
    apply Qeq_bool_eq in E. contradiction. }
  split; [exact Hfactor|].
  intros Hok. unfold ScaleFeature.scale. rewrite Hg.
  destruct geometry as [p|l|rings]; [discriminate| |];
    cbv zeta; unfold ScaleFeature.noLastDistance at 1;
    cbn [ScaleFeature.lastDistance ScaleFeature.world];
    fold (ScaleFeature.noLastDistance st);
    (destruct (ScaleFeature.noLastDistance st) eqn:Hno; [discriminate|]);
    (destruct Hok as [Hok|Hd]; [discriminate|]);
    rewrite (Hfactor Hd);
    (destruct (ringOf _); [|discriminate]);
    (destruct (updateGeometry _ _); discriminate).
Qed.
End ScaleClaims.

(** A first tick on the square, with the pointer at (3, 4). *)
Lemma scale_first_tick_sets_baseline_witness :
  exists st',
    ScaleFeature.scale sampleConfig noHandles noHandles firstCoordinate blockDistance
      affineScale (pointerAt 3 4) "f" (scaling (Polygon [square]) None)
      = Returned tt st' /\
    store (ScaleFeature.world st') = storeOf (Polygon [square]) /\
    ScaleFeature.lastDistance st' = Some (blockDistance (0, 0) (3, 4)).
Proof.
  refine (proj2 (scale_first_tick_sets_baseline sampleConfig noHandles noHandles
                   firstCoordinate blockDistance affineScale (pointerAt 3 4) "f"
                   (scaling (Polygon [square]) None) (Polygon [square]) _) _ _).
  - reflexivity.
  - discriminate.
  - left. reflexivity.
Defined.

(** A later tick on the square, with the pointer at (3, 4), 7 away. *)
Lemma scale_factor_finite_for_nonzero_distance_witness :
  ScaleFeature.scaleFactor 5 (blockDistance (0, 0) (3, 4))
    = Some (1 - (5 - blockDistance (0, 0) (3, 4)) / blockDistance (0, 0) (3, 4)) /\
  ScaleFeature.scale sampleConfig noHandles noHandles firstCoordinate blockDistance
    affineScale (pointerAt 3 4) "f" (scaling (Polygon [square]) (Some 5)) <> Escaped.
Proof.
  destruct (scale_factor_finite_for_nonzero_distance sampleConfig noHandles noHandles
              firstCoordinate blockDistance affineScale (pointerAt 3 4) "f"
              (scaling (Polygon [square]) (Some 5)) (Polygon [square]) eq_refl)
    as [Hfactor Hrun].
  assert (Hd : ~ blockDistance (firstCoordinate (Polygon [square]))
                   (lng (pointerAt 3 4), lat (pointerAt 3 4)) == 0)
    by (vm_compute; discriminate).
  split; [apply (Hfactor Hd 5)|apply Hrun; right; exact Hd].
Defined.

(** C8 as stated does not hold on a tick after the baseline (lastDistance
    is 5) with the pointer on the centroid: the distance is 0, the division
    is by zero, and the factor is not a finite number. *)
Lemma scale_factor_at_zero_distance :
  blockDistance (firstCoordinate (LineString [(0, 0); (2, 2)])) (0, 0) == 0 /\
  ScaleFeature.scaleFactor 5 0 = None /\
  ScaleFeature.scale sampleConfig noHandles noHandles firstCoordinate blockDistance
    affineScale (pointerAt 0 0) "f" (scaling (LineString [(0, 0); (2, 2)]) (Some 5))
    = Escaped.
Proof. split; [reflexivity|]. split; [reflexivity|]. vm_compute. reflexivity. Qed.

(** ** The class of part_001: what holds of it *)

Section ClampHolds.
Variable selectionPointsGetUpdated : list Position -> option (list (string * Geometry)).
Variable midPointsGetUpdated : list Position -> option (list (string * Geometry)).

(** With an anchor set, [drag] of part_001 has no [return false]: every
    translation of a LineString or Polygon goes on to the commit. *)
Lemma clamp_drag_never_rejects (event : TerraDrawMouseEvent) (id : string)
    (st st' : DragFeatureClamp.State) (a : Position) :
  DragFeatureClamp.dragPosition st = Some a ->
  DragFeatureClamp.drag selectionPointsGetUpdated midPointsGetUpdated event id st
    <> Returned (Some false) st'.
Proof.
  intros Ha. unfold DragFeatureClamp.drag. cbv zeta.
  cbn [DragFeatureClamp.world DragFeatureClamp.dragPosition]. rewrite Ha.
  assert (Hcommit : forall geometry cs st0,
            DragFeatureClamp.commit selectionPointsGetUpdated midPointsGetUpdated
              id geometry cs st0 <> Returned (Some false) st').
  { intros geometry cs st0. unfold DragFeatureClamp.commit. cbv zeta.
    destruct (updateGeometry _ _); discriminate. }
  destruct (getGeometryCopy id _) as [geometry|]; [|discriminate].
  destruct geometry as [p|l|rings].
  - destruct (updateGeometry _ _); discriminate.
  - cbn [ringOf]. destruct (clampLoop _ _ _ _) as [delta|]; [|discriminate].
    rewrite DragFeatureClamp_shiftLoop_eq.
    destruct (mapUpTo _ _ _ _) as [cs1| |] eqn:Hloop; [apply Hcommit| |discriminate].
    exfalso. revert Hloop. apply mapUpTo_no_return. eauto.
  - destruct (ringOf (Polygon rings)) as [cs|]; [|discriminate].
    destruct (clampLoop _ _ _ _) as [delta|]; [|discriminate].
    rewrite DragFeatureClamp_shiftLoop_eq.
    destruct (mapUpTo _ _ _ _) as [cs1| |] eqn:Hloop; [| |discriminate].
    + cbn [isPolygon]. destruct (closeRing cs1); [apply Hcommit|discriminate].
    + exfalso. revert Hloop. apply mapUpTo_no_return. eauto.
Qed.
End ClampHolds.

(** The longitude is not checked: a line at longitude 170 dragged 20
    degrees east is committed at longitude 190. *)
Lemma clamp_drag_longitude_unchecked :
  exists st',
    DragFeatureClamp.drag noHandles noHandles (pointerAt 20 0) "f"
      (draggingClamp (LineString [(170, 0)]) (0, 0)) = Returned None st' /\
    storedRing "f" (store (DragFeatureClamp.world st')) = Some [(190, 0)].
Proof. eexists. split; vm_compute; reflexivity. Qed.

(** ** Ticks that go through *)

Section FeatureDragSucceeds.
Variable config : BehaviorConfig.
Variable selectionPointsGetUpdated : list Position -> option (list (string * Geometry)).
Variable midPointsGetUpdated : list Position -> option (list (string * Geometry)).

Local Abbreviation handlesKnown :=
  (handlesKnown selectionPointsGetUpdated midPointsGetUpdated).

Lemma finishDrag_succeeds (event : TerraDrawMouseEvent) (id : string)
    (geometry : Geometry) (cs : list Position) (st : DragState) :
  is_Some (getGeometryCopy id (store (world st))) ->
  handlesKnown (store (world st)) ->
  (isPolygon geometry = true -> cs <> []) ->
  exists st',
    finishDrag selectionPointsGetUpdated midPointsGetUpdated event id geometry cs st
      = Returned None st'.
Proof.
  intros Hid Hknown Hne. unfold finishDrag.
  assert (Hclose : exists cs', (if isPolygon geometry then closeRing cs else Some cs)
                               = Some cs').
  { destruct (isPolygon geometry); [|eauto].
    unfold closeRing. destruct cs as [|c cs]; [destruct (Hne eq_refl eq_refl)|].
    cbn. eauto. }
  destruct Hclose as [cs' ->]. cbv zeta.
  unfold updateGeometry, knownIds. cbn [forallb fst].
  unfold getGeometryCopy in Hid. rewrite (bool_decide_eq_true_2 _ Hid). cbn [andb].
  specialize (Hknown cs'). unfold knownIds in Hknown. rewrite Hknown.
  eexists. reflexivity.
Qed.

(** A tick on a LineString or on a Polygon with a ring that is not empty,
    with the anchor set and every shifted coordinate in range, returns
    [undefined] from both classes of part_002. *)
Lemma feature_drag_commits_in_range
    (event : TerraDrawMouseEvent) (st : DragState) (id : string)
    (geometry : Geometry) (cs : list Position) (a : Position) :
  draggedFeatureId st = Some id -> id <> "" ->
  getGeometryCopy id (store (world st)) = Some geometry ->
  ringOf geometry = Some cs ->
  (isPolygon geometry = true -> cs <> []) ->
  dragPosition st = Some a ->
  handlesKnown (store (world st)) ->
  (forall j c, (Z.of_nat j < upTo geometry cs)%Z -> cs !! j = Some c ->
     inRange (c.1 - (a.1 - lng event), c.2 - (a.2 - lat event))) ->
  (exists st',
     DragFeature.drag config selectionPointsGetUpdated midPointsGetUpdated event st
       = Returned None st') /\
  (exists st',
     DragFeatureShadowed.drag selectionPointsGetUpdated midPointsGetUpdated event st
       = Returned None st').
Proof.
  intros Hid Hne Hg Hr Hring Ha Hknown Hin.
  pose proof (upTo_le geometry cs) as Hle.
  assert (Hfin : forall cs1, length cs1 = length cs ->
            exists st',
              finishDrag selectionPointsGetUpdated midPointsGetUpdated event id
                geometry cs1 st = Returned None st').
  { intros cs1 Hlen. apply finishDrag_succeeds; [eauto|exact Hknown|].
    intros Hpoly ->. apply (Hring Hpoly). destruct cs; [reflexivity|discriminate]. }
  split.
  - rewrite (DragFeature_drag_ring _ _ _ _ _ id geometry cs a) by assumption.
    unfold DragFeature.dragRing. cbv zeta. rewrite DragFeature_shiftLoop_eq.
    destruct (mapUpTo_accept (DragFeature.shifted config a (lng event, lat event))
                (Z.to_nat (upTo geometry cs)) 0 cs Hle) as [cs1 Hloop].
    { intros j c Hj Hc. unfold DragFeature.shifted. cbv zeta. cbn [fst snd].
      rewrite (proj2 (outOfRange_false _ _) (Hin j c ltac:(lia) Hc)). eauto. }
    rewrite Hloop. apply Hfin. apply mapUpTo_done in Hloop as [Hlen _]. exact Hlen.
  - unfold DragFeatureShadowed.drag.
    rewrite (DragFeatureShadowed_drag_ring _ _ _ _ _ id geometry cs a) by assumption.
    rewrite DragFeatureShadowed_dragRing_clamp.
    unfold DragFeatureShadowed.dragRing. cbv zeta.
    rewrite DragFeatureShadowed_shiftLoop_eq.
    destruct (mapUpTo_accept
                (DragFeatureShadowed.shifted
                   (a.1 - (lng event, lat event).1, a.2 - (lng event, lat event).2)
                   a (lng event, lat event))
                (Z.to_nat (upTo geometry cs)) 0 cs Hle) as [cs1 Hloop].
    { intros j c Hj Hc. unfold DragFeatureShadowed.shifted. cbv zeta. cbn [fst snd].
      rewrite (proj2 (outOfRange_false _ _) (Hin j c ltac:(lia) Hc)). eauto. }
    rewrite Hloop. apply Hfin. apply mapUpTo_done in Hloop as [Hlen _]. exact Hlen.
Qed.
End FeatureDragSucceeds.

(** * More of the behaviours *)

(** ** Feature-Drag: when nothing is dragged, Points, missing records *)

Section FeatureDragEdges.
Variable config : BehaviorConfig.
Variable selectionPointsGetUpdated : list Position -> option (list (string * Geometry)).
Variable midPointsGetUpdated : list Position -> option (list (string * Geometry)).

Local Abbreviation dragB :=
  (DragFeature.drag config selectionPointsGetUpdated midPointsGetUpdated).
Local Abbreviation dragA :=
  (DragFeatureShadowed.drag selectionPointsGetUpdated midPointsGetUpdated).
Local Abbreviation dragC :=
  (DragFeatureClamp.drag selectionPointsGetUpdated midPointsGetUpdated).

(** [drag] of part_002 tests [!this.draggedFeatureId] and isDragging tests
    [!== null].  With no id, or with the empty string for an id, [drag]
    returns [undefined] and changes nothing: so after stopDragging, and so
    after startDragging(event, ""), although isDragging is true then. *)
Theorem feature_drag_idle_does_nothing
    (event : TerraDrawMouseEvent) (st : DragState) :
  draggedFeatureId st = None \/ draggedFeatureId st = Some "" ->
  dragB event st = Returned None st /\
  dragA event st = Returned None st /\
  (forall event0,
     dragB event (stopDragging (startDragging event0 "f" st))
       = Returned None (stopDragging (startDragging event0 "f" st)) /\
     isDragging (startDragging event0 "" st) = true /\
     dragB event (startDragging event0 "" st)
       = Returned None (startDragging event0 "" st)).
Proof.
  intros Hidle.
  assert (Hnone : draggedFeature st = None).
  { unfold draggedFeature. destruct Hidle as [-> | ->]; reflexivity. }
  split; [|split].
  - unfold DragFeature.drag. rewrite Hnone. reflexivity.
  - unfold DragFeatureShadowed.drag, DragFeatureShadowed.dragWith.
    rewrite Hnone. reflexivity.
  - intros event0. split; [reflexivity|]. split; reflexivity.
Qed.

(** For a Point the classes of part_002 ask for no anchor and check no
    range: [drag] commits the position of the pointer as the coordinates of
    the Point, for the feature alone, and moves the anchor there. *)
Theorem feature_drag_point_follows_pointer
    (event : TerraDrawMouseEvent) (st : DragState) (id : string) (c : Position) :
  draggedFeatureId st = Some id -> id <> "" ->
  getGeometryCopy id (store (world st)) = Some (Point c) ->
  let st' :=
    {| world :=
         {| store :=
              {| features := <[id := Point (lng event, lat event)]> (features (store (world st)));
                 emitted := emitted (store (world st)) ++ [mkChange [] [id] [] []] |};
            mapDraggable := mapDraggable (world st) |};
       draggedFeatureId := Some id;
       dragPosition := Some (lng event, lat event) |} in
  dragB event st = Returned None st' /\ dragA event st = Returned None st'.
Proof.
  intros Hid Hne Hg st'.
  assert (Hpoint : dragPoint event id st = Returned None st').
  { unfold dragPoint. cbv zeta. rewrite (updateGeometry_single _ _ _ _ Hg).
    unfold committed. cbn [store world]. rewrite Hid. reflexivity. }
  split.
  - unfold DragFeature.drag. rewrite (draggedFeature_Some st id Hid Hne), Hg. exact Hpoint.
  - unfold DragFeatureShadowed.drag, DragFeatureShadowed.dragWith.
    rewrite (draggedFeature_Some st id Hid Hne), Hg. exact Hpoint.
Qed.

(** The same in the class of part_001, where the anchor is left alone. *)
Theorem clamp_drag_point_follows_pointer
    (event : TerraDrawMouseEvent) (st : DragFeatureClamp.State) (id : string)
    (c : Position) :
  getGeometryCopy id (store (DragFeatureClamp.world st)) = Some (Point c) ->
  dragC event id st =
    Returned None
      {| DragFeatureClamp.world :=
           {| store :=
                {| features :=
                     <[id := Point (lng event, lat event)]>
                       (features (store (DragFeatureClamp.world st)));
                   emitted :=
                     emitted (store (DragFeatureClamp.world st))
                       ++ [mkChange [] [id] [] []] |};
              mapDraggable :=
                mapDraggable (callSetDraggability event (DragFeatureClamp.world st)) |};
         DragFeatureClamp.dragPosition := DragFeatureClamp.dragPosition st |}.
Proof.
  intros Hg. unfold DragFeatureClamp.drag. cbv zeta.
  cbn [DragFeatureClamp.world DragFeatureClamp.dragPosition].
  rewrite store_callSetDraggability, Hg.
  rewrite (updateGeometry_single _ _ _ _ Hg). reflexivity.
Qed.

(** A Polygon whose first ring is missing or empty cannot be dragged: the
    classes of part_002 throw a TypeError where they read the first
    coordinate, and leave the store and the anchor as they were. *)
Theorem feature_drag_empty_ring_throws
    (event : TerraDrawMouseEvent) (st : DragState) (id : string)
    (rings : list (list Position)) (a : Position) :
  draggedFeatureId st = Some id -> id <> "" ->
  getGeometryCopy id (store (world st)) = Some (Polygon rings) ->
  dragPosition st = Some a ->
  head rings = None \/ head rings = Some [] ->
  dragB event st = Threw TypeError st /\ dragA event st = Threw TypeError st.
Proof.
  intros Hid Hne Hg Ha Hempty.
  unfold DragFeature.drag, DragFeatureShadowed.drag, DragFeatureShadowed.dragWith.
  rewrite (draggedFeature_Some st id Hid Hne), Hg. cbn [ringOf].
  destruct Hempty as [-> | ->]; [split; reflexivity|].
  rewrite Ha. split; reflexivity.
Qed.
End FeatureDragEdges.

(** Nothing is dragged in the sample state once the drag is stopped; a
    tick with the pointer at (1, 1) then leaves the square where it is. *)
Lemma feature_drag_idle_does_nothing_witness :
  DragFeature.drag sampleConfig noHandles noHandles (pointerAt 1 1)
    (stopDragging (dragging (Polygon [square]) (0, 0)))
    = Returned None (stopDragging (dragging (Polygon [square]) (0, 0))) /\
  DragFeatureShadowed.drag noHandles noHandles (pointerAt 1 1)
    (stopDragging (dragging (Polygon [square]) (0, 0)))
    = Returned None (stopDragging (dragging (Polygon [square]) (0, 0))).
Proof.
  destruct (feature_drag_idle_does_nothing sampleConfig noHandles noHandles
              (pointerAt 1 1) (stopDragging (dragging (Polygon [square]) (0, 0))))
    as (HB & HA & _).
  - left. reflexivity.
  - split; [exact HB|exact HA].
Defined.

(** The sample Point at (1, 2) dragged with the pointer at (3, 4). *)
Lemma feature_drag_point_follows_pointer_witness :
  exists st',
    DragFeature.drag sampleConfig noHandles noHandles (pointerAt 3 4)
      (dragging (Point (1, 2)) (0, 0)) = Returned None st' /\
    DragFeatureShadowed.drag noHandles noHandles (pointerAt 3 4)
      (dragging (Point (1, 2)) (0, 0)) = Returned None st' /\
    features (store (world st')) !! "f" = Some (Point (3, 4)) /\
    dragPosition st' = Some (3, 4).
Proof.
  eexists.
  destruct (feature_drag_point_follows_pointer sampleConfig noHandles noHandles
              (pointerAt 3 4) (dragging (Point (1, 2)) (0, 0)) "f" (1, 2))
    as [HB HA].
  - reflexivity.
  - discriminate.
  - reflexivity.
  - split; [exact HB|]. split; [exact HA|]. split; reflexivity.
Defined.

(** The same Point in the class of part_001, with the anchor at (0, 0). *)
Lemma clamp_drag_point_follows_pointer_witness :
  exists st',
    DragFeatureClamp.drag noHandles noHandles (pointerAt 3 4) "f"
      (draggingClamp (Point (1, 2)) (0, 0)) = Returned None st' /\
    features (store (DragFeatureClamp.world st')) !! "f" = Some (Point (3, 4)) /\
    DragFeatureClamp.dragPosition st' = Some (0, 0).
Proof.
  eexists. split.
  - apply (clamp_drag_point_follows_pointer noHandles noHandles (pointerAt 3 4)
             (draggingClamp (Point (1, 2)) (0, 0)) "f" (1, 2)).
    reflexivity.
  - split; reflexivity.
Defined.

(** A Polygon whose first ring is empty. *)
Lemma feature_drag_empty_ring_throws_witness :
  DragFeature.drag sampleConfig noHandles noHandles (pointerAt 3 4)
    (dragging (Polygon [[]]) (0, 0))
    = Threw TypeError (dragging (Polygon [[]]) (0, 0)) /\
  DragFeatureShadowed.drag noHandles noHandles (pointerAt 3 4)
    (dragging (Polygon [[]]) (0, 0))
    = Threw TypeError (dragging (Polygon [[]]) (0, 0)).
Proof.
  apply (feature_drag_empty_ring_throws sampleConfig noHandles noHandles
           (pointerAt 3 4) (dragging (Polygon [[]]) (0, 0)) "f" [[]] (0, 0)).
  - reflexivity.
  - discriminate.
  - reflexivity.
  - reflexivity.
  - right. reflexivity.
Defined.

(** ** Feature-Drag: the translation *)

(** Rounding keeps a value on its side of a whole number. *)
Lemma limitPrecision_le (q : Q) (n : Z) (p : nat) :
  q <= inject_Z n -> limitPrecision q p <= inject_Z n.
Proof.
  intros Hq. pose proof (pow10_pos p) as Hp.
  assert (Hz : (Qfloor (q * inject_Z (10 ^ Z.of_nat p) + (1 # 2)) <= n * 10 ^ Z.of_nat p)%Z).
  { rewrite <- (Qfloor_half (n * 10 ^ Z.of_nat p)). apply Qfloor_resp_le.
    rewrite inject_Z_mult. apply Qplus_le_l. apply Qmult_le_compat_r; [exact Hq|].
    rewrite <- (Zle_Qle 0). lia. }
  unfold limitPrecision. cbv zeta.
  set (z := Qfloor (q * inject_Z (10 ^ Z.of_nat p) + (1 # 2))) in *.
  unfold Qle, inject_Z. cbn [Qnum Qden].
  rewrite Z2Pos.id by exact Hp. lia.
Qed.

Lemma limitPrecision_ge (q : Q) (n : Z) (p : nat) :
  inject_Z n <= q -> inject_Z n <= limitPrecision q p.
Proof.
  intros Hq. pose proof (pow10_pos p) as Hp.
  assert (Hz : (n * 10 ^ Z.of_nat p <= Qfloor (q * inject_Z (10 ^ Z.of_nat p) + (1 # 2)))%Z).
  { rewrite <- (Qfloor_half (n * 10 ^ Z.of_nat p)) at 1. apply Qfloor_resp_le.
    rewrite inject_Z_mult. apply Qplus_le_l. apply Qmult_le_compat_r; [exact Hq|].
    rewrite <- (Zle_Qle 0). lia. }
  unfold limitPrecision. cbv zeta.
  set (z := Qfloor (q * inject_Z (10 ^ Z.of_nat p) + (1 # 2))) in *.
  unfold Qle, inject_Z. cbn [Qnum Qden].
  rewrite Z2Pos.id by exact Hp. lia.
Qed.

Lemma limitPrecision_inRange (x y : Q) (p : nat) :
  inRange (x, y) -> inRange (limitPrecision x p, limitPrecision y p).
Proof.
  unfold inRange. cbn [fst snd]. intros (H1 & H2 & H3 & H4).
  repeat split.
  - apply (limitPrecision_ge x (-180) p). exact H1.
  - apply (limitPrecision_le x 180 p). exact H2.
  - apply (limitPrecision_ge y (-90) p). exact H3.
  - apply (limitPrecision_le y 90 p). exact H4.
Qed.

(** A loop that returned false has met a coordinate that its body refuses. *)
Lemma mapUpTo_returned_false (step : Position -> option Position) (n i : nat)
    (cs : list Position) :
  mapUpTo step n i cs = ReturnFalse ->
  exists j c, (i <= j < i + n)%nat /\ cs !! j = Some c /\ step c = None.
Proof.
  revert i cs. induction n as [|n IH]; intros i cs H; [discriminate|].
  cbn [mapUpTo] in H. destruct (cs !! i) as [c0|] eqn:Hc0; [|discriminate].
  destruct (step c0) as [c0'|] eqn:Hs0.
  - apply IH in H as (j & c & Hj & Hc & Hs).
    rewrite list_lookup_insert_ne in Hc by lia.
    exists j, c. split; [lia|]. split; assumption.
  - exists i, c0. split; [lia|]. split; assumption.
Qed.

Lemma DragFeature_shifted_Some (config : BehaviorConfig) (a m c c' : Position) :
  DragFeature.shifted config a m c = Some c' ->
  inRange (c.1 - (a.1 - m.1), c.2 - (a.2 - m.2)) /\
  c' = (limitPrecision (c.1 - (a.1 - m.1)) (coordinatePrecision config),
        limitPrecision (c.2 - (a.2 - m.2)) (coordinatePrecision config)).
Proof.
  unfold DragFeature.shifted. cbv zeta. cbn [fst snd].
  destruct (outOfRange _ _) eqn:E; [discriminate|].
  intros [= <-]. split; [apply outOfRange_false; exact E|reflexivity].
Qed.

Lemma DragFeatureShadowed_shifted_Some (delta a m c c' : Position) :
  DragFeatureShadowed.shifted delta a m c = Some c' ->
  inRange (c.1 - (a.1 - m.1), c.2 - (a.2 - m.2)) /\
  c' = (c.1 - (a.1 - m.1), c.2 - (a.2 - m.2)).
Proof.
  unfold DragFeatureShadowed.shifted. cbv zeta. cbn [fst snd].
  destruct (outOfRange _ _) eqn:E; [discriminate|].
  intros [= <-]. split; [apply outOfRange_false; exact E|reflexivity].
Qed.

(** The end of a tick writes the closing coordinate of a Polygon and
    nothing else. *)
Lemma finishDrag_coordinates
    (selectionPointsGetUpdated midPointsGetUpdated :
       list Position -> option (list (string * Geometry)))
    (event : TerraDrawMouseEvent) (id : string) (geometry : Geometry)
    (cs0 cs1 : list Position) (st st' : DragState) (r : option bool) :
  ringOf geometry = Some cs0 ->
  handlesApart selectionPointsGetUpdated midPointsGetUpdated id ->
  finishDrag selectionPointsGetUpdated midPointsGetUpdated event id geometry cs1 st
    = Returned r st' ->
  exists cs',
    features (store (world st')) !! id = Some (withRing geometry cs') /\
    length cs' = length cs1 /\
    (forall j, (Z.of_nat j < upTo geometry cs1)%Z -> cs' !! j = cs1 !! j) /\
    (isPolygon geometry = true -> cs' !! (length cs1 - 1)%nat = cs' !! 0%nat).
Proof.
  intros Hr Hapart Hfin.
  destruct (finishDrag_returned _ _ _ _ _ cs0 cs1 _ _ _ Hr Hapart Hfin)
    as (cs' & Hclose & _ & _ & _ & Hf & _ & _).
  exists cs'. split; [exact Hf|]. unfold upTo.
  destruct (isPolygon geometry).
  - destruct (closeRing_closed cs1 cs' Hclose) as [Hclosed Hlen].
    split; [exact Hlen|]. split.
    + intros j Hj. unfold closeRing in Hclose.
      destruct (cs1 !! 0%nat); [|discriminate]. injection Hclose as <-.
      apply list_lookup_insert_ne. lia.
    + intros _. unfold closedRing in Hclosed.
      rewrite head_lookup, last_lookup, Hlen in Hclosed.
      replace (length cs1 - 1)%nat with (Init.Nat.pred (length cs1)) by lia.
      symmetry. exact Hclosed.
  - subst cs'. split; [reflexivity|]. split; [reflexivity|discriminate].
Qed.

Section FeatureDragTranslation.
Variable config : BehaviorConfig.
Variable selectionPointsGetUpdated : list Position -> option (list (string * Geometry)).
Variable midPointsGetUpdated : list Position -> option (list (string * Geometry)).

Local Abbreviation dragB :=
  (DragFeature.drag config selectionPointsGetUpdated midPointsGetUpdated).
Local Abbreviation dragA :=
  (DragFeatureShadowed.drag selectionPointsGetUpdated midPointsGetUpdated).
Local Abbreviation precision := (coordinatePrecision config).

(** What a tick of the second class of part_002 that returned [undefined]
    has written. *)
Lemma DragFeature_drag_moved
    (event : TerraDrawMouseEvent) (st st' : DragState) (id : string)
    (geometry : Geometry) (cs : list Position) :
  draggedFeatureId st = Some id -> id <> "" ->
  getGeometryCopy id (store (world st)) = Some geometry ->
  ringOf geometry = Some cs ->
  handlesApart selectionPointsGetUpdated midPointsGetUpdated id ->
  dragB event st = Returned None st' ->
  exists a cs',
    dragPosition st = Some a /\
    features (store (world st')) !! id = Some (withRing geometry cs') /\
    length cs' = length cs /\
    (forall j c, (Z.of_nat j < upTo geometry cs)%Z -> cs !! j = Some c ->
       inRange (c.1 - (a.1 - lng event), c.2 - (a.2 - lat event)) /\
       cs' !! j = Some (limitPrecision (c.1 - (a.1 - lng event)) precision,
                        limitPrecision (c.2 - (a.2 - lat event)) precision)) /\
    (isPolygon geometry = true -> cs' !! (length cs - 1)%nat = cs' !! 0%nat).
Proof.
  intros Hid Hne Hg Hr Hapart Hrun.
  destruct (DragFeature_drag_returned _ _ _ _ _ _ id geometry cs Hid Hne Hg Hr Hrun)
    as (a & cs1 & Ha & Hloop & Hfin).
  apply mapUpTo_done in Hloop as (Hlen1 & Hin & _).
  destruct (finishDrag_coordinates _ _ _ _ _ cs cs1 _ _ _ Hr Hapart Hfin)
    as (cs' & Hf & Hlen & Hkeep & Hclose).
  assert (Hup : upTo geometry cs1 = upTo geometry cs) by (unfold upTo; rewrite Hlen1; reflexivity).
  exists a, cs'. split; [exact Ha|]. split; [exact Hf|].
  split; [congruence|]. split.
  - intros j c Hj Hc. destruct (Hin j) as (c0 & c' & Hc0 & Hs & Hc').
    { pose proof (upTo_le geometry cs). lia. }
    rewrite Hc in Hc0. injection Hc0 as <-.
    apply DragFeature_shifted_Some in Hs as [Hrange ->]. cbn [fst snd] in *.
    split; [exact Hrange|]. rewrite Hkeep by (rewrite Hup; exact Hj). exact Hc'.
  - rewrite <- Hlen1. exact Hclose.
Qed.

(** A tick of the second class of part_002 that returns [undefined] has
    moved the feature as a whole: every coordinate below [upToCoord] is the
    old one plus (pointer - anchor), which was checked to be in range, and
    then rounded; the closing coordinate of a Polygon is the first one; the
    number of coordinates is the same; the other rings of a Polygon are
    committed as they were. *)
Theorem feature_drag_translates_rounded
    (event : TerraDrawMouseEvent) (st st' : DragState) (id : string)
    (geometry : Geometry) (cs : list Position) :
  draggedFeatureId st = Some id -> id <> "" ->
  getGeometryCopy id (store (world st)) = Some geometry ->
  ringOf geometry = Some cs ->
  handlesApart selectionPointsGetUpdated midPointsGetUpdated id ->
  dragB event st = Returned None st' ->
  exists a cs',
    dragPosition st = Some a /\
    features (store (world st')) !! id = Some (withRing geometry cs') /\
    length cs' = length cs /\
    (forall j c, (Z.of_nat j < upTo geometry cs)%Z -> cs !! j = Some c ->
       inRange (c.1 - (a.1 - lng event), c.2 - (a.2 - lat event)) /\
       cs' !! j = Some (limitPrecision (c.1 - (a.1 - lng event)) precision,
                        limitPrecision (c.2 - (a.2 - lat event)) precision)) /\
    (isPolygon geometry = true -> cs' !! (length cs - 1)%nat = cs' !! 0%nat).
Proof. apply DragFeature_drag_moved. Qed.

(** The same of the first class of part_002, which stores the shifted
    values as they are. *)
Theorem feature_drag_translates
    (event : TerraDrawMouseEvent) (st st' : DragState) (id : string)
    (geometry : Geometry) (cs : list Position) (a : Position) :
  draggedFeatureId st = Some id -> id <> "" ->
  getGeometryCopy id (store (world st)) = Some geometry ->
  ringOf geometry = Some cs ->
  dragPosition st = Some a ->
  handlesApart selectionPointsGetUpdated midPointsGetUpdated id ->
  dragA event st = Returned None st' ->
  exists cs',
    features (store (world st')) !! id = Some (withRing geometry cs') /\
    length cs' = length cs /\
    (forall j c, (Z.of_nat j < upTo geometry cs)%Z -> cs !! j = Some c ->
       inRange (c.1 - (a.1 - lng event), c.2 - (a.2 - lat event)) /\
       cs' !! j = Some (c.1 - (a.1 - lng event), c.2 - (a.2 - lat event))) /\
    (isPolygon geometry = true -> cs' !! (length cs - 1)%nat = cs' !! 0%nat).
Proof.
  intros Hid Hne Hg Hr Ha Hapart Hrun. unfold DragFeatureShadowed.drag in Hrun.
  rewrite (DragFeatureShadowed_drag_ring _ _ _ _ _ id geometry cs a) in Hrun
    by assumption.
  rewrite DragFeatureShadowed_dragRing_clamp in Hrun.
  unfold DragFeatureShadowed.dragRing in Hrun. cbv zeta in Hrun.
  rewrite DragFeatureShadowed_shiftLoop_eq in Hrun.
  destruct (mapUpTo _ _ _ _) as [cs1| |] eqn:Hloop; try discriminate.
  apply mapUpTo_done in Hloop as (Hlen1 & Hin & _).
  destruct (finishDrag_coordinates _ _ _ _ _ cs cs1 _ _ _ Hr Hapart Hrun)
    as (cs' & Hf & Hlen & Hkeep & Hclose).
  assert (Hup : upTo geometry cs1 = upTo geometry cs) by (unfold upTo; rewrite Hlen1; reflexivity).
  exists cs'. split; [exact Hf|]. split; [congruence|]. split.
  - intros j c Hj Hc. destruct (Hin j) as (c0 & c' & Hc0 & Hs & Hc').
    { pose proof (upTo_le geometry cs). lia. }
    rewrite Hc in Hc0. injection Hc0 as <-.
    apply DragFeatureShadowed_shifted_Some in Hs as [Hrange ->]. cbn [fst snd] in *.
    split; [exact Hrange|]. rewrite Hkeep by (rewrite Hup; exact Hj). exact Hc'.
  - rewrite <- Hlen1. exact Hclose.
Qed.

(** The range is checked before the rounding, and the rounding cannot
    carry a value across a whole degree: after a tick of the second class
    of part_002, every coordinate of the array in the store lies within
    longitude [-180, 180] and latitude [-90, 90] (for a Polygon, a ring of
    at least two coordinates). *)
Theorem feature_drag_commits_in_bounds
    (event : TerraDrawMouseEvent) (st st' : DragState) (id : string)
    (geometry : Geometry) (cs : list Position) :
  draggedFeatureId st = Some id -> id <> "" ->
  getGeometryCopy id (store (world st)) = Some geometry ->
  ringOf geometry = Some cs ->
  handlesApart selectionPointsGetUpdated midPointsGetUpdated id ->
  (isPolygon geometry = true -> (2 <= length cs)%nat) ->
  dragB event st = Returned None st' ->
  exists cs', storedRing id (store (world st')) = Some cs' /\ Forall inRange cs'.
Proof.
  intros Hid Hne Hg Hr Hapart Hlen2 Hrun.
  destruct (DragFeature_drag_moved event st st' id geometry cs
              Hid Hne Hg Hr Hapart Hrun)
    as (a & cs' & _ & Hf & Hlen & Hbelow & Hclose).
  exists cs'. split; [apply (storedRing_withRing _ _ geometry cs); assumption|].
  assert (Hshift : forall j c', (Z.of_nat j < upTo geometry cs)%Z ->
            cs' !! j = Some c' -> inRange c').
  { intros j c' Hj Hc'.
    destruct (cs !! j) as [c|] eqn:Hc.
    - destruct (Hbelow j c Hj Hc) as [Hrange Hc'']. rewrite Hc'' in Hc'.
      injection Hc' as <-. apply limitPrecision_inRange. exact Hrange.
    - apply lookup_ge_None in Hc. apply lookup_lt_Some in Hc'. lia. }
  apply Forall_lookup. intros j c' Hc'. apply lookup_lt_Some in Hc' as Hlt.
  unfold upTo in Hshift. destruct (isPolygon geometry) eqn:Hpoly.
  - specialize (Hlen2 eq_refl).
    destruct (decide (j = length cs - 1)%nat) as [->|Hne'].
    + rewrite (Hclose eq_refl) in Hc'. apply (Hshift 0%nat); [lia|exact Hc'].
    + apply (Hshift j); [lia|exact Hc'].
  - apply (Hshift j); [lia|exact Hc'].
Qed.

(** Whether a tick is accepted is decided by the range check alone.  On a
    LineString, or on a Polygon with a first ring that is not empty, with
    the anchor set and the handle updates addressed to records of the
    store, either some coordinate below [upToCoord] would leave the range
    and both classes of part_002 return false with nothing changed, or
    every one stays in range and both return [undefined]. *)
Theorem feature_drag_accepts_iff_in_range
    (event : TerraDrawMouseEvent) (st : DragState) (id : string)
    (geometry : Geometry) (cs : list Position) (a : Position) :
  draggedFeatureId st = Some id -> id <> "" ->
  getGeometryCopy id (store (world st)) = Some geometry ->
  ringOf geometry = Some cs ->
  (isPolygon geometry = true -> cs <> []) ->
  dragPosition st = Some a ->
  handlesKnown selectionPointsGetUpdated midPointsGetUpdated (store (world st)) ->
  ((exists j c, (Z.of_nat j < upTo geometry cs)%Z /\ cs !! j = Some c /\
                ~ inRange (c.1 - (a.1 - lng event), c.2 - (a.2 - lat event))) /\
   dragB event st = Returned (Some false) st /\
   dragA event st = Returned (Some false) st)
  \/
  ((forall j c, (Z.of_nat j < upTo geometry cs)%Z -> cs !! j = Some c ->
      inRange (c.1 - (a.1 - lng event), c.2 - (a.2 - lat event))) /\
   (exists st', dragB event st = Returned None st') /\
   (exists st', dragA event st = Returned None st')).
Proof.
  intros Hid Hne Hg Hr Hring Ha Hknown.
  pose proof (upTo_le geometry cs) as Hle.
  destruct (mapUpTo (DragFeature.shifted config a (lng event, lat event))
              (Z.to_nat (upTo geometry cs)) 0 cs) as [cs1| |] eqn:Hloop.
  - right.
    assert (Hin : forall j c, (Z.of_nat j < upTo geometry cs)%Z -> cs !! j = Some c ->
              inRange (c.1 - (a.1 - lng event), c.2 - (a.2 - lat event))).
    { apply mapUpTo_done in Hloop as (_ & Hin & _). intros j c Hj Hc.
      destruct (Hin j) as (c0 & c' & Hc0 & Hs & _); [lia|].
      rewrite Hc in Hc0. injection Hc0 as <-.
      apply DragFeature_shifted_Some in Hs as [Hrange _]. exact Hrange. }
    split; [exact Hin|].
    apply (feature_drag_commits_in_range config selectionPointsGetUpdated
             midPointsGetUpdated event st id geometry cs a); assumption.
  - left. apply mapUpTo_returned_false in Hloop as (j & c & Hj & Hc & Hs).
    assert (Hout : ~ inRange (c.1 - (a.1 - lng event), c.2 - (a.2 - lat event))).
    { intros Hrange. apply outOfRange_false in Hrange.
      unfold DragFeature.shifted in Hs. cbv zeta in Hs. cbn [fst snd] in Hs.
      rewrite Hrange in Hs. discriminate. }
    split; [exists j, c; split; [lia|]; split; assumption|].
    apply outOfRange_true in Hout. split.
    + rewrite (DragFeature_drag_ring _ _ _ _ _ id geometry cs a) by assumption.
      unfold DragFeature.dragRing. cbv zeta. rewrite DragFeature_shiftLoop_eq.
      rewrite (mapUpTo_reject _ _ 0 cs j c); [reflexivity|exact Hle|lia|exact Hc|exact Hs].
    + unfold DragFeatureShadowed.drag.
      rewrite (DragFeatureShadowed_drag_ring _ _ _ _ _ id geometry cs a) by assumption.
      rewrite DragFeatureShadowed_dragRing_clamp.
      unfold DragFeatureShadowed.dragRing. cbv zeta.
      rewrite DragFeatureShadowed_shiftLoop_eq.
      rewrite (mapUpTo_reject _ _ 0 cs j c); [reflexivity|exact Hle|lia|exact Hc|].
      unfold DragFeatureShadowed.shifted. cbv zeta. cbn [fst snd]. rewrite Hout.
      reflexivity.
  - exfalso. revert Hloop. clear -Hle. revert Hle.
    generalize (Z.to_nat (upTo geometry cs)). generalize 0%nat. revert cs.
    intros cs i n. revert i cs. induction n as [|n IH]; intros i cs Hle; [discriminate|].
    cbn [mapUpTo]. destruct (cs !! i) as [c|] eqn:Hc.
    + destruct (DragFeature.shifted _ _ _ c); [|discriminate].
      apply IH. rewrite length_insert. lia.
    + apply lookup_ge_None in Hc. lia.
Qed.
End FeatureDragTranslation.

Lemma noHandles_known (s : GeoJSONStore) : handlesKnown noHandles noHandles s.
Proof. intros cs. reflexivity. Qed.

(** The square dragged from (0, 0) to (1, 2) at precision 6. *)
Lemma feature_drag_translates_rounded_witness :
  exists st' cs',
    DragFeature.drag sampleConfig noHandles noHandles (pointerAt 1 2)
      (dragging (Polygon [square]) (0, 0)) = Returned None st' /\
    features (store (world st')) !! "f" = Some (Polygon [cs']) /\
    length cs' = 5%nat /\
    cs' !! 2%nat = Some (limitPrecision (10 - (0 - 1)) 6, limitPrecision (10 - (0 - 2)) 6) /\
    cs' !! 4%nat = cs' !! 0%nat.
Proof.
  assert (Hrun : exists st',
            DragFeature.drag sampleConfig noHandles noHandles (pointerAt 1 2)
              (dragging (Polygon [square]) (0, 0)) = Returned None st')
    by (eexists; vm_compute; reflexivity).
  destruct Hrun as (st' & Hrun).
  destruct (feature_drag_translates_rounded sampleConfig noHandles noHandles
              (pointerAt 1 2) (dragging (Polygon [square]) (0, 0)) st' "f"
              (Polygon [square]) square)
    as (a & cs' & Ha & Hf & Hlen & Hbelow & Hclose).
  - reflexivity.
  - discriminate.
  - reflexivity.
  - reflexivity.
  - apply noHandles_apart.
  - exact Hrun.
  - injection Ha as <-. exists st', cs'. split; [exact Hrun|]. split; [exact Hf|].
    split; [exact Hlen|]. split.
    + destruct (Hbelow 2%nat (10, 10)) as [_ Hc]; [vm_compute; reflexivity|reflexivity|].
      exact Hc.
    + apply Hclose. reflexivity.
Defined.

(** The same drag in the first class. *)
Lemma feature_drag_translates_witness :
  exists st' cs',
    DragFeatureShadowed.drag noHandles noHandles (pointerAt 1 2)
      (dragging (Polygon [square]) (0, 0)) = Returned None st' /\
    features (store (world st')) !! "f" = Some (Polygon [cs']) /\
    length cs' = 5%nat /\
    cs' !! 2%nat = Some (10 - (0 - 1), 10 - (0 - 2)) /\
    cs' !! 4%nat = cs' !! 0%nat.
Proof.
  assert (Hrun : exists st',
            DragFeatureShadowed.drag noHandles noHandles (pointerAt 1 2)
              (dragging (Polygon [square]) (0, 0)) = Returned None st')
    by (eexists; vm_compute; reflexivity).
  destruct Hrun as (st' & Hrun).
  destruct (feature_drag_translates noHandles noHandles
              (pointerAt 1 2) (dragging (Polygon [square]) (0, 0)) st' "f"
              (Polygon [square]) square (0, 0))
    as (cs' & Hf & Hlen & Hbelow & Hclose).
  - reflexivity.
  - discriminate.
  - reflexivity.
  - reflexivity.
  - reflexivity.
  - apply noHandles_apart.
  - exact Hrun.
  - exists st', cs'. split; [exact Hrun|]. split; [exact Hf|].
    split; [exact Hlen|]. split.
    + destruct (Hbelow 2%nat (10, 10)) as [_ Hc]; [vm_compute; reflexivity|reflexivity|].
      exact Hc.
    + apply Hclose. reflexivity.
Defined.

(** The square dragged up to the edge of the range, by 80 degrees north. *)
Lemma feature_drag_commits_in_bounds_witness :
  exists st' cs',
    DragFeature.drag sampleConfig noHandles noHandles (pointerAt 0 80)
      (dragging (Polygon [square]) (0, 0)) = Returned None st' /\
    storedRing "f" (store (world st')) = Some cs' /\ Forall inRange cs'.
Proof.
  assert (Hrun : exists st',
            DragFeature.drag sampleConfig noHandles noHandles (pointerAt 0 80)
              (dragging (Polygon [square]) (0, 0)) = Returned None st')
    by (eexists; vm_compute; reflexivity).
  destruct Hrun as (st' & Hrun).
  destruct (feature_drag_commits_in_bounds sampleConfig noHandles noHandles
              (pointerAt 0 80) (dragging (Polygon [square]) (0, 0)) st' "f"
              (Polygon [square]) square)
    as (cs' & Hs & Hin).
  - reflexivity.
  - discriminate.
  - reflexivity.
  - reflexivity.
  - apply noHandles_apart.
  - intros _. cbn. lia.
  - exact Hrun.
  - exists st', cs'. split; [exact Hrun|]. split; [exact Hs|exact Hin].
Defined.

(** The square dragged by 85 degrees north is turned down, by 80 degrees
    it is moved. *)
Lemma feature_drag_accepts_iff_in_range_witness :
  DragFeature.drag sampleConfig noHandles noHandles (pointerAt 0 85)
    (dragging (Polygon [square]) (0, 0))
    = Returned (Some false) (dragging (Polygon [square]) (0, 0)) /\
  exists st',
    DragFeature.drag sampleConfig noHandles noHandles (pointerAt 0 80)
      (dragging (Polygon [square]) (0, 0)) = Returned None st'.
Proof.
  split.
  - destruct (feature_drag_accepts_iff_in_range sampleConfig noHandles noHandles
                (pointerAt 0 85) (dragging (Polygon [square]) (0, 0)) "f"
                (Polygon [square]) square (0, 0))
      as [(_ & HB & _)|(Hin & _)].
    + reflexivity.
    + discriminate.
    + reflexivity.
    + reflexivity.
    + discriminate.
    + reflexivity.
    + apply noHandles_known.
    + exact HB.
    + exfalso. destruct (Hin 1%nat (0, 10)) as (_ & _ & _ & Hlat);
        [vm_compute; reflexivity|reflexivity|].
      revert Hlat. vm_compute. intros H. apply H. reflexivity.
  - destruct (feature_drag_accepts_iff_in_range sampleConfig noHandles noHandles
                (pointerAt 0 80) (dragging (Polygon [square]) (0, 0)) "f"
                (Polygon [square]) square (0, 0))
      as [(_ & HB & _)|(_ & HB & _)].
    + reflexivity.
    + discriminate.
    + reflexivity.
    + reflexivity.
    + discriminate.
    + reflexivity.
    + apply noHandles_known.
    + exfalso. revert HB. vm_compute. discriminate.
    + exact HB.
Defined.

(** ** Feature-Drag, part_001: a translation that needs no clamping *)

Lemma validateDeltaRange_idle (position delta : Position) :
  -85 <= position.2 - delta.2 -> position.2 - delta.2 <= 85 ->
  validateDeltaRange Idx1 position (-85) 85 delta = delta.
Proof.
  intros Hlo Hhi. unfold validateDeltaRange. cbv zeta. cbn [at_].
  rewrite (proj2 (Qltb_ge _ _) Hlo), (proj2 (Qltb_ge _ _) Hhi). reflexivity.
Qed.

Lemma clampLoop_idle (n i : nat) (cs : list Position) (delta : Position) :
  (i + n <= length cs)%nat ->
  (forall j c, (i <= j < i + n)%nat -> cs !! j = Some c ->
     -85 <= c.2 - delta.2 /\ c.2 - delta.2 <= 85) ->
  clampLoop n i cs delta = Some delta.
Proof.
  revert i. induction n as [|n IH]; intros i Hlen Hin; [reflexivity|].
  cbn [clampLoop]. destruct (cs !! i) as [c|] eqn:Hc.
  - destruct (Hin i c) as [Hlo Hhi]; [lia|exact Hc|].
    rewrite validateDeltaRange_idle by assumption.
    apply IH; [lia|]. intros j c' Hj. apply Hin. lia.
  - apply lookup_ge_None in Hc. lia.
Qed.

Section ClampTranslation.
Variable selectionPointsGetUpdated : list Position -> option (list (string * Geometry)).
Variable midPointsGetUpdated : list Position -> option (list (string * Geometry)).

Lemma DragFeatureClamp_commit_effect (id : string) (geometry : Geometry)
    (cs0 cs : list Position) (st : DragFeatureClamp.State) :
  getGeometryCopy id (store (DragFeatureClamp.world st)) = Some geometry ->
  ringOf geometry = Some cs0 ->
  handlesApart selectionPointsGetUpdated midPointsGetUpdated id ->
  handlesKnown selectionPointsGetUpdated midPointsGetUpdated
    (store (DragFeatureClamp.world st)) ->
  exists st',
    DragFeatureClamp.commit selectionPointsGetUpdated midPointsGetUpdated
      id geometry cs st = Returned None st' /\
    features (store (DragFeatureClamp.world st')) !! id = Some (withRing geometry cs) /\
    DragFeatureClamp.dragPosition st' = DragFeatureClamp.dragPosition st.
Proof.
  intros Hg Hr Hapart Hknown. unfold DragFeatureClamp.commit. cbv zeta.
  destruct (updateGeometry _ _) as [s|] eqn:Hup.
  - eexists. split; [reflexivity|]. cbn.
    apply updateGeometry_head in Hup as [Hf _]; [|apply Hapart]. split; [exact Hf|reflexivity].
  - exfalso. revert Hup. unfold updateGeometry, knownIds. cbn [forallb fst].
    unfold getGeometryCopy in Hg. rewrite bool_decide_eq_true_2 by eauto. cbn [andb].
    specialize (Hknown cs). unfold knownIds in Hknown. rewrite Hknown. discriminate.
Qed.

(** While every wanted latitude stays within [-85, 85], the class of
    part_001 moves the feature as a whole: the delta passes the clamping
    loop unchanged, every coordinate below [upToCoord] is the old one plus
    (pointer - anchor), whatever the longitude comes to, the closing
    coordinate of a Polygon is the first one, and the anchor is not
    written. *)
Theorem clamp_drag_translates_within_bounds
    (event : TerraDrawMouseEvent) (id : string) (st : DragFeatureClamp.State)
    (geometry : Geometry) (cs : list Position) (a : Position) :
  getGeometryCopy id (store (DragFeatureClamp.world st)) = Some geometry ->
  ringOf geometry = Some cs ->
  (isPolygon geometry = true -> cs <> []) ->
  DragFeatureClamp.dragPosition st = Some a ->
  handlesApart selectionPointsGetUpdated midPointsGetUpdated id ->
  handlesKnown selectionPointsGetUpdated midPointsGetUpdated
    (store (DragFeatureClamp.world st)) ->
  (forall j c, (Z.of_nat j < upTo geometry cs)%Z -> cs !! j = Some c ->
     -85 <= c.2 - (a.2 - lat event) /\ c.2 - (a.2 - lat event) <= 85) ->
  exists st' cs',
    DragFeatureClamp.drag selectionPointsGetUpdated midPointsGetUpdated event id st
      = Returned None st' /\
    features (store (DragFeatureClamp.world st')) !! id = Some (withRing geometry cs') /\
    length cs' = length cs /\
    (forall j c, (Z.of_nat j < upTo geometry cs)%Z -> cs !! j = Some c ->
       cs' !! j = Some (c.1 - (a.1 - lng event), c.2 - (a.2 - lat event))) /\
    (isPolygon geometry = true -> cs' !! (length cs - 1)%nat = cs' !! 0%nat) /\
    DragFeatureClamp.dragPosition st' = Some a.
Proof.
  intros Hg Hr Hring Ha Hapart Hknown Hin.
  pose proof (upTo_le geometry cs) as Hle.
  unfold DragFeatureClamp.drag. cbv zeta.
  cbn [DragFeatureClamp.world DragFeatureClamp.dragPosition].
  rewrite store_callSetDraggability, Hg.
  assert (Hbody : forall (A : Type) (x y : A),
            match geometry with Point _ => x | _ => y end = y).
  { intros A x y. destruct geometry; [discriminate|reflexivity|reflexivity]. }
  rewrite Hbody, Hr, Ha. cbn [fst snd].
  rewrite clampLoop_idle; [|exact Hle|].
  2:{ intros j c Hj Hc. cbn [snd]. apply (Hin j c); [lia|exact Hc]. }
  rewrite DragFeatureClamp_shiftLoop_eq.
  destruct (mapUpTo_accept
              (fun coordinate : Position =>
                 Some (coordinate.1 - (a.1 - lng event, a.2 - lat event).1,
                       coordinate.2 - (a.1 - lng event, a.2 - lat event).2))
              (Z.to_nat (upTo geometry cs)) 0 cs Hle) as [cs1 Hloop]; [eauto|].
  rewrite Hloop. apply mapUpTo_done in Hloop as (Hlen1 & Hmoved & _).
  assert (Hbelow : forall j c, (Z.of_nat j < upTo geometry cs)%Z -> cs !! j = Some c ->
            cs1 !! j = Some (c.1 - (a.1 - lng event), c.2 - (a.2 - lat event))).
  { intros j c Hj Hc. destruct (Hmoved j) as (c0 & c' & Hc0 & Hs & Hc'); [lia|].
    rewrite Hc in Hc0. injection Hc0 as <-. injection Hs as <-. exact Hc'. }
  set (w' := callSetDraggability event (DragFeatureClamp.world st)).
  assert (Hg' : getGeometryCopy id
                  (store (DragFeatureClamp.world
                            {| DragFeatureClamp.world := w';
                               DragFeatureClamp.dragPosition := Some a |}))
                = Some geometry).
  { cbn. unfold w'. rewrite store_callSetDraggability. exact Hg. }
  assert (Hknown' : handlesKnown selectionPointsGetUpdated midPointsGetUpdated
                      (store (DragFeatureClamp.world
                                {| DragFeatureClamp.world := w';
                                   DragFeatureClamp.dragPosition := Some a |}))).
  { cbn. unfold w'. rewrite store_callSetDraggability. exact Hknown. }
  destruct (isPolygon geometry) eqn:Hpoly.
  - assert (Hclose : exists cs2, closeRing cs1 = Some cs2).
    { unfold closeRing. destruct cs1 as [|c1 cs1]; [|cbn; eauto].
      exfalso. apply (Hring eq_refl). destruct cs; [reflexivity|discriminate]. }
    destruct Hclose as [cs2 Hclose]. rewrite Hclose.
    destruct (DragFeatureClamp_commit_effect id geometry cs cs2 _ Hg' Hr Hapart Hknown')
      as (st' & Hrun & Hf & Hpos).
    exists st', cs2. split; [exact Hrun|]. split; [exact Hf|].
    destruct (closeRing_closed cs1 cs2 Hclose) as [Hclosed Hlen2].
    split; [congruence|]. split; [|split; [|exact Hpos]].
    + intros j c Hj Hc. unfold upTo in Hj. rewrite Hpoly in Hj.
      unfold closeRing in Hclose. destruct (cs1 !! 0%nat); [|discriminate].
      injection Hclose as <-. rewrite list_lookup_insert_ne by lia.
      apply Hbelow; [unfold upTo; rewrite Hpoly; exact Hj|exact Hc].
    + intros _. unfold closedRing in Hclosed.
      rewrite head_lookup, last_lookup, Hlen2, Hlen1 in Hclosed.
      replace (length cs - 1)%nat with (Init.Nat.pred (length cs)) by lia.
      symmetry. exact Hclosed.
  - destruct (DragFeatureClamp_commit_effect id geometry cs cs1 _ Hg' Hr Hapart Hknown')
      as (st' & Hrun & Hf & Hpos).
    exists st', cs1. split; [exact Hrun|]. split; [exact Hf|].
    split; [exact Hlen1|]. split; [exact Hbelow|]. split; [discriminate|exact Hpos].
Qed.
End ClampTranslation.

(** The square dragged by 70 degrees north in the class of part_001. *)
Lemma clamp_drag_translates_within_bounds_witness :
  exists st' cs',
    DragFeatureClamp.drag noHandles noHandles (pointerAt 5 70) "f"
      (draggingClamp (Polygon [square]) (0, 0)) = Returned None st' /\
    features (store (DragFeatureClamp.world st')) !! "f" = Some (Polygon [cs']) /\
    cs' !! 2%nat = Some (10 - (0 - 5), 10 - (0 - 70)) /\
    DragFeatureClamp.dragPosition st' = Some (0, 0).
Proof.
  destruct (clamp_drag_translates_within_bounds noHandles noHandles
              (pointerAt 5 70) "f" (draggingClamp (Polygon [square]) (0, 0))
              (Polygon [square]) square (0, 0))
    as (st' & cs' & Hrun & Hf & _ & Hbelow & _ & Ha).
  - reflexivity.
  - reflexivity.
  - discriminate.
  - reflexivity.
  - apply noHandles_apart.
  - apply noHandles_known.
  - intros j c Hj Hc. unfold square in Hc.
    do 5 (destruct j as [|j]; [injection Hc as <-; vm_compute; split; discriminate|]).
    discriminate.
  - exists st', cs'. split; [exact Hrun|]. split; [exact Hf|]. split; [|exact Ha].
    apply (Hbelow 2%nat (10, 10)); [vm_compute; reflexivity|reflexivity].
Defined.

(** ** The anchor of part_001: the [position] accessors *)

(** The setter takes [undefined] and arrays of exactly two numbers, and
    nothing else: what it takes is what the getter hands back, with the
    store untouched; anything else (a longer or shorter array, an array
    holding something that is not a number, a value that is not an array)
    throws and leaves the anchor as it was. *)
Theorem position_set_then_get (v : JsValue) (st : DragFeatureClamp.State) :
  match DragFeatureClampPosition.setPosition v st with
  | DragFeatureClampPosition.PositionSet st' =>
      DragFeatureClampPosition.getPosition st' = v /\
      DragFeatureClamp.world st' = DragFeatureClamp.world st /\
      (v = JsUndefined \/ exists x y, v = JsArray [JsNumber x; JsNumber y])
  | DragFeatureClampPosition.PositionError st' =>
      st' = st /\ v <> JsUndefined /\
      forall x y, v <> JsArray [JsNumber x; JsNumber y]
  end.
Proof.
  destruct v as [| |b|n|s|items|]; cbn;
    try (split; [reflexivity|]; split; [discriminate|]; intros x y; discriminate).
  - split; [reflexivity|]. split; [reflexivity|]. left. reflexivity.
  - destruct items as [|v0 [|v1 [|v2 items]]]; cbn;
      try (split; [reflexivity|]; split; [discriminate|]; intros x y; discriminate).
    destruct v0; cbn;
      try (split; [reflexivity|]; split; [discriminate|]; intros x y; discriminate).
    destruct v1; cbn;
      try (split; [reflexivity|]; split; [discriminate|]; intros x y; discriminate).
    split; [reflexivity|]. split; [reflexivity|]. right. eauto.
Qed.

(** ** Coordinate-Drag: the index that the hit test hands to [drag] *)

Section HitTest.
Variable measure : TerraDrawMouseEvent -> Position -> Q.

(** What isCoordinateNearEvent returns for a LineString or Polygon. *)
Lemma isCoordinateNearEvent_scanned (config : BehaviorConfig)
    (event : TerraDrawMouseEvent) (id : string) (w : World)
    (geometry : Geometry) (cs : list Position) :
  getGeometryCopy id (store w) = Some geometry ->
  ringOf geometry = Some cs ->
  exists closest,
    DragCoordinate.isCoordinateNearEvent config measure event id w
      = Returned (DragCoordinate.index closest) w /\
    scanned config measure event geometry cs cs closest.
Proof.
  intros Hg Hr.
  assert (Hscan : scanned config measure event geometry cs ([] ++ cs)
            (DragCoordinate.scan config measure event (isPolygon geometry)
               (length cs) (length (@nil Position)) cs
               (DragCoordinate.mkClosest None (-1)%Z false))).
  { apply scan_scanned. left. cbn. split; [reflexivity|]. split; [reflexivity|].
    intros j c Hj. rewrite lookup_nil in Hj. discriminate. }
  cbn [app length] in Hscan. eexists. split; [|exact Hscan].
  unfold DragCoordinate.isCoordinateNearEvent. rewrite Hg.
  destruct geometry as [p|l|rings]; [discriminate| |]; rewrite Hr; reflexivity.
Qed.

Lemma reportedIndex_bounds (geometry : Geometry) (cs : list Position) (m : nat) :
  (m < length cs)%nat ->
  (0 <= reportedIndex geometry cs m < Z.of_nat (length cs))%Z /\
  (isPolygon geometry = true -> (2 <= length cs)%nat ->
   reportedIndex geometry cs m <> (Z.of_nat (length cs) - 1)%Z).
Proof.
  intros Hm. unfold reportedIndex. destruct (isPolygon geometry); cbn [andb].
  - destruct (Z.eqb_spec (Z.of_nat m) (Z.of_nat (length cs) - 1));
      destruct (Z.eqb_spec (Z.of_nat m) 0); cbn [orb]; split; try lia; intros; lia.
  - split; [lia|discriminate].
Qed.

(** Whatever isCoordinateNearEvent returns is -1 or an index of the
    coordinate array, and for a Polygon ring of two or more coordinates
    never the index of the closing coordinate; it is not -1 exactly when
    some coordinate is strictly within the tolerance. *)
Theorem hit_test_index_in_bounds (config : BehaviorConfig)
    (event : TerraDrawMouseEvent) (id : string) (w w' : World)
    (geometry : Geometry) (cs : list Position) (r : Z) :
  getGeometryCopy id (store w) = Some geometry ->
  ringOf geometry = Some cs ->
  DragCoordinate.isCoordinateNearEvent config measure event id w = Returned r w' ->
  w' = w /\
  ((r = (-1)%Z /\
    forall j c, cs !! j = Some c -> ~ measure event c < pointerDistance config)
   \/
   ((0 <= r < Z.of_nat (length cs))%Z /\
    (isPolygon geometry = true -> (2 <= length cs)%nat ->
     r <> (Z.of_nat (length cs) - 1)%Z) /\
    exists j c, cs !! j = Some c /\ measure event c < pointerDistance config)).
Proof.
  intros Hg Hr Hrun.
  destruct (isCoordinateNearEvent_scanned config event id w geometry cs Hg Hr)
    as (closest & Hrun' & Hscan).
  rewrite Hrun' in Hrun. injection Hrun as <- <-. split; [reflexivity|].
  destruct Hscan as [(_ & Hi & Hnone)|(m & c & Hm & _ & Hc & _ & _ & Hi)].
  - left. split; assumption.
  - right. rewrite Hi. apply lookup_lt_Some in Hm as Hlt.
    destruct (reportedIndex_bounds geometry cs m Hlt) as [Hb Hlast].
    split; [exact Hb|]. split; [exact Hlast|]. eauto.
Qed.

(** A wider tolerance never changes which coordinate is picked, only
    whether one is: when the hit test finds a coordinate at one tolerance,
    it returns the same index at every larger one. *)
Theorem hit_test_tolerance_monotone (config config' : BehaviorConfig)
    (event : TerraDrawMouseEvent) (id : string) (w : World)
    (geometry : Geometry) (cs : list Position) (r : Z) :
  getGeometryCopy id (store w) = Some geometry ->
  ringOf geometry = Some cs ->
  pointerDistance config <= pointerDistance config' ->
  DragCoordinate.isCoordinateNearEvent config measure event id w = Returned r w ->
  r <> (-1)%Z ->
  DragCoordinate.isCoordinateNearEvent config' measure event id w = Returned r w.
Proof.
  intros Hg Hr Htol Hrun Hfound.
  destruct (isCoordinateNearEvent_scanned config event id w geometry cs Hg Hr)
    as (closest & Hrun1 & Hscan1).
  destruct (isCoordinateNearEvent_scanned config' event id w geometry cs Hg Hr)
    as (closest' & Hrun2 & Hscan2).
  rewrite Hrun1 in Hrun. injection Hrun as <-. rewrite Hrun2. f_equal.
  destruct Hscan1 as [(_ & Hi & _)|(m & c & Hm & _ & Hc & Hmin & Hfirst & Hi)];
    [congruence|].
  destruct Hscan2 as [(_ & _ & Hnone)|(m' & c' & Hm' & _ & Hc' & Hmin' & Hfirst' & Hi')].
  - exfalso. apply (Hnone m c Hm). apply (Qlt_le_trans _ _ _ Hc Htol).
  - rewrite Hi, Hi'. f_equal.
    destruct (Nat.lt_trichotomy m m') as [Hlt|[Heq|Hgt]]; [|exact (eq_sym Heq)|].
    + exfalso. specialize (Hfirst' m c Hlt Hm). specialize (Hmin m' c' Hm').
      apply (Qlt_not_le _ _ Hfirst' Hmin).
    + exfalso. specialize (Hfirst m' c' Hgt Hm'). specialize (Hmin' m c Hm).
      apply (Qlt_not_le _ _ Hfirst Hmin').
Qed.

(** Hit test, then drag.  An index that isCoordinateNearEvent has found is
    one that [drag] can write: for any later pointer event [drag] returns
    true, the committed array has the length it had, it holds the pointer
    position at that index, and a Polygon ring that was closed is closed. *)
Theorem hit_test_then_drag (config : BehaviorConfig)
    (down move : TerraDrawMouseEvent) (id : string) (w : World)
    (geometry : Geometry) (cs : list Position) (r : Z) :
  getGeometryCopy id (store w) = Some geometry ->
  ringOf geometry = Some cs ->
  DragCoordinate.isCoordinateNearEvent config measure down id w = Returned r w ->
  r <> (-1)%Z ->
  exists w' cs',
    DragCoordinate.drag move id r w = Returned true w' /\
    storedRing id (store w') = Some cs' /\
    length cs' = length cs /\
    cs' !! Z.to_nat r = Some (lng move, lat move) /\
    (isPolygon geometry = true -> closedRing cs -> closedRing cs').
Proof.
  intros Hg Hr Hrun Hfound.
  destruct (isCoordinateNearEvent_scanned config down id w geometry cs Hg Hr)
    as (closest & Hrun' & Hscan).
  rewrite Hrun' in Hrun. injection Hrun as <-.
  destruct Hscan as [(_ & Hi & _)|(m & c & Hm & _ & _ & _ & _ & Hi)]; [congruence|].
  apply lookup_lt_Some in Hm as Hlt.
  destruct (reportedIndex_bounds geometry cs m Hlt) as [Hb _]. rewrite <- Hi in Hb.
  set (r := DragCoordinate.index closest) in *.
  pose proof (writeCoordinate_inside (isPolygon geometry) cs r (lng move, lat move) Hb)
    as Hw.
  eexists. eexists.
  split; [apply (DragCoordinate_drag_written _ _ _ _ geometry cs _ Hg Hr Hw)|].
  split.
  { cbn [store]. apply (storedRing_withRing _ _ geometry cs); [exact Hr|].
    cbn [features]. apply lookup_insert_eq. }
  destruct (isPolygon geometry) eqn:Hpoly; cbn [andb].
  - destruct ((r =? Z.of_nat (length cs) - 1)%Z || (r =? 0)%Z) eqn:E.
    + destruct (closedRing_set_both cs (lng move, lat move)) as [Hhead Hlast]; [lia|].
      split; [rewrite !length_insert; reflexivity|]. split.
      * apply orb_true_iff in E as [E|E]; apply Z.eqb_eq in E.
        -- rewrite last_lookup, !length_insert in Hlast. rewrite <- Hlast. f_equal. lia.
        -- rewrite E. rewrite <- head_lookup. exact Hhead.
      * intros _ _. unfold closedRing. rewrite Hhead, Hlast. reflexivity.
    + apply orb_false_iff in E as [E1 E2].
      apply Z.eqb_neq in E1. apply Z.eqb_neq in E2.
      split; [rewrite length_insert; reflexivity|]. split.
      * apply list_lookup_insert_eq. lia.
      * intros _ Hclosed. unfold closedRing in *.
        rewrite head_lookup, last_lookup, length_insert.
        rewrite !list_lookup_insert_ne by lia.
        rewrite <- head_lookup, <- last_lookup. exact Hclosed.
  - split; [rewrite length_insert; reflexivity|]. split.
    + apply list_lookup_insert_eq. lia.
    + discriminate.
Qed.
End HitTest.

(** The square with the pointer at (9, 1): the last coordinate but one,
    (10, 0), is the nearest, at index 3. *)
Lemma hit_test_index_in_bounds_witness :
  DragCoordinate.isCoordinateNearEvent sampleConfig sampleMeasure (pointerAt 9 1)
    "f" (worldOf (Polygon [square])) = Returned 3%Z (worldOf (Polygon [square])) /\
  (0 <= 3 < Z.of_nat (length square))%Z /\
  3%Z <> (Z.of_nat (length square) - 1)%Z.
Proof.
  assert (Hrun : DragCoordinate.isCoordinateNearEvent sampleConfig sampleMeasure
                   (pointerAt 9 1) "f" (worldOf (Polygon [square]))
                 = Returned 3%Z (worldOf (Polygon [square])))
    by (vm_compute; reflexivity).
  destruct (hit_test_index_in_bounds sampleMeasure sampleConfig (pointerAt 9 1) "f"
              (worldOf (Polygon [square])) (worldOf (Polygon [square]))
              (Polygon [square]) square 3%Z eq_refl eq_refl Hrun)
    as [_ [[Hr _]|(Hb & Hlast & _)]].
  - discriminate.
  - split; [exact Hrun|]. split; [exact Hb|]. apply Hlast; [reflexivity|cbn; lia].
Defined.

(** The same hit at a tolerance of 40 and at one of 100. *)
Lemma hit_test_tolerance_monotone_witness :
  DragCoordinate.isCoordinateNearEvent (mkConfig 100 6) sampleMeasure (pointerAt 9 1)
    "f" (worldOf (Polygon [square])) = Returned 3%Z (worldOf (Polygon [square])).
Proof.
  apply (hit_test_tolerance_monotone sampleMeasure sampleConfig (mkConfig 100 6)
           (pointerAt 9 1) "f" (worldOf (Polygon [square])) (Polygon [square]) square 3%Z).
  - reflexivity.
  - reflexivity.
  - vm_compute. discriminate.
  - vm_compute. reflexivity.
  - discriminate.
Defined.

(** A press at (1, 1) on the square finds index 0; a move to (2, 3) then
    writes both ends of the ring. *)
Lemma hit_test_then_drag_witness :
  exists w' cs',
    DragCoordinate.drag (pointerAt 2 3) "f" 0 (worldOf (Polygon [square]))
      = Returned true w' /\
    storedRing "f" (store w') = Some cs' /\
    length cs' = 5%nat /\
    cs' !! 0%nat = Some (2, 3) /\
    closedRing cs'.
Proof.
  destruct (hit_test_then_drag sampleMeasure sampleConfig (pointerAt 1 1) (pointerAt 2 3)
              "f" (worldOf (Polygon [square])) (Polygon [square]) square 0%Z)
    as (w' & cs' & Hrun & Hs & Hlen & Hat & Hclosed).
  - reflexivity.
  - reflexivity.
  - vm_compute. reflexivity.
  - discriminate.
  - exists w', cs'. split; [exact Hrun|]. split; [exact Hs|]. split; [exact Hlen|].
    split; [exact Hat|]. apply Hclosed; reflexivity.
Defined.

(** ** Feature-Scale: the factor, the distance that is kept *)

(** How the factor reads for a positive distance: it is
    [2 - lastDistance / distance]; it is 1 exactly when the pointer is as
    far from the centroid as on the tick before, above 1 exactly when it is
    farther, and negative as soon as it is nearer than half as far. *)
Theorem scale_factor_reading (lastDistance distance : Q) :
  0 < distance ->
  exists f,
    ScaleFeature.scaleFactor lastDistance distance = Some f /\
    f == 2 - lastDistance / distance /\
    (f == 1 <-> lastDistance == distance) /\
    (1 < f <-> lastDistance < distance) /\
    (f < 0 <-> 2 * distance < lastDistance).
Proof.
  intros Hd.
  assert (Hne : ~ distance == 0) by (intros E; rewrite E in Hd; revert Hd; apply Qlt_irrefl).
  unfold ScaleFeature.scaleFactor, jsDiv.
  destruct (Qeq_bool distance 0) eqn:E; [apply Qeq_bool_eq in E; contradiction|].
  cbn. eexists. split; [reflexivity|].
  assert (Hf : 1 - (lastDistance - distance) / distance == 2 - lastDistance / distance)
    by (field; exact Hne).
  split; [exact Hf|]. rewrite Hf.
  assert (Hx : lastDistance == lastDistance / distance * distance)
    by (field; exact Hne).
  set (x := lastDistance / distance) in *. clearbody x.
  assert (Hmul : forall u v : Q, u < v <-> u * distance < v * distance).
  { intros u v. symmetry. apply Qmult_lt_r. exact Hd. }
  split; [|split].
  - split.
    + intros H. rewrite Hx. assert (E1 : x == 1) by lra. rewrite E1. ring.
    + intros H. assert (E1 : x * distance == 1 * distance) by (rewrite <- Hx, H; ring).
      apply Qmult_inj_r in E1; [lra|exact Hne].
  - split.
    + intros H. assert (E1 : x < 1) by lra.
      apply (proj1 (Hmul _ _)) in E1. rewrite <- Hx in E1. lra.
    + intros H. assert (E1 : x * distance < 1 * distance) by (rewrite <- Hx; lra).
      apply (proj2 (Hmul _ _)) in E1. lra.
  - split.
    + intros H. assert (E1 : 2 < x) by lra.
      apply (proj1 (Hmul _ _)) in E1. rewrite <- Hx in E1. exact E1.
    + intros H. assert (E1 : 2 * distance < x * distance) by (rewrite <- Hx; exact H).
      apply (proj2 (Hmul _ _)) in E1. lra.
Qed.

(** From a distance of 5 to one of 7, and from 5 to 2. *)
Lemma scale_factor_reading_witness :
  (exists f, ScaleFeature.scaleFactor 5 7 = Some f /\ 1 < f) /\
  (exists f, ScaleFeature.scaleFactor 5 2 = Some f /\ f < 0).
Proof.
  split.
  - destruct (scale_factor_reading 5 7) as (f & Hf & _ & _ & Hgrow & _); [reflexivity|].
    exists f. split; [exact Hf|]. apply Hgrow. reflexivity.
  - destruct (scale_factor_reading 5 2) as (f & Hf & _ & _ & _ & Hflip); [reflexivity|].
    exists f. split; [exact Hf|]. apply Hflip. reflexivity.
Defined.

Section ScaleKeepsDistance.
Variable config : BehaviorConfig.
Variable selectionPointsGetUpdated : list Position -> option (list (string * Geometry)).
Variable midPointsGetUpdated : list Position -> option (list (string * Geometry)).
Variable centroid : Geometry -> Position.
Variable haversineDistanceKilometers : Position -> Position -> Q.
Variable scaleAbout : Position -> Q -> Position -> Position.

Local Abbreviation scale :=
  (ScaleFeature.scale config selectionPointsGetUpdated midPointsGetUpdated
     centroid haversineDistanceKilometers scaleAbout).

(** Every call of [scale] on a LineString or Polygon that returns leaves
    [lastDistance] at the distance of that call, so that a tick compares
    with the tick before it; and the first call after [reset] returns with
    the store as it was, whatever [lastDistance] held. *)
Theorem scale_keeps_last_distance
    (event : TerraDrawMouseEvent) (id : string) (st : ScaleFeature.State)
    (geometry : Geometry) :
  getGeometryCopy id (store (ScaleFeature.world st)) = Some geometry ->
  (forall c, geometry <> Point c) ->
  (forall st', scale event id st = Returned tt st' ->
     ScaleFeature.lastDistance st' =
       Some (haversineDistanceKilometers (centroid geometry) (lng event, lat event))) /\
  (exists st',
     scale event id (ScaleFeature.reset st) = Returned tt st' /\
     store (ScaleFeature.world st') = store (ScaleFeature.world st) /\
     ScaleFeature.lastDistance st' =
       Some (haversineDistanceKilometers (centroid geometry) (lng event, lat event))).
Proof.
  intros Hg Hnp. split.
  - intros st'. unfold ScaleFeature.scale. rewrite Hg.
    destruct geometry as [p|l|rings]; [destruct (Hnp p eq_refl)| |];
      cbv zeta; (destruct (ScaleFeature.noLastDistance _); [intros [= <-]; reflexivity|]);
      (destruct (ScaleFeature.scaleFactor _ _); [|discriminate]);
      (destruct (ringOf _); [|discriminate]);
      (destruct (updateGeometry _ _); [|discriminate]);
      intros [= <-]; reflexivity.
  - unfold ScaleFeature.scale, ScaleFeature.reset. cbn [ScaleFeature.world]. rewrite Hg.
    destruct geometry as [p|l|rings]; [destruct (Hnp p eq_refl)| |];
      (eexists; split; [reflexivity|]; cbn; split; [|reflexivity];
       apply store_callSetDraggability).
Qed.
End ScaleKeepsDistance.

(** A tick on the square with the pointer at (3, 4), 7 away from the
    centroid of the sample, after a tick at a distance of 5. *)
Lemma scale_keeps_last_distance_witness :
  exists st',
    ScaleFeature.scale sampleConfig noHandles noHandles firstCoordinate blockDistance
      affineScale (pointerAt 3 4) "f" (scaling (Polygon [square]) (Some 5))
      = Returned tt st' /\
    ScaleFeature.lastDistance st' = Some (blockDistance (0, 0) (3, 4)).
Proof.
  assert (Hrun : exists st',
            ScaleFeature.scale sampleConfig noHandles noHandles firstCoordinate
              blockDistance affineScale (pointerAt 3 4) "f"
              (scaling (Polygon [square]) (Some 5)) = Returned tt st')
    by (eexists; vm_compute; reflexivity).
  destruct Hrun as (st' & Hrun). exists st'. split; [exact Hrun|].
  refine (proj1 (scale_keeps_last_distance sampleConfig noHandles noHandles
                   firstCoordinate blockDistance affineScale (pointerAt 3 4) "f"
                   (scaling (Polygon [square]) (Some 5)) (Polygon [square]) _ _) st' Hrun).
  - reflexivity.
  - discriminate.
Defined.

(** ** An id that the store does not hold *)

Section UnknownId.
Variable config : BehaviorConfig.
Variable measure : TerraDrawMouseEvent -> Position -> Q.
Variable selectionPointsGetUpdated : list Position -> option (list (string * Geometry)).
Variable midPointsGetUpdated : list Position -> option (list (string * Geometry)).
Variable centroid : Geometry -> Position.
Variable haversineDistanceKilometers : Position -> Position -> Q.
Variable scaleAbout : Position -> Q -> Position -> Position.

(** With an id that the store does not hold, every entry point ends in the
    error that getGeometryCopy throws, before anything is written: the
    store is as it was and no Change Record is emitted.  Only the class of
    part_001 has called [event.setDraggability(false)] by then. *)
Theorem unknown_id_throws
    (event : TerraDrawMouseEvent) (id : string) (index : Z) (w : World) :
  getGeometryCopy id (store w) = None ->
  DragCoordinate.isCoordinateNearEvent config measure event id w
    = Threw NotFoundError w /\
  DragCoordinate.drag event id index w = Threw NotFoundError w /\
  (forall a, id <> "" ->
     DragFeature.drag config selectionPointsGetUpdated midPointsGetUpdated event
       (mkDragState w (Some id) a) = Threw NotFoundError (mkDragState w (Some id) a) /\
     DragFeatureShadowed.drag selectionPointsGetUpdated midPointsGetUpdated event
       (mkDragState w (Some id) a) = Threw NotFoundError (mkDragState w (Some id) a)) /\
  (forall a,
     DragFeatureClamp.drag selectionPointsGetUpdated midPointsGetUpdated event id
       (DragFeatureClamp.mkState w a)
     = Threw NotFoundError (DragFeatureClamp.mkState (callSetDraggability event w) a)) /\
  (forall d,
     ScaleFeature.scale config selectionPointsGetUpdated midPointsGetUpdated
       centroid haversineDistanceKilometers scaleAbout event id (ScaleFeature.mkState w d)
     = Threw NotFoundError (ScaleFeature.mkState w d)).
Proof.
  intros Hg. split; [|split; [|split; [|split]]].
  - unfold DragCoordinate.isCoordinateNearEvent. rewrite Hg. reflexivity.
  - unfold DragCoordinate.drag. rewrite Hg. reflexivity.
  - intros a Hne. unfold DragFeature.drag, DragFeatureShadowed.drag,
      DragFeatureShadowed.dragWith.
    rewrite (draggedFeature_Some (mkDragState w (Some id) a) id eq_refl Hne). cbn [world]. rewrite Hg.
    split; reflexivity.
  - intros a. unfold DragFeatureClamp.drag. cbv zeta. cbn [DragFeatureClamp.world].
    rewrite store_callSetDraggability, Hg. reflexivity.
  - intros d. unfold ScaleFeature.scale. cbn [ScaleFeature.world]. rewrite Hg. reflexivity.
Qed.
End UnknownId.

Lemma unknown_id_throws_witness :
  DragCoordinate.isCoordinateNearEvent sampleConfig sampleMeasure (pointerAt 1 1) "g"
    (worldOf (Polygon [square])) = Threw NotFoundError (worldOf (Polygon [square])) /\
  DragCoordinate.drag (pointerAt 1 1) "g" 0 (worldOf (Polygon [square]))
    = Threw NotFoundError (worldOf (Polygon [square])).
Proof.
  destruct (unknown_id_throws sampleConfig sampleMeasure noHandles noHandles
              firstCoordinate blockDistance affineScale (pointerAt 1 1) "g" 0
              (worldOf (Polygon [square])))
    as (Hhit & Hdrag & _).
  - reflexivity.
  - split; [exact Hhit|exact Hdrag].
Defined.

(** * The Mapbox GL adapter *)

Section AdapterFacts.
Import MapboxAdapter MapboxRender.

Lemma modeIs_modeOf (feature : Feature) (mode : string) :
  modeIs feature mode = true <-> modeOf feature = Some mode.
Proof.
  unfold modeIs, modeOf. destruct (properties feature !! "mode") as [[| | | |s| |]|];
    try (split; discriminate).
  rewrite String.eqb_eq. split; congruence.
Qed.

Lemma withStyles_geometry (styles : Styles) (feature : Feature) :
  geometry (withStyles styles feature) = geometry feature.
Proof. unfold withStyles. destruct (geometry feature); reflexivity. Qed.

Lemma withStyles_modeOf (styles : Styles) (feature : Feature) :
  modeOf (withStyles styles feature) = modeOf feature.
Proof.
  unfold modeOf, withStyles.
  destruct (geometry feature); cbn [properties];
    rewrite !lookup_insert_ne by discriminate; reflexivity.
Qed.

Lemma bucket_push (k : Kind) (g : Geometry) (r : nat) (b : Buckets) :
  bucket k (push g r b) = bucket k b ++ (if kindEqb k (kindOf g) then [r] else []).
Proof. destruct k, g; cbn; rewrite ?app_nil_r; reflexivity. Qed.

Lemma styleFor_None (styling : Styling) (mode : string) :
  mode ∉ styling.*1 -> styleFor styling mode = None.
Proof.
  induction styling as [|[k fn] rest IH]; [reflexivity|].
  cbn. intros Hnot. apply not_elem_of_cons in Hnot as [Hne Hrest].
  destruct (String.eqb_spec mode k); [contradiction|]. apply IH. exact Hrest.
Qed.

(** The modes that do not match leave the loop state alone. *)
Lemma visitModes_miss (changes : Changes) (r : nat) (styling : Styling) (p : Pass) :
  (forall mode, modeOf (heap p r) = Some mode -> mode ∉ styling.*1) ->
  foldl (visitMode changes r) p styling = p.
Proof.
  induction styling as [|[k fn] rest IH]; [reflexivity|].
  intros Hnot. cbn [foldl]. unfold visitMode at 2. cbn [fst snd].
  destruct (modeIs (heap p r) k) eqn:Hm.
  - apply modeIs_modeOf in Hm. exfalso. apply (Hnot k Hm). cbn. left.
  - cbn [negb]. apply IH. intros mode Hmode. specialize (Hnot mode Hmode).
    cbn in Hnot. apply not_elem_of_cons in Hnot as [_ Hrest]. exact Hrest.
Qed.

(** [Object.keys(styling).forEach(...)] for one feature: the callback
    goes past its guard for at most one mode, the mode of the feature. *)
Lemma visitModes_spec (changes : Changes) (r : nat) (styling : Styling) (p : Pass) :
  NoDup styling.*1 ->
  foldl (visitMode changes r) p styling =
    match styledBy styling (heap p r) with
    | None => p
    | Some fn =>
        let feature := heap p r in
        let h := heapSet (heap p) r (withStyles (fn feature) feature) in
        if includes (unchanged changes) r
        then mkPass h (changed p) (push (geometry feature) r (kept p))
        else mkPass h (push (geometry feature) r (changed p)) (kept p)
    end.
Proof.
  induction styling as [|[k fn] rest IH]; intros Hnodup.
  - cbn. unfold styledBy. destruct (modeOf (heap p r)); reflexivity.
  - cbn in Hnodup. apply NoDup_cons in Hnodup as [Hk Hrest].
    cbn [foldl]. unfold visitMode at 2. cbn [fst snd].
    destruct (modeIs (heap p r) k) eqn:Hm; cbn [negb].
    + apply modeIs_modeOf in Hm. unfold styledBy. rewrite Hm. cbn.
      rewrite String.eqb_refl. cbv zeta.
      apply visitModes_miss. intros mode.
      destruct (includes (unchanged changes) r); cbn [heap]; unfold heapSet;
        rewrite Nat.eqb_refl, withStyles_modeOf, Hm; intros [= <-]; exact Hk.
    + rewrite (IH Hrest). unfold styledBy.
      destruct (modeOf (heap p r)) as [mode|] eqn:Hmode; [|reflexivity]. cbn.
      destruct (String.eqb_spec mode k) as [->|Hne]; [|reflexivity].
      apply modeIs_modeOf in Hmode. congruence.
Qed.

(** What the visit of one feature does to the loop state. *)
Lemma visitFeature_spec (changes : Changes) (styling : Styling) (r : nat) (p : Pass) :
  NoDup styling.*1 ->
  let p' := foldl (visitMode changes r) p styling in
  (forall r', heap p' r' = if Nat.eqb r' r then restyled styling (heap p r) else heap p r') /\
  (forall k, bucket k (changed p') =
     bucket k (changed p) ++ (if drawnIn k false changes styling (heap p) r then [r] else [])) /\
  (forall k, bucket k (kept p') =
     bucket k (kept p) ++ (if drawnIn k true changes styling (heap p) r then [r] else [])).
Proof.
  intros Hnodup p'. subst p'. rewrite (visitModes_spec changes r styling p Hnodup).
  unfold restyled, drawnIn.
  destruct (styledBy styling (heap p r)) as [fn|].
  - cbv zeta. destruct (includes (unchanged changes) r); cbn [heap changed kept Bool.eqb];
      (split; [intros r'; unfold heapSet; reflexivity|]);
      split; intros k; rewrite ?bucket_push, ?andb_true_r, ?andb_false_r, ?app_nil_r;
      reflexivity.
  - split; [intros r'; destruct (Nat.eqb_spec r' r) as [->|]; reflexivity|].
    split; intros k; rewrite andb_false_r, app_nil_r; reflexivity.
Qed.

Lemma restyled_same (styling : Styling) (f : Feature) :
  geometry (restyled styling f) = geometry f /\ modeOf (restyled styling f) = modeOf f.
Proof.
  unfold restyled. destruct (styledBy styling f); [|split; reflexivity].
  split; [apply withStyles_geometry|apply withStyles_modeOf].
Qed.

Lemma drawnIn_ext (k : Kind) (keep : bool) (changes : Changes) (styling : Styling)
    (h h' : Heap) (r : nat) :
  geometry (h' r) = geometry (h r) -> modeOf (h' r) = modeOf (h r) ->
  drawnIn k keep changes styling h' r = drawnIn k keep changes styling h r.
Proof. intros Hg Hm. unfold drawnIn, styledBy. rewrite Hg, Hm. reflexivity. Qed.

(** The loop over the features, from any state of it. *)
Lemma classify_from (changes : Changes) (styling : Styling) (rs : list nat) (p : Pass) :
  NoDup styling.*1 ->
  let p' := foldl (fun p r => foldl (visitMode changes r) p styling) p rs in
  (forall r, geometry (heap p' r) = geometry (heap p r) /\
             modeOf (heap p' r) = modeOf (heap p r)) /\
  (forall k, bucket k (changed p') =
     bucket k (changed p) ++ List.filter (drawnIn k false changes styling (heap p)) rs) /\
  (forall k, bucket k (kept p') =
     bucket k (kept p) ++ List.filter (drawnIn k true changes styling (heap p)) rs) /\
  (forall r, r ∉ rs -> heap p' r = heap p r) /\
  (NoDup rs -> forall r, r ∈ rs -> heap p' r = restyled styling (heap p r)).
Proof.
  intros Hnodup. revert p. induction rs as [|r rs IH]; intros p p'.
  - subst p'. cbn. split; [intros r; split; reflexivity|].
    split; [intros k; rewrite app_nil_r; reflexivity|].
    split; [intros k; rewrite app_nil_r; reflexivity|].
    split; [reflexivity|]. intros _ r Hr. apply elem_of_nil in Hr. destruct Hr.
  - subst p'. cbn [foldl].
    destruct (visitFeature_spec changes styling r p Hnodup) as (Hheap & Hchanged & Hkept).
    set (p1 := foldl (visitMode changes r) p styling) in *.
    destruct (IH p1) as (Hsame & Hc & Hk & Hout & Hin).
    assert (Hsame1 : forall r', geometry (heap p1 r') = geometry (heap p r') /\
                                modeOf (heap p1 r') = modeOf (heap p r')).
    { intros r'. rewrite Hheap. destruct (Nat.eqb_spec r' r) as [->|];
        [apply restyled_same|split; reflexivity]. }
    assert (Hext : forall k keep,
              List.filter (drawnIn k keep changes styling (heap p1)) rs
              = List.filter (drawnIn k keep changes styling (heap p)) rs).
    { intros k keep. apply List.filter_ext. intros r'.
      apply drawnIn_ext; apply Hsame1. }
    split; [|split; [|split; [|split]]].
    + intros r'. destruct (Hsame r') as [Hg Hm]. destruct (Hsame1 r') as [Hg1 Hm1].
      split; congruence.
    + intros k. rewrite Hc, Hchanged, Hext, <- app_assoc. f_equal.
      cbn [List.filter]. destruct (drawnIn k false changes styling (heap p) r); reflexivity.
    + intros k. rewrite Hk, Hkept, Hext, <- app_assoc. f_equal.
      cbn [List.filter]. destruct (drawnIn k true changes styling (heap p) r); reflexivity.
    + intros r' Hnot. apply not_elem_of_cons in Hnot as [Hne Hnot].
      rewrite (Hout r' Hnot), Hheap. destruct (Nat.eqb_spec r' r); [contradiction|reflexivity].
    + intros Hnd r' Hr'. apply NoDup_cons in Hnd as [Hr Hnd].
      apply elem_of_cons in Hr' as [->|Hr'].
      * rewrite (Hout r Hr), Hheap, Nat.eqb_refl. reflexivity.
      * rewrite (Hin Hnd r' Hr'), Hheap.
        destruct (Nat.eqb_spec r' r) as [->|]; [contradiction|reflexivity].
Qed.

(** The buckets and the heap at the end of the loop of [render]. *)
Lemma classify_spec (changes : Changes) (styling : Styling) (h : Heap) :
  NoDup styling.*1 ->
  let p := classify changes styling h in
  let features := created changes ++ updated changes ++ unchanged changes in
  (forall k, bucket k (changed p) = drawn k false changes styling h) /\
  (forall k, bucket k (kept p) = drawn k true changes styling h) /\
  (forall r, geometry (heap p r) = geometry (h r) /\ modeOf (heap p r) = modeOf (h r)) /\
  (forall r, r ∉ features -> heap p r = h r) /\
  (NoDup features -> forall r, r ∈ features -> heap p r = restyled styling (h r)).
Proof.
  intros Hnodup p features. subst p features. unfold classify.
  destruct (classify_from changes styling
              (created changes ++ updated changes ++ unchanged changes)
              (mkPass h (mkBuckets [] [] []) (mkBuckets [] [] [])) Hnodup)
    as (Hsame & Hc & Hk & Hout & Hin).
  cbn [heap changed kept] in *.
  split; [intros k; rewrite Hc; destruct k; reflexivity|].
  split; [intros k; rewrite Hk; destruct k; reflexivity|].
  split; [exact Hsame|]. split; [exact Hout|exact Hin].
Qed.

Lemma length_pos_nonempty {A : Type} `{EqDecision A} (l : list A) :
  (0 <? length l)%nat = negb (bool_decide (l = [])).
Proof. destruct l; reflexivity. Qed.

Lemma length_zero_empty {A : Type} `{EqDecision A} (l : list A) :
  (length l =? 0)%nat = bool_decide (l = []).
Proof. destruct l; reflexivity. Qed.

Lemma render_heap (changes : Changes) (styling : Styling) (a : Adapter) (h : Heap) :
  (render changes styling a h).2 = heap (classify changes styling h).
Proof. unfold render. cbv zeta. destruct (rendered a); reflexivity. Qed.

(** The calls of [_addGeoJSONLayer] for the three types in turn and of
    [moveLayer(pointId)]. *)
Lemma addGeoJSONLayers (a : Adapter) (points linestrings polygons : list nat) :
  (let '(pointId, a) := _addGeoJSONLayer "Point" points a in
   let '(_, a) := _addGeoJSONLayer "LineString" linestrings a in
   let '(_, a) := _addGeoJSONLayer "Polygon" polygons a in
   setRendered true (call (MoveLayer pointId None) a))
  = mkAdapter (drawOutline a) (drawFill a) true (currentModeCallbacks a)
      (calls a ++ layersAdded a points linestrings polygons).
Proof.
  destruct a as [[|] [|] rd cb cs]; cbv -[app]; rewrite <- ?app_assoc; reflexivity.
Qed.

(** The calls of a first [render], by the buckets of the loop. *)
Lemma render_first (changes : Changes) (styling : Styling) (a : Adapter) (h : Heap) :
  rendered a = false ->
  (render changes styling a h).1 =
    mkAdapter (drawOutline a) (drawFill a) true (currentModeCallbacks a)
      (calls a ++ layersAdded a (points (changed (classify changes styling h)))
                    (linestrings (changed (classify changes styling h)))
                    (polygons (changed (classify changes styling h)))).
Proof.
  intros Hr. unfold render. cbv zeta. rewrite Hr. cbn [negb].
  rewrite <- addGeoJSONLayers.
  destruct (_addGeoJSONLayer "Point" _ a) as [pointId a1].
  destruct (_addGeoJSONLayer "LineString" _ a1) as [id2 a2].
  destruct (_addGeoJSONLayer "Polygon" _ a2) as [id3 a3]. reflexivity.
Qed.

(** The calls of a later [render], by the buckets of the loop. *)
Lemma render_later (changes : Changes) (styling : Styling) (a : Adapter) (h : Heap) :
  rendered a = true ->
  NoDup styling.*1 ->
  (render changes styling a h).1 =
    mkAdapter (drawOutline a) (drawFill a) true (currentModeCallbacks a)
      (calls a ++ dataSent KPoint changes styling h
               ++ dataSent KLineString changes styling h
               ++ dataSent KPolygon changes styling h).
Proof.
  intros Hr Hnodup. unfold render. cbv zeta. rewrite Hr. cbn [negb fst].
  destruct (classify_spec changes styling h Hnodup) as (Hc & Hk & _).
  pose proof (Hc KPoint) as Hc1. pose proof (Hc KLineString) as Hc2.
  pose proof (Hc KPolygon) as Hc3. pose proof (Hk KPoint) as Hk1.
  pose proof (Hk KLineString) as Hk2. pose proof (Hk KPolygon) as Hk3.
  cbn [bucket] in *. rewrite Hc1, Hc2, Hc3, Hk1, Hk2, Hk3.
  rewrite !length_pos_nonempty, !length_zero_empty.
  unfold dataSent, forced, _setGeoJSONLayerData, call.
  destruct a as [o f rd cb cs]. cbn [rendered] in Hr. subst rd.
  unfold layerId, typeName.
  destruct (bool_decide (deletedIds changes = [])); cbn [negb orb andb];
    destruct (bool_decide (created changes = []) && bool_decide (updated changes = [])
              && negb (bool_decide (unchanged changes = []))); cbn [negb orb andb];
    destruct (bool_decide (drawn KPoint false changes styling h = []));
    destruct (bool_decide (drawn KLineString false changes styling h = []));
    destruct (bool_decide (drawn KPolygon false changes styling h = []));
    cbn [negb orb andb fst snd calls drawOutline drawFill rendered currentModeCallbacks];
    rewrite <- ?app_assoc, ?app_nil_r; reflexivity.
Qed.

Lemma clearLayers_rendered (a : Adapter) :
  rendered a = true ->
  clearLayers a =
    mkAdapter (drawOutline a) (drawFill a) false (currentModeCallbacks a)
      (calls a ++ layersRemoved).
Proof.
  intros Hr. unfold clearLayers. rewrite Hr. destruct a as [[|] f rd cb cs];
    cbv -[app]; rewrite <- !app_assoc; reflexivity.
Qed.

(** On its first call [render] registers the three sources and their
    layers and raises the point layer; the sources are given the features
    that the loop has styled and that [changes.unchanged] does not list, by
    type and in the order of created, updated: the features listed in
    [changes.unchanged] are given to no source. *)
Theorem first_render_adds_layers
    (changes : Changes) (styling : Styling) (a : Adapter) (h : Heap) :
  rendered a = false ->
  NoDup styling.*1 ->
  let a' := (render changes styling a h).1 in
  calls a' =
    calls a ++ layersAdded a (drawn KPoint false changes styling h)
                 (drawn KLineString false changes styling h)
                 (drawn KPolygon false changes styling h) /\
  rendered a' = true /\
  (forall k r, r ∈ drawn k false changes styling h ->
     ~ r ∈ unchanged changes /\ kindOf (geometry (h r)) = k /\
     exists mode, modeOf (h r) = Some mode /\ mode ∈ styling.*1).
Proof.
  intros Hr Hnodup a'. subst a'. rewrite (render_first changes styling a h Hr).
  destruct (classify_spec changes styling h Hnodup) as (Hc & _).
  pose proof (Hc KPoint) as Hc1. pose proof (Hc KLineString) as Hc2.
  pose proof (Hc KPolygon) as Hc3. cbn [bucket] in *. rewrite Hc1, Hc2, Hc3.
  cbn [calls rendered]. split; [reflexivity|]. split; [reflexivity|].
  intros k r Hin. unfold drawn in Hin.
  apply list_elem_of_In, List.filter_In in Hin as [_ Hd]. unfold drawnIn in Hd.
  apply andb_true_iff in Hd as [Hd Hunch]. apply andb_true_iff in Hd as [Hkind Hstyle].
  split; [|split].
  - intros Hu. destruct (includes (unchanged changes) r) eqn:E; [discriminate|].
    apply list_elem_of_In in Hu. unfold includes in E.
    assert (Ht : existsb (Nat.eqb r) (unchanged changes) = true).
    { apply existsb_exists. exists r. split; [exact Hu|apply Nat.eqb_refl]. }
    congruence.
  - destruct k, (geometry (h r)); try discriminate; reflexivity.
  - unfold styledBy in Hstyle. destruct (modeOf (h r)) as [mode|]; [|discriminate].
    exists mode. split; [reflexivity|]. cbn in Hstyle.
    destruct (decide (mode ∈ styling.*1)) as [Hin|Hnot]; [exact Hin|].
    rewrite (styleFor_None styling mode Hnot) in Hstyle. discriminate.
Qed.

(** The loop of [render] styles every feature that [changes] lists once:
    with no feature listed twice, a listed feature whose mode has a
    styling function ends with the properties that this function gives
    for the feature as it was, a feature whose mode has none or that is
    not listed is left as it was, and no geometry and no mode is
    written. *)
Theorem render_styles_each_feature
    (changes : Changes) (styling : Styling) (a : Adapter) (h : Heap) :
  NoDup styling.*1 ->
  NoDup (created changes ++ updated changes ++ unchanged changes) ->
  let h' := (render changes styling a h).2 in
  forall r,
    (r ∈ created changes ++ updated changes ++ unchanged changes ->
     h' r = restyled styling (h r)) /\
    (r ∉ created changes ++ updated changes ++ unchanged changes -> h' r = h r) /\
    geometry (h' r) = geometry (h r) /\
    modeOf (h' r) = modeOf (h r).
Proof.
  intros Hnodup Hfeatures h' r. subst h'. rewrite render_heap.
  destruct (classify_spec changes styling h Hnodup) as (_ & _ & Hsame & Hout & Hin).
  split; [apply (Hin Hfeatures)|]. split; [apply Hout|]. apply Hsame.
Qed.

(** Once it has rendered, [render] adds no source and no layer: it calls
    setData, for the types in the order Point, LineString, Polygon, and
    for a type only if ids were deleted, or only [changes.unchanged] has
    features, or a feature of the type is styled and not listed as
    unchanged; the data are those features followed by the styled ones
    listed as unchanged.  With nothing in [changes] it does nothing. *)
Theorem later_render_sends_data
    (changes : Changes) (styling : Styling) (a : Adapter) (h : Heap) :
  rendered a = true ->
  NoDup styling.*1 ->
  let a' := (render changes styling a h).1 in
  calls a' =
    calls a ++ dataSent KPoint changes styling h
            ++ dataSent KLineString changes styling h
            ++ dataSent KPolygon changes styling h /\
  rendered a' = true /\
  (deletedIds changes = [] -> created changes = [] -> updated changes = [] ->
   unchanged changes = [] -> a' = a).
Proof.
  intros Hr Hnodup a'. subst a'. rewrite (render_later changes styling a h Hr Hnodup).
  cbn [calls rendered]. split; [reflexivity|]. split; [reflexivity|].
  intros Hd Hc Hu Hn. unfold dataSent, forced, drawn. rewrite Hd, Hc, Hu, Hn.
  cbn. rewrite app_nil_r. destruct a as [o f rd cb cs]. cbn in *. subst rd. reflexivity.
Qed.

(** [clearLayers] on an adapter that has rendered asks the map to remove
    the layers and the sources td-0, td-1 and td-2, the keys of the array
    being its indices, and no outline layer, whatever [drawOutline] is;
    [clear] does so after onClear when the adapter holds mode callbacks,
    and nothing without them; a second [clearLayers] does nothing. *)
Theorem clearLayers_removes (a : Adapter) :
  rendered a = true ->
  calls (clearLayers a) = calls a ++ layersRemoved /\
  rendered (clearLayers a) = false /\
  clearLayers (clearLayers a) = clearLayers a /\
  (currentModeCallbacks a = false -> clear a = a) /\
  (currentModeCallbacks a = true -> calls (clear a) = calls a ++ OnClear :: layersRemoved).
Proof.
  intros Hr. rewrite (clearLayers_rendered a Hr). cbn [calls rendered].
  split; [reflexivity|]. split; [reflexivity|]. split; [reflexivity|]. split.
  - intros Hcb. unfold clear. rewrite Hcb. reflexivity.
  - intros Hcb. unfold clear. rewrite Hcb.
    rewrite (clearLayers_rendered (call OnClear a)) by exact Hr.
    cbn [calls call]. rewrite <- app_assoc. reflexivity.
Qed.

(** Render, clear, render.  The ids that the first [render] gives to the
    map are not those that [clear] asks to remove, and [clear] resets
    [_rendered]: the next [render] adds the sources and layers td-point,
    td-linestring and td-polygon a second time, after calls that have
    removed td-0, td-1 and td-2 only. *)
Theorem render_clear_render
    (changes1 changes2 : Changes) (styling1 styling2 : Styling) (a : Adapter)
    (h1 h2 : Heap) :
  rendered a = false ->
  currentModeCallbacks a = true ->
  exists points1 linestrings1 polygons1 points2 linestrings2 polygons2,
    calls (render changes2 styling2 (clear (render changes1 styling1 a h1).1) h2).1 =
      calls a ++ layersAdded a points1 linestrings1 polygons1
              ++ OnClear :: layersRemoved
              ++ layersAdded a points2 linestrings2 polygons2.
Proof.
  intros Hr Hcb. rewrite (render_first changes1 styling1 a h1 Hr).
  unfold clear. cbn [currentModeCallbacks]. rewrite Hcb.
  rewrite clearLayers_rendered by reflexivity.
  rewrite render_first by reflexivity.
  cbn [calls call drawOutline drawFill rendered currentModeCallbacks].
  do 6 eexists. rewrite <- !app_assoc. cbn [app]. unfold layersAdded at 2.
  cbn [drawOutline drawFill]. reflexivity.
Qed.
End AdapterFacts.

Section AdapterWitnesses.
Import MapboxAdapter MapboxRender MapboxSample.

Lemma sampleStyling_keys : NoDup sampleStyling.*1.
Proof.
  cbn. repeat (apply NoDup_cons_2; [rewrite ?elem_of_cons, elem_of_nil; intuition discriminate|]).
  apply NoDup_nil_2.
Qed.

(** A new adapter, given the sample Point as created, the line as updated
    and the square as unchanged: only the Point reaches a source. *)
Lemma first_render_adds_layers_witness :
  calls (render sampleChanges sampleStyling (create None None) sampleHeap).1 =
    [AddSource "td-point" [0%nat]; AddLayer "td-point" "td-point" Circle;
     AddSource "td-linestring" []; AddLayer "td-linestring" "td-linestring" Line;
     AddSource "td-polygon" []; AddLayer "td-polygon" "td-polygon" Fill;
     AddLayer "td-polygon-outline" "td-polygon" Line; MoveLayer "td-point" None].
Proof.
  destruct (first_render_adds_layers sampleChanges sampleStyling (create None None)
              sampleHeap eq_refl sampleStyling_keys) as (Hcalls & _).
  rewrite Hcalls. vm_compute. reflexivity.
Defined.

Lemma render_styles_each_feature_witness :
  properties ((render sampleChanges sampleStyling (create None None) sampleHeap).2 0%nat)
    !! "pointWidth" = Some (JsNumber 6) /\
  (render sampleChanges sampleStyling (create None None) sampleHeap).2 2%nat
    = sampleHeap 2%nat.
Proof.
  assert (Hfeatures : NoDup (created sampleChanges ++ updated sampleChanges
                             ++ unchanged sampleChanges))
    by (cbn; repeat (apply NoDup_cons_2;
                       [rewrite ?elem_of_cons, elem_of_nil; intuition discriminate|]);
        apply NoDup_nil_2).
  split.
  - destruct (render_styles_each_feature sampleChanges sampleStyling (create None None)
                sampleHeap sampleStyling_keys Hfeatures 0%nat) as (Hin & _).
    rewrite Hin; [vm_compute; reflexivity|].
    apply list_elem_of_In. vm_compute. tauto.
  - destruct (render_styles_each_feature sampleChanges sampleStyling (create None None)
                sampleHeap sampleStyling_keys Hfeatures 2%nat) as (Hin & _).
    rewrite Hin; [vm_compute; reflexivity|].
    apply list_elem_of_In. vm_compute. tauto.
Defined.

(** The same changes given to an adapter that has rendered: the Point is
    sent, the square is not. *)
Lemma later_render_sends_data_witness :
  calls (render sampleChanges sampleStyling (mkAdapter true true true false [])
           sampleHeap).1
    = [SetData "td-point" [0%nat]].
Proof.
  destruct (later_render_sends_data sampleChanges sampleStyling
              (mkAdapter true true true false []) sampleHeap eq_refl sampleStyling_keys)
    as (Hcalls & _).
  rewrite Hcalls. vm_compute. reflexivity.
Defined.

Lemma clearLayers_removes_witness :
  calls (clearLayers (mkAdapter true true true true [])) = layersRemoved /\
  rendered (clearLayers (mkAdapter true true true true [])) = false.
Proof.
  destruct (clearLayers_removes (mkAdapter true true true true []) eq_refl)
    as (Hcalls & Hrendered & _).
  split; [exact Hcalls|exact Hrendered].
Defined.

Lemma render_clear_render_witness :
  exists points1 linestrings1 polygons1 points2 linestrings2 polygons2,
    calls (render sampleChanges sampleStyling
             (clear (render sampleChanges sampleStyling
                       (mkAdapter true true false true []) sampleHeap).1)
             sampleHeap).1 =
      layersAdded (mkAdapter true true false true []) points1 linestrings1 polygons1
        ++ OnClear :: layersRemoved
        ++ layersAdded (mkAdapter true true false true []) points2 linestrings2 polygons2.
Proof.
  exact (render_clear_render sampleChanges sampleChanges sampleStyling sampleStyling
           (mkAdapter true true false true []) sampleHeap sampleHeap eq_refl eq_refl).
Defined.
End AdapterWitnesses.
